(** * Voice assistants of Lab-10: a shallow embedding and its properties

    The repository holds three voice-driven programs:
    - [Extra_.py], a bilingual dictionary assistant ([Module Extra]);
    - [Lab_10.py], a Rick-and-Morty character assistant ([Module Lab10]);
    - [main1.py], a minimal recogniser loop ([Module Main1]).

    Python values are embedded as a small dynamically typed universe
    ([value]); strings are sequences of Unicode code points; exceptions are
    an explicit result type; everything the programs obtain from outside
    (HTTP replies, random draws, the interpreter's Unicode tables, the file
    system's verdicts) is read from an environment record [env]; everything
    they do to the outside is appended to an event log.

    Library behaviour is taken as of requests 2.27 or later (a body that is
    not JSON raises a [RequestException]) and POSIX paths.  What depends on
    the version of the interpreter ([random.randint] with a [float] bound)
    is read from the environment.  The speech engine is a capability: [say]
    always speaks. *)

From Stdlib Require Import ZArith NArith List String Ascii Bool Lia.
From stdpp Require Import base option list gmap.
Import ListNotations.

Set Warnings "-register-all".
Local Open Scope Z_scope.

(** ** Python strings *)

(** A Python [str] is a sequence of Unicode code points. *)
Abbreviation str := (list N).

(** Raw byte strings ([bytes]); one [N] below 256 per byte. *)
Abbreviation bytes := (list N).

Module Utf8.

(** Source literals are written as UTF-8 text; [decode] turns the bytes of
    such a literal into the code points Python sees. *)

Definition cont (b : N) : N := N.land b 63.

Fixpoint decode (bs : list N) : list N :=
  match bs with
  | [] => []
  | b :: r =>
    if (b <? 128)%N then b :: decode r
    else if (b <? 224)%N then
      match r with
      | b1 :: r1 => (N.land b 31 * 64 + cont b1)%N :: decode r1
      | _ => []
      end
    else if (b <? 240)%N then
      match r with
      | b1 :: b2 :: r2 =>
        (N.land b 15 * 4096 + cont b1 * 64 + cont b2)%N :: decode r2
      | _ => []
      end
    else
      match r with
      | b1 :: b2 :: b3 :: r3 =>
        (N.land b 7 * 262144 + cont b1 * 4096 + cont b2 * 64 + cont b3)%N
          :: decode r3
      | _ => []
      end
  end.

Fixpoint raw (s : string) : list N :=
  match s with
  | EmptyString => []
  | String a r => N_of_ascii a :: raw r
  end.

Definition lit (s : string) : list N := decode (raw s).

End Utf8.

(** [u "text"] is the Python string literal ["text"]. *)
Definition u (s : string) : str := Utf8.lit s.
Arguments u s%_string : simpl never.

Module Str.

Definition eqb (a b : str) : bool := bool_decide (a = b).

(** [c.isspace()]: the code points Python's [str.strip()] removes. *)
Definition isspace (c : N) : bool :=
  ((9 <=? c) && (c <=? 13) || (28 <=? c) && (c <=? 32)
   || (c =? 133) || (c =? 160) || (c =? 5760)
   || (8192 <=? c) && (c <=? 8202)
   || (c =? 8232) || (c =? 8233) || (c =? 8239) || (c =? 8287)
   || (c =? 12288))%N.

Fixpoint lstrip (s : str) : str :=
  match s with
  | c :: r => if isspace c then lstrip r else s
  | [] => []
  end.

Definition rstrip (s : str) : str := rev (lstrip (rev s)).

(** [s.strip()] *)
Definition strip (s : str) : str := rstrip (lstrip s).

(** [s.startswith(p)] *)
Fixpoint startswith (p s : str) : bool :=
  match p, s with
  | [], _ => true
  | a :: p', b :: s' => (a =? b)%N && startswith p' s'
  | _ :: _, [] => false
  end.

(** [p in s] for strings: [p] occurs in [s] as a contiguous block. *)
Fixpoint contains (p s : str) : bool :=
  startswith p s ||
  match s with
  | [] => false
  | _ :: s' => contains p s'
  end.

(** [s.replace(old, new)] for a non-empty [old]: every non-overlapping
    occurrence of [old], scanning from the left, is replaced.  [skip]
    counts the characters of an occurrence still to be dropped. *)
Fixpoint replace_from (old new : str) (skip : nat) (s : str) : str :=
  match s with
  | [] => []
  | c :: r =>
    match skip with
    | S k => replace_from old new k r
    | O =>
      if startswith old s
      then new ++ replace_from old new (Nat.pred (length old)) r
      else c :: replace_from old new 0 r
    end
  end.

Definition replace (old new s : str) : str := replace_from old new 0 s.

(** [sep.join(parts)] *)
Fixpoint join (sep : str) (parts : list str) : str :=
  match parts with
  | [] => []
  | [p] => p
  | p :: rest => p ++ sep ++ join sep rest
  end.

(** Decimal digits of a number, as [str(n)] prints an [int]. *)
Fixpoint digits (d : Decimal.uint) : str :=
  match d with
  | Decimal.Nil => []
  | Decimal.D0 r => 48%N :: digits r
  | Decimal.D1 r => 49%N :: digits r
  | Decimal.D2 r => 50%N :: digits r
  | Decimal.D3 r => 51%N :: digits r
  | Decimal.D4 r => 52%N :: digits r
  | Decimal.D5 r => 53%N :: digits r
  | Decimal.D6 r => 54%N :: digits r
  | Decimal.D7 r => 55%N :: digits r
  | Decimal.D8 r => 56%N :: digits r
  | Decimal.D9 r => 57%N :: digits r
  end.

Definition of_Z (z : Z) : str :=
  match Z.to_int z with
  | Decimal.Pos d => digits d
  | Decimal.Neg d => 45%N :: digits d
  end.

End Str.

(** ** Python values, exceptions and the environment *)

(** The values the programs handle: [None], and whatever [json.loads] /
    [Response.json()] can return.  A [float] is kept as a decimal mantissa
    and exponent; a [dict] as its items in insertion order (keys are
    distinct in a parsed dictionary). *)
Inductive value :=
| VNone
| VBool (b : bool)
| VInt (z : Z)
| VFloat (m e : Z)
| VStr (s : str)
| VList (l : list value)
| VDict (d : list (str * value)).

(** The exception classes that occur.  [RequestException] stands for the
    whole hierarchy of [requests.RequestException] (connection errors,
    [HTTPError] of [raise_for_status], and, as in requests 2.27 and later,
    the [JSONDecodeError] of [Response.json]); its argument is [str(e)]. *)
Inductive exn :=
| RequestException (msg : str)
| IndexError
| ValueError
| KeyError
| TypeError
| AttributeError
| OSError
| UnidentifiedImageError
| UnboundLocalError
| KeyboardInterrupt.

Inductive res (A : Type) :=
| Ok (a : A)
| Raise (e : exn).
Arguments Ok {A} a.
Arguments Raise {A} e.

(** What one HTTP GET produces: [requests.get] raises, or it returns a
    response with a status code, the message [raise_for_status] would raise
    with, the raw [content], and what [json()] gives (a value, or the
    message of the decoding error). *)
Inductive http_reply :=
| NetError (msg : str)
| Reply (status : Z) (reason : str) (content : bytes) (body : str + value).

(** What is stored in a file: the text [json.dump] wrote for a value, which
    [json.load] reads back as that value, or raw bytes. *)
Inductive file :=
| JsonText (v : value)
| Binary (b : bytes).

(** Everything observable the programs do, in order. *)
Inductive event :=
| Print (s : str)              (* print(...) *)
| Say (v : value)              (* tts.say(v); tts.runAndWait() *)
| SetVoice (id : str)          (* tts.setProperty('voice', id) *)
| Get (url : str)              (* requests.get(url) *)
| Draw (n : Z)                 (* the result of random.randint *)
| MakeDirs (folder : str)      (* os.makedirs(folder, exist_ok=True) *)
| WriteFile (path : str) (f : file)
| Browse (url : str)           (* webbrowser.open(url) *)
| Show (img : bytes)           (* Image.show() *)
| Sleep
| StopStream
| StartStream.

(** The outside world and the interpreter's tables.  Calls are told apart
    by the time they are made: the number of events logged so far. *)
Record env := {
  http : nat -> str -> http_reply;
  entropy : nat -> Z;                       (* raw random numbers *)
  float_bound : Z -> Z -> res Z;            (* random.randint(1, x), x a float *)
  lower : str -> str;                       (* str.lower *)
  isalnum : N -> bool;                      (* str.isalnum on one character *)
  repr : value -> str;                      (* str() of floats and containers *)
  image_size : bytes -> option (Z * Z);     (* PIL: size, or unidentified *)
  makedirs_ok : nat -> str -> bool;
  open_ok : nat -> str -> bool;             (* open(path, 'w') succeeds *)
  voices : list str;                        (* ids of the installed voices *)
}.

(** The mutable state: the one selected entity ([self.entry] /
    [self.character]), the files written, and the event log. *)
Record state := {
  selected : value;
  files : gmap (list N) file;
  log : list event;
}.

Module Py.

(** [bool(v)] *)
Definition truthy (v : value) : bool :=
  match v with
  | VNone => false
  | VBool b => b
  | VInt z => negb (z =? 0)
  | VFloat m _ => negb (m =? 0)
  | VStr s => match s with [] => false | _ => true end
  | VList l => match l with [] => false | _ => true end
  | VDict d => match d with [] => false | _ => true end
  end.

Fixpoint lookup_key (k : str) (d : list (str * value)) : option value :=
  match d with
  | [] => None
  | (k', v) :: r => if Str.eqb k k' then Some v else lookup_key k r
  end.

(** [v.get(k, default)] *)
Definition get (v : value) (k : str) (default : value) : res value :=
  match v with
  | VDict d => Ok (match lookup_key k d with Some x => x | None => default end)
  | _ => Raise AttributeError
  end.

(** [v[k]] for a string key *)
Definition item (v : value) (k : str) : res value :=
  match v with
  | VDict d => match lookup_key k d with Some x => Ok x | None => Raise KeyError end
  | _ => Raise TypeError
  end.

(** [v[0]] *)
Definition item0 (v : value) : res value :=
  match v with
  | VList l => match l with x :: _ => Ok x | [] => Raise IndexError end
  | VStr s => match s with c :: _ => Ok (VStr [c]) | [] => Raise IndexError end
  | VDict _ => Raise KeyError
  | _ => Raise TypeError
  end.

(** [k in v] for a string [k] *)
Definition contains (k : str) (v : value) : res bool :=
  match v with
  | VDict d => Ok (match lookup_key k d with Some _ => true | None => false end)
  | VList l =>
    Ok (existsb (fun x => match x with VStr s => Str.eqb k s | _ => false end) l)
  | VStr s => Ok (Str.contains k s)
  | _ => Raise TypeError
  end.

(** The items a [for] loop over [v] visits. *)
Definition iter (v : value) : res (list value) :=
  match v with
  | VList l => Ok l
  | VStr s => Ok (map (fun c => VStr [c]) s)
  | VDict d => Ok (map (fun kv => VStr (fst kv)) d)
  | _ => Raise TypeError
  end.

(** [str(v)], as an f-string formats [v]. *)
Definition to_str (E : env) (v : value) : str :=
  match v with
  | VStr s => s
  | VNone => u "None"
  | VBool true => u "True"
  | VBool false => u "False"
  | VInt z => Str.of_Z z
  | _ => repr E v
  end.

(** [sep.join(v)]: every item must be a string. *)
Fixpoint strings (l : list value) : res (list str) :=
  match l with
  | [] => Ok []
  | VStr s :: r =>
    match strings r with Ok ss => Ok (s :: ss) | Raise e => Raise e end
  | _ :: _ => Raise TypeError
  end.

Definition join (sep : str) (v : value) : res str :=
  match iter v with
  | Ok l => match strings l with Ok ss => Ok (Str.join sep ss) | Raise e => Raise e end
  | Raise e => Raise e
  end.

(** [operator.index(v)]: the integer [v] is, a [bool] being an [int]. *)
Definition index (v : value) : option Z :=
  match v with
  | VInt z => Some z
  | VBool b => Some (if b then 1 else 0)
  | _ => None
  end.

(** [random.randint(a, b)] on integers, from one raw random number. *)
Definition randint (a b raw : Z) : res Z :=
  if b <? a then Raise ValueError else Ok (a + raw mod (b - a + 1)).

(** The upper bound [random.randint(1, v)] draws up to.  An [int] (a [bool]
    is one) is its own bound.  A [float] depends on the interpreter: up to
    Python 3.11 an integral float stands for its integer and any other
    float is a [ValueError], from Python 3.12 on every float is a
    [TypeError]; the environment says which.  For anything else [v + 1]
    is a [TypeError]. *)
Definition upper (E : env) (v : value) : res Z :=
  match v with
  | VFloat m e => float_bound E m e
  | _ => match index v with
         | Some z => Ok z
         | None => Raise TypeError
         end
  end.

(** [os.path.join(folder, name)] (POSIX). *)
Definition path_join (folder name : str) : str :=
  if Str.startswith (u "/") name then name
  else match folder with
       | [] => name
       | _ => if Str.startswith (u "/") (rev folder) then folder ++ name
              else folder ++ u "/" ++ name
       end.

End Py.

(** ** The monad of the programs: state and exceptions *)

Definition M (A : Type) : Type := state -> res A * state.

Definition ret {A} (a : A) : M A := fun s => (Ok a, s).

Definition bind {A B} (c : M A) (k : A -> M B) : M B :=
  fun s => match c s with
           | (Ok a, s') => k a s'
           | (Raise e, s') => (Raise e, s')
           end.

Definition raise {A} (e : exn) : M A := fun s => (Raise e, s).

(** [try: c  except ...: h e]; [h e = None] when no clause matches [e]. *)
Definition try_except {A} (c : M A) (h : exn -> option (M A)) : M A :=
  fun s => match c s with
           | (Ok a, s') => (Ok a, s')
           | (Raise e, s') =>
             match h e with
             | Some k => k s'
             | None => (Raise e, s')
             end
           end.

Definition lift {A} (r : res A) : M A := fun s => (r, s).

Declare Scope py_scope.
Delimit Scope py_scope with py.
Notation "x <- c ; k" := (bind c (fun x => k))
  (at level 20, c at level 100, k at level 200, only parsing) : py_scope.
Notation "' pat <- c ; k" := (bind c (fun x => match x with pat => k end))
  (at level 20, pat pattern, c at level 100, k at level 200, only parsing) : py_scope.
Local Open Scope py_scope.

Definition emit (e : event) : M unit :=
  fun s => (Ok tt, {| selected := selected s; files := files s; log := log s ++ [e] |}).

Definition now : M nat := fun s => (Ok (length (log s)), s).

Definition get_selected : M value := fun s => (Ok (selected s), s).

Definition set_selected (v : value) : M unit :=
  fun s => (Ok tt, {| selected := v; files := files s; log := log s |}).

Definition store (path : str) (f : file) : M unit :=
  fun s => (Ok tt, {| selected := selected s; files := <[path := f]> (files s); log := log s |}).

(** [raise_for_status] raises for the status codes 400 to 599. *)
Definition error_status (st : Z) : bool := (400 <=? st) && (st <? 600).

Section Capabilities.
Variable E : env.

(** [requests.get(url)]; a non-string [url] is formatted with [str()]. *)
Definition requests_get (url : value) : M (Z * str * bytes * (str + value)) :=
  t <- now;
  _ <- emit (Get (Py.to_str E url));
  match http E t (Py.to_str E url) with
  | NetError msg => raise (RequestException msg)
  | Reply status reason content body => ret (status, reason, content, body)
  end.

(** [res.raise_for_status()] *)
Definition raise_for_status (r : Z * str * bytes * (str + value)) : M unit :=
  let '(status, reason, _, _) := r in
  if error_status status then raise (RequestException reason)
  else ret tt.

(** [res.json()] *)
Definition json (r : Z * str * bytes * (str + value)) : M value :=
  let '(_, _, _, body) := r in
  match body with
  | inl msg => raise (RequestException msg)
  | inr v => ret v
  end.

(** [res.content] *)
Definition content (r : Z * str * bytes * (str + value)) : bytes :=
  let '(_, _, c, _) := r in c.

(** [os.makedirs(folder, exist_ok=True)] *)
Definition makedirs (folder : str) : M unit :=
  t <- now;
  _ <- emit (MakeDirs folder);
  if makedirs_ok E t folder then ret tt else raise OSError.

(** [with open(path, mode) as f: <write data>] *)
Definition write_file (path : str) (data : file) : M unit :=
  t <- now;
  if open_ok E t path
  then _ <- emit (WriteFile path data); store path data
  else raise OSError.

(** [Image.open(BytesIO(data))] *)
Definition image_open (data : bytes) : M (bytes * (Z * Z)) :=
  match image_size E data with
  | Some wh => ret (data, wh)
  | None => raise UnidentifiedImageError
  end.

End Capabilities.

(** Loops over a list, in the monad. *)
Fixpoint for_each {A B} (f : A -> M B) (l : list A) : M (list B) :=
  match l with
  | [] => ret []
  | a :: r => b <- f a; bs <- for_each f r; ret (b :: bs)
  end.

(** A loop that returns from the function at the first item for which [f]
    produces a result. *)
Fixpoint first_of {A B} (f : A -> M (option B)) (l : list A) : M (option B) :=
  match l with
  | [] => ret None
  | a :: r => o <- f a; match o with Some b => ret (Some b) | None => first_of f r end
  end.

(** ** The listening loop *)

(** One turn of [while True: data = stream.read(4000, ...)]: the block of
    audio read, and the decoder's reaction to it: [final = Some r] when
    [AcceptWaveform(data)] is true and [json.loads(Result())] is [r].
    [Interrupt] is a [KeyboardInterrupt] arriving while the read blocks. *)
Inductive frame :=
| Audio (data : bytes) (final : option value)
| Interrupt.

(** What the generator does with one frame. *)
Inductive pull (U : Type) :=
| Skip                 (* next turn of the while loop *)
| Yield (text : U)
| Return               (* the generator returns *)
| Throw (e : exn).
Arguments Skip {U}.
Arguments Yield {U} text.
Arguments Return {U}.
Arguments Throw {U} e.

(** How one turn of the [for text in ...listen()] body ends. *)
Inductive flow := Continue | Break | Quit.

(** How a session ends.  [Waiting] is not an end: the frames given were all
    consumed and the program blocks in [stream.read]. *)
Inductive status :=
| Stopped
| Interrupted
| Crashed (e : exn)
| Waiting.

Section Loop.
Context {U : Type}.
Variable step : frame -> pull U.
Variable body : U -> M flow.

(** The generator alone: the next utterance and the frames left. *)
Fixpoint listen (fs : list frame) : pull U * list frame :=
  match fs with
  | [] => (Skip, [])
  | f :: r =>
    match step f with
    | Skip => listen r
    | p => (p, r)
    end
  end.

(** [for text in recognizer.listen(): body]: frames are pulled only when the
    body has finished; the result carries the frames never read. *)
Fixpoint session (fs : list frame) (s : state) : status * state * list frame :=
  match fs with
  | [] => (Waiting, s, [])
  | f :: r =>
    match step f with
    | Skip => session r s
    | Return => (Interrupted, s, r)
    | Throw e => (Crashed e, s, r)
    | Yield text =>
      match body text s with
      | (Ok Continue, s') => session r s'
      | (Ok Break, s') => (Stopped, s', r)
      | (Ok Quit, s') => (Stopped, s', r)
      | (Raise e, s') => (Crashed e, s', r)
      end
    end
  end.

End Loop.

(** ** Extra_.py: the dictionary assistant *)

Module Extra.

Definition BASE_URL : str := u "https://api.dictionaryapi.dev/api/v2/entries/en/".

Inductive action := save_ | meaning_ | example_ | link_ | exit_.

(** [COMMANDS], in source order. *)
Definition COMMANDS : list (str * action) :=
  [ (u "save", save_); (u "сохранить", save_);
    (u "meaning", meaning_); (u "значение", meaning_);
    (u "example", example_); (u "пример", example_);
    (u "link", link_); (u "ссылка", link_);
    (u "exit", exit_); (u "выход", exit_); (u "quit", exit_) ].

(** [COMMANDS.get(cmd)] *)
Fixpoint commands_get (cmd : str) (table : list (str * action)) : option action :=
  match table with
  | [] => None
  | (k, a) :: r => if Str.eqb cmd k then Some a else commands_get cmd r
  end.

(** Lines 141-146: the word after a trigger phrase. *)
Definition trigger_word (text : str) : option str :=
  if Str.startswith (u "find ") text
  then Some (Str.strip (Str.replace (u "find ") [] text))
  else if Str.startswith (u "найти ") text
  then Some (Str.strip (Str.replace (u "найти ") [] text))
  else None.

(** Lines 141-160, the routing decision: a non-empty trigger word is looked
    up ([if word:]); otherwise the stripped text is searched in [COMMANDS]. *)
Inductive routed :=
| Lookup (word : str)
| Command (a : action)
| Unknown.

Definition route (text : str) : routed :=
  match trigger_word text with
  | Some (c :: w) => Lookup (c :: w)
  | _ =>
    let cmd := Str.strip text in
    match commands_get cmd COMMANDS with
    | Some a => Command a
    | None => Unknown
    end
  end.

Section WithEnv.
Variable E : env.

(** [Speech.speak] *)
Definition speak (text : value) : M unit :=
  _ <- emit (Print (u "Assistant: " ++ Py.to_str E text));
  emit (Say text).

(** [Recognizer.listen], one frame. *)
Definition listen_step (f : frame) : pull str :=
  match f with
  | Interrupt => Return
  | Audio _ None => Skip
  | Audio _ (Some result) =>
    match Py.get result (u "text") (VStr []) with
    | Raise e => Throw e
    | Ok (VStr t) =>
      match Str.strip t with
      | [] => Skip
      | text => Yield (lower E text)
      end
    | Ok _ => Throw AttributeError
    end
  end.

(** [DictionaryAPI.find_word] *)
Definition find_word (word : str) : M (bool * value) :=
  try_except
    (res <- requests_get E (VStr (BASE_URL ++ word));
     _ <- raise_for_status res;
     data <- json res;
     first <- lift (Py.item0 data);
     _ <- set_selected first;
     ret (true, VNone))
    (fun e =>
       match e with
       | RequestException msg => Some (ret (false, VStr msg))
       | IndexError | ValueError => Some (ret (false, VStr (u "No entry found.")))
       | _ => None
       end).

(** [DictionaryAPI.save] *)
Definition save (folder : str) : M (bool * value) :=
  entry <- get_selected;
  if negb (Py.truthy entry) then ret (false, VStr (u "No word selected."))
  else
    _ <- makedirs E folder;
    word <- lift (Py.get entry (u "word") (VStr (u "entry")));
    let path := Py.path_join folder (Py.to_str E word ++ u ".json") in
    _ <- write_file E path (JsonText entry);
    ret (true, VStr path).

(** [DictionaryAPI.meaning] *)
Definition meaning : M (value * value) :=
  entry <- get_selected;
  if negb (Py.truthy entry) then ret (VNone, VStr (u "No word selected."))
  else
    ms <- lift (Py.get entry (u "meanings") (VList []));
    ml <- lift (Py.iter ms);
    groups <- for_each (fun m =>
        part <- lift (Py.get m (u "partOfSpeech") (VStr []));
        ds <- lift (Py.get m (u "definitions") (VList []));
        dl <- lift (Py.iter ds);
        for_each (fun d =>
            x <- lift (Py.get d (u "definition") VNone);
            ret (VStr (u "(" ++ Py.to_str E part ++ u ") " ++ Py.to_str E x))) dl) ml;
    ret (VList (concat groups), VNone).

(** [DictionaryAPI.example] *)
Definition example : M (value * value) :=
  entry <- get_selected;
  if negb (Py.truthy entry) then ret (VNone, VStr (u "No word selected."))
  else
    ms <- lift (Py.get entry (u "meanings") (VList []));
    ml <- lift (Py.iter ms);
    found <- first_of (fun m =>
        ds <- lift (Py.get m (u "definitions") (VList []));
        dl <- lift (Py.iter ds);
        first_of (fun d =>
            ex <- lift (Py.get d (u "example") VNone);
            ret (if Py.truthy ex then Some ex else None)) dl) ml;
    match found with
    | Some ex => ret (ex, VNone)
    | None => ret (VNone, VStr (u "No example found."))
    end.

(** [DictionaryAPI.link] *)
Definition link : M (value * value) :=
  entry <- get_selected;
  if negb (Py.truthy entry) then ret (VNone, VStr (u "No word selected."))
  else
    word <- lift (Py.get entry (u "word") VNone);
    ret (VStr (BASE_URL ++ Py.to_str E word), VNone).

Definition unknown_message : str :=
  u "Unknown command. Use save/сохранить, meaning/значение, example/пример, link/ссылка, or exit/выход.".

(** Lines 155-157 and 162-184: the handler of a recognised action and its
    rendering. *)
Definition perform (a : action) : M flow :=
  match a with
  | exit_ => _ <- speak (VStr (u "Goodbye!")); ret Break
  | save_ =>
    '(ok, r) <- save (u "dictionary_entries");
    _ <- speak (if ok then VStr (u "Saved to " ++ Py.to_str E r) else r);
    ret Continue
  | meaning_ =>
    '(defs, err) <- meaning;
    _ <- (if Py.truthy defs
          then dl <- lift (Py.iter defs); _ <- for_each speak dl; ret tt
          else speak err);
    ret Continue
  | example_ =>
    '(ex, err) <- example;
    _ <- speak (if Py.truthy ex then ex else err);
    ret Continue
  | link_ =>
    '(url, err) <- link;
    _ <- (if Py.truthy url
          then _ <- emit (Browse (Py.to_str E url));
               speak (VStr (u "Opened link: " ++ Py.to_str E url))
          else speak err);
    ret Continue
  end.

(** Lines 139-184: the body of the main loop. *)
Definition body (text : str) : M flow :=
  _ <- emit (Print (u "Heard: " ++ text));
  match route text with
  | Lookup word =>
    '(ok, err) <- find_word word;
    _ <- speak (VStr (if ok : bool then u "Word '" ++ word ++ u "' found."
                      else u "Error: " ++ Py.to_str E err));
    ret Continue
  | Command a => perform a
  | Unknown => _ <- speak (VStr unknown_message); ret Continue
  end.

(** Lines 128-184. *)
Definition main (fs : list frame) (s : state) : status * state * list frame :=
  match
    (_ <- speak (VStr (u "Dictionary assistant activated. Say 'find <word>' or 'найти <word>'."));
     _ <- speak (VStr (u "Then use commands: save/сохранить, meaning/значение, example/пример, link/ссылка, exit/выход."));
     emit Sleep) s
  with
  | (Ok _, s') => session listen_step body fs s'
  | (Raise e, s') => (Crashed e, s', fs)
  end.

End WithEnv.
End Extra.

(** ** Lab_10.py: the character assistant *)

Module Lab10.

Definition BASE_URL : str := u "https://rickandmortyapi.com/api".

Definition not_selected : value := VStr (u "Character not selected.").

(** [COMMANDS], in source order; the main loop only reads its keys, for the
    spoken list of commands. *)
Definition COMMANDS : list (str * str) :=
  [ (u "случайный", u "random"); (u "сохранить", u "save");
    (u "эпизод", u "first_ep"); (u "показать", u "show_img");
    (u "разрешение", u "resolution"); (u "происхождение", u "origin");
    (u "локация", u "location"); (u "список эпизодов", u "list_eps");
    (u "выход", u "exit") ].

Section WithEnv.
Variable E : env.

(** [Speech.speak] *)
Definition speak (text : value) : M unit := emit (Say text).

(** [Recognizer.listen], one frame. *)
Definition listen_step (f : frame) : pull str :=
  match f with
  | Interrupt => Return
  | Audio _ None => Skip
  | Audio _ (Some result) =>
    match Py.get result (u "text") (VStr []) with
    | Raise e => Throw e
    | Ok (VStr t) =>
      match Str.strip t with
      | [] => Skip
      | text => Yield text
      end
    | Ok _ => Throw AttributeError
    end
  end.

(** [RickAndMortyAPI._fetch] *)
Definition _fetch (endpoint : str) : M value :=
  try_except
    (res <- requests_get E (VStr (BASE_URL ++ u "/" ++ endpoint));
     _ <- raise_for_status res;
     json res)
    (fun e =>
       match e with
       | RequestException msg => Some (ret (VDict [(u "error", VStr msg)]))
       | _ => None
       end).

(** [RickAndMortyAPI._fetch_from_url] *)
Definition _fetch_from_url (url : value) : M value :=
  try_except
    (r <- requests_get E url;
     _ <- raise_for_status r;
     json r)
    (fun e =>
       match e with
       | RequestException _ => Some (ret (VDict []))
       | _ => None
       end).

(** [random.randint(1, total)] for whatever [total] is: the bound is
    worked out first, an empty range is a [ValueError].  The draw is
    logged. *)
Definition randint1 (total : value) : M Z :=
  t <- now;
  bound <- lift (Py.upper E total);
  n <- lift (Py.randint 1 bound (entropy E t));
  _ <- emit (Draw n);
  ret n.

(** Lines 80-81 of [random_character]: the total used for the draw. *)
Definition total_count : M value :=
  info <- _fetch (u "character");
  inner <- lift (Py.get info (u "info") (VDict []));
  lift (Py.get inner (u "count") (VInt 826)).

(** Lines 83-87 of [random_character]: fetch the character drawn and
    select it. *)
Definition select_character (char_id : Z) : M (value * value) :=
  data <- _fetch (u "character/" ++ Str.of_Z char_id);
  failed <- lift (Py.contains (u "error") data);
  if failed : bool
  then err <- lift (Py.item data (u "error")); ret (VNone, err)
  else
    _ <- set_selected data;
    name <- lift (Py.item data (u "name"));
    ret (name, VNone).

(** [RickAndMortyAPI.random_character] *)
Definition random_character : M (value * value) :=
  total <- total_count;
  char_id <- randint1 total;
  select_character char_id.

(** [c.isalnum()] for a string [c]. *)
Definition isalnum_str (c : str) : bool :=
  match c with [] => false | _ => forallb (isalnum E) c end.

(** The items of [name] kept by the generator expression of line 95. *)
Fixpoint safe_chars (items : list value) : res (list str) :=
  match items with
  | [] => Ok []
  | VStr c :: r =>
    match safe_chars r with
    | Ok cs =>
      Ok (if isalnum_str c || Str.eqb c (u " ") || Str.eqb c (u "_")
          then c :: cs else cs)
    | Raise e => Raise e
    end
  | _ :: _ => Raise AttributeError
  end.

(** [RickAndMortyAPI.save_image] *)
Definition save_image (folder : str) : M (value * value) :=
  character <- get_selected;
  if negb (Py.truthy character) then ret (VNone, not_selected)
  else
    _ <- makedirs E folder;
    url <- lift (Py.item character (u "image"));
    r <- requests_get E url;
    let data := content r in
    name <- lift (Py.item character (u "name"));
    items <- lift (Py.iter name);
    kept <- lift (safe_chars items);
    let safe_name := Str.strip (concat kept) in
    let path := Py.path_join folder (safe_name ++ u ".jpg") in
    _ <- write_file E path (Binary data);
    ret (VStr path, VNone).

(** [RickAndMortyAPI.first_episode] *)
Definition first_episode : M (value * value) :=
  character <- get_selected;
  if negb (Py.truthy character) then ret (VNone, not_selected)
  else
    eps <- lift (Py.item character (u "episode"));
    url <- lift (Py.item0 eps);
    ep <- _fetch_from_url url;
    name <- lift (Py.get ep (u "name") VNone);
    ret (name, VNone).

(** [RickAndMortyAPI.show_image] *)
Definition show_image : M (value * value) :=
  character <- get_selected;
  if negb (Py.truthy character) then ret (VNone, not_selected)
  else
    url <- lift (Py.item character (u "image"));
    r <- requests_get E url;
    img <- image_open E (content r);
    _ <- emit (Show (fst img));
    ret (VStr (u "Image displayed."), VNone).

(** [RickAndMortyAPI.image_resolution] *)
Definition image_resolution : M (value * value) :=
  character <- get_selected;
  if negb (Py.truthy character) then ret (VNone, not_selected)
  else
    url <- lift (Py.item character (u "image"));
    r <- requests_get E url;
    img <- image_open E (content r);
    let '(w, h) := snd img in
    ret (VStr (Str.of_Z w ++ u "x" ++ Str.of_Z h), VNone).

(** [RickAndMortyAPI.origin] *)
Definition origin : M (value * value) :=
  character <- get_selected;
  if negb (Py.truthy character) then ret (VNone, not_selected)
  else
    o <- lift (Py.item character (u "origin"));
    name <- lift (Py.item o (u "name"));
    ret (name, VNone).

(** [RickAndMortyAPI.location] *)
Definition location : M (value * value) :=
  character <- get_selected;
  if negb (Py.truthy character) then ret (VNone, not_selected)
  else
    l <- lift (Py.item character (u "location"));
    name <- lift (Py.item l (u "name"));
    ret (name, VNone).

(** [RickAndMortyAPI.episodes_list] *)
Definition episodes_list : M (value * value) :=
  character <- get_selected;
  if negb (Py.truthy character) then ret (VNone, not_selected)
  else
    eps <- lift (Py.item character (u "episode"));
    urls <- lift (Py.iter eps);
    names <- for_each (fun url =>
        data <- _fetch_from_url url;
        lift (Py.get data (u "name") VNone)) urls;
    ret (VList names, VNone).

(** The commands of the dispatch chain. *)
Inductive command :=
| exit_ | random_ | save_ | first_ep_ | list_eps_ | show_img_
| resolution_ | origin_ | location_ | unknown_.

(** Lines 176-213: which branch of the [if]/[elif] chain [cmd] takes. *)
Definition branch (cmd : str) : command :=
  if Str.contains (u "выход") cmd || Str.contains (u "прощаюсь") cmd then exit_
  else if Str.contains (u "случайный") cmd then random_
  else if Str.contains (u "сохранить") cmd then save_
  else if Str.contains (u "эпизод") cmd then first_ep_
  else if Str.contains (u "список эпизодов") cmd then list_eps_
  else if Str.contains (u "показать") cmd then show_img_
  else if Str.contains (u "разрешение") cmd then resolution_
  else if Str.contains (u "происхождение") cmd then origin_
  else if Str.contains (u "локация") cmd then location_
  else unknown_.

(** [speech.speak(x if not err else err)], where computing [x] may raise. *)
Definition speak_result (x : M value) (err : value) : M unit :=
  if negb (Py.truthy err) then v <- x; speak v else speak err.

(** The body of each branch. *)
Definition perform (c : command) : M flow :=
  match c with
  | exit_ => _ <- speak (VStr (u "До скорых встреч!")); ret Break
  | random_ =>
    '(name, err) <- random_character;
    _ <- speak_result (ret name) err; ret Continue
  | save_ =>
    '(path, err) <- save_image (u "images");
    _ <- speak_result (ret (VStr (u "Сохранено: " ++ Py.to_str E path))) err;
    ret Continue
  | first_ep_ =>
    '(ep, err) <- first_episode;
    _ <- speak_result (ret ep) err; ret Continue
  | list_eps_ =>
    '(eps, err) <- episodes_list;
    _ <- speak_result (s <- lift (Py.join (u ", ") eps); ret (VStr s)) err;
    ret Continue
  | show_img_ =>
    '(msg, err) <- show_image;
    _ <- speak_result (ret msg) err; ret Continue
  | resolution_ =>
    '(r, err) <- image_resolution;
    _ <- speak_result (ret (VStr (u "Разрешение: " ++ Py.to_str E r))) err;
    ret Continue
  | origin_ =>
    '(o, err) <- origin;
    _ <- speak_result (ret o) err; ret Continue
  | location_ =>
    '(loc, err) <- location;
    _ <- speak_result (ret loc) err; ret Continue
  | unknown_ =>
    _ <- speak (VStr (u "Команда не распознана. Попробуйте снова."));
    ret Continue
  end.

(** Lines 174-213: the body of the main loop. *)
Definition body (text : str) : M flow :=
  _ <- emit (Print (u "Распознано: " ++ text));
  let cmd := lower E text in
  perform (branch cmd).

(** Lines 164-213. *)
Definition main (fs : list frame) (s : state) : status * state * list frame :=
  match
    (_ <- speak (VStr (u "Голосовой ассистент Рик и Морти активирован."));
     _ <- speak (VStr (u "Команды: " ++ Str.join (u ", ") (map fst COMMANDS)));
     emit Sleep) s
  with
  | (Ok _, s') => session listen_step body fs s'
  | (Raise e, s') => (Crashed e, s', fs)
  end.

End WithEnv.
End Lab10.

(** ** main1.py: the minimal loop *)

Module Main1.

Section WithEnv.
Variable E : env.

(** [Speech.set_voice]: the id of voice number [speaker], or of the first
    voice; with no voice installed [id] is never bound. *)
Definition set_voice (speaker : nat) : M str :=
  match voices E with
  | [] => raise UnboundLocalError
  | first :: _ =>
    _ <- emit (Print (u "0"));
    ret (match voices E !! speaker with Some id => id | None => first end)
  end.

(** [Speech.text2voice] *)
Definition text2voice (speaker : nat) (text : value) : M unit :=
  id <- set_voice speaker;
  _ <- emit (SetVoice id);
  emit (Say text).

(** [speak] *)
Definition speak (text : value) : M unit := text2voice 1 text.

(** [Recognize.listen], one frame. *)
Definition listen_step (f : frame) : pull value :=
  match f with
  | Interrupt => Throw KeyboardInterrupt
  | Audio data final =>
    match final with
    | Some answer =>
      if (0 <? length data)%nat then
        match Py.item answer (u "text") with
        | Raise e => Throw e
        | Ok text => if Py.truthy text then Yield text else Skip
        end
      else Skip
    | None => Skip
    end
  end.

(** Lines 66-70: the body of the main loop. *)
Definition body (text : value) : M flow :=
  match text with
  | VStr t =>
    if Str.eqb t (u "закрыть")
    then _ <- speak (VStr (u "Бывай, ихтиандр")); ret Quit
    else _ <- emit (Print t); ret Continue
  | _ => _ <- emit (Print (Py.to_str E text)); ret Continue
  end.

(** Lines 59-70. *)
Definition main (fs : list frame) (s : state) : status * state * list frame :=
  match
    (_ <- emit StopStream;
     _ <- speak (VStr (u "Starting"));
     _ <- emit Sleep;
     emit StartStream) s
  with
  | (Ok _, s') => session listen_step body fs s'
  | (Raise e, s') => (Crashed e, s', fs)
  end.

End WithEnv.
End Main1.

(** ** Reading a saved file back *)

(** [json.load(open(path))]: the value a JSON file holds. *)
Definition read_json (s : state) (path : str) : option value :=
  match files s !! path with
  | Some (JsonText v) => Some v
  | _ => None
  end.

(** [open(path, 'rb').read()]: the bytes of a binary file. *)
Definition read_bytes (s : state) (path : str) : option bytes :=
  match files s !! path with
  | Some (Binary b) => Some b
  | _ => None
  end.

(** ** Order of speech and side effects *)

(** The side effects of a command: opening the browser, showing an image,
    writing a file. *)
Definition is_side_effect (e : event) : bool :=
  match e with
  | Browse _ | Show _ | WriteFile _ _ => true
  | _ => false
  end.

Definition is_speech (e : event) : bool :=
  match e with
  | Say _ => true
  | _ => false
  end.

(** Every event of [l] satisfies [f]. *)
Definition only (f : event -> bool) (l : list event) : Prop := forallb f l = true.

(** Nothing is said. *)
Definition quiet : list event -> Prop := only (fun e => negb (is_speech e)).

(** No side effect happens. *)
Definition harmless : list event -> Prop := only (fun e => negb (is_side_effect e)).

(** Once something was said, no side effect follows. *)
Fixpoint effects_first (l : list event) : bool :=
  match l with
  | [] => true
  | e :: r =>
    if is_speech e then forallb (fun x => negb (is_side_effect x)) r
    else effects_first r
  end.

(** Whatever the state, the events [c] adds to the log satisfy [P]. *)
Definition emits {A} (P : list event -> Prop) (c : M A) : Prop :=
  forall s, exists new, log (snd (c s)) = log s ++ new /\ P new.

(** ** Kinds of replies *)

(** The reply makes a guarded request fail: [requests.get] raises, the
    status is an error status, or the body is not JSON. *)
Definition failed_reply (r : http_reply) : bool :=
  match r with
  | NetError _ => true
  | Reply st _ _ body =>
    error_status st || match body with inl _ => true | inr _ => false end
  end.

(** [str(e)] of the exception a failed reply raises. *)
Definition failure_message (r : http_reply) : str :=
  match r with
  | NetError msg => msg
  | Reply st reason _ body =>
    if error_status st then reason
    else match body with inl msg => msg | inr _ => [] end
  end.

(** The count field of a JSON reply, [v["info"]["count"]], when it is
    there. *)
Definition count_field (v : value) : option value :=
  match v with
  | VDict d =>
    match Py.lookup_key (u "info") d with
    | Some (VDict i) => Py.lookup_key (u "count") i
    | _ => None
    end
  | _ => None
  end.

(** The reply lacks the count field, in whatever way. *)
Definition lacks_count (v : value) : bool :=
  match count_field v with
  | Some _ => false
  | None => true
  end.

(** The replies without count for which both defaults of line 81 apply: a
    JSON object without ["info"], or whose ["info"] is an object without
    ["count"]. *)
Definition object_without_count (v : value) : bool :=
  match v with
  | VDict d =>
    match Py.lookup_key (u "info") d with
    | None => true
    | Some (VDict i) =>
      match Py.lookup_key (u "count") i with None => true | Some _ => false end
    | Some _ => false
    end
  | _ => false
  end.

(** ** Concrete environments, for running the programs *)

Module Sample.

(** [str.lower] on the Latin and Cyrillic capitals (the alphabets of the
    two command tables); other characters are left as they are. *)
Definition lower_char (c : N) : N :=
  (if (65 <=? c) && (c <=? 90) then c + 32
   else if (1040 <=? c) && (c <=? 1071) then c + 32
   else if (1024 <=? c) && (c <=? 1039) then c + 80
   else c)%N.

Definition alnum_char (c : N) : bool :=
  ((48 <=? c) && (c <=? 57) || (65 <=? c) && (c <=? 90)
   || (97 <=? c) && (c <=? 122) || (1024 <=? c) && (c <=? 1119))%N.

Definition hello_entry : value :=
  VDict [ (u "word", VStr (u "hello"));
          (u "meanings",
           VList [ VDict [ (u "partOfSpeech", VStr (u "noun"));
                           (u "definitions",
                            VList [ VDict [ (u "definition", VStr (u "A greeting."));
                                            (u "example", VStr (u "hello there")) ] ]) ] ]) ].

Definition rick : value :=
  VDict [ (u "id", VInt 1);
          (u "name", VStr (u "Rick Sanchez"));
          (u "origin", VDict [ (u "name", VStr (u "Earth (C-137)")) ]);
          (u "location", VDict [ (u "name", VStr (u "Citadel of Ricks")) ]);
          (u "image", VStr (u "https://rickandmortyapi.com/api/character/avatar/1.jpeg"));
          (u "episode", VList [ VStr (u "https://rickandmortyapi.com/api/episode/1") ]) ].

Definition jpeg : bytes := [255; 216; 255; 224; 0; 16]%N.

(** A network in which the two services answer as documented. *)
Definition web (url : str) : http_reply :=
  if Str.eqb url (u "https://api.dictionaryapi.dev/api/v2/entries/en/hello")
  then Reply 200 [] [] (inr (VList [hello_entry]))
  else if Str.eqb url (u "https://rickandmortyapi.com/api/character")
  then Reply 200 [] [] (inr (VDict [ (u "info", VDict [ (u "count", VInt 826) ]) ]))
  else if Str.eqb url (u "https://rickandmortyapi.com/api/character/1")
  then Reply 200 [] [] (inr rick)
  else if Str.eqb url (u "https://rickandmortyapi.com/api/character/avatar/1.jpeg")
  then Reply 200 [] jpeg (inl (u "Expecting value"))
  else if Str.eqb url (u "https://rickandmortyapi.com/api/episode/1")
  then Reply 200 [] [] (inr (VDict [ (u "name", VStr (u "Pilot")) ]))
  else Reply 404 (u "404 Client Error: Not Found") []
             (inr (VDict [ (u "error", VStr (u "Not found")) ])).

Definition online : env :=
  {| http := fun _ url => web url;
     entropy := fun _ => 0;
     float_bound := fun _ _ => Raise TypeError;
     lower := map lower_char;
     isalnum := alnum_char;
     repr := fun _ => u "<object>";
     image_size := fun b => match b with [] => None | _ => Some (300, 300) end;
     makedirs_ok := fun _ _ => true;
     open_ok := fun _ _ => true;
     voices := [ u "ru"; u "en" ] |}.

(** The same machine with the network cable unplugged. *)
Definition offline : env :=
  {| http := fun _ _ => NetError (u "Connection refused");
     entropy := entropy online;
     float_bound := float_bound online;
     lower := lower online;
     isalnum := isalnum online;
     repr := repr online;
     image_size := image_size online;
     makedirs_ok := makedirs_ok online;
     open_ok := open_ok online;
     voices := voices online |}.

(** The state at start-up: nothing selected, nothing written, nothing said. *)
Definition start : state := {| selected := VNone; files := ∅; log := [] |}.

Definition with_selected (v : value) : state :=
  {| selected := v; files := ∅; log := [] |}.

(** A block of audio on which the decoder finalises [text]. *)
Definition heard (text : string) : frame :=
  Audio [0; 0]%N (Some (VDict [ (u "text", VStr (u text)) ])).

(** A block of audio that completes nothing. *)
Definition silence : frame := Audio [0; 0]%N None.

End Sample.

(** ** What a computation leaves alone *)

(** Whatever the state and the outcome, [c] does not change the part [f]
    of the state. *)
Definition keeps {A X} (f : state -> X) (c : M A) : Prop :=
  forall s, f (snd (c s)) = f s.

(** The events a run added to the log. *)
Definition since (s s' : state) : list event := drop (length (log s)) (log s').

(** Whenever [c] returns normally, the last thing it did was a call of
    [speech.speak] ([tts.say] and [runAndWait]), whatever the value passed:
    [None] counts as well, so this is about the call being made, not about
    something being heard. *)
Definition ends_with_say {A} (c : M A) : Prop :=
  forall s r s', c s = (Ok r, s') ->
                 exists pre v, log s' = log s ++ pre ++ [Say v].

(** ** Speech.set_voice of Extra_.py and Lab_10.py *)

Module Speech.

(** [Speech.set_voice(lang_code)], given the installed voices (the [id] and
    the [languages] of each, in the order [getProperty('voices')] lists
    them): the first voice whose joined, lowercased languages contain
    [lang_code] is set; with no such voice nothing is set. *)
Fixpoint set_voice (E : env) (installed : list (str * list str)) (lang_code : str)
  : M unit :=
  match installed with
  | [] => ret tt
  | (id, languages) :: rest =>
    if Str.contains lang_code (lower E (concat languages))
    then emit (SetVoice id)
    else set_voice E rest lang_code
  end.

End Speech.

(** ** Further environments *)

Module Cases.

(** A machine without any installed voice. *)
Definition mute : env :=
  {| http := http Sample.online;
     entropy := entropy Sample.online;
     float_bound := float_bound Sample.online;
     lower := lower Sample.online;
     isalnum := isalnum Sample.online;
     repr := repr Sample.online;
     image_size := image_size Sample.online;
     makedirs_ok := makedirs_ok Sample.online;
     open_ok := open_ok Sample.online;
     voices := [] |}.

(** A service that reports a count of [n] characters. *)
Definition counting (n : value) : env :=
  {| http := fun _ url =>
       if Str.eqb url (u "https://rickandmortyapi.com/api/character")
       then Reply 200 [] [] (inr (VDict [ (u "info", VDict [ (u "count", n) ]) ]))
       else Sample.web url;
     entropy := entropy Sample.online;
     float_bound := float_bound Sample.online;
     lower := lower Sample.online;
     isalnum := isalnum Sample.online;
     repr := repr Sample.online;
     image_size := image_size Sample.online;
     makedirs_ok := makedirs_ok Sample.online;
     open_ok := open_ok Sample.online;
     voices := voices Sample.online |}.

(** A service that answers every request with the JSON value [body]. *)
Definition replying (body : value) : env :=
  {| http := fun _ _ => Reply 200 [] [] (inr body);
     entropy := entropy Sample.online;
     float_bound := float_bound Sample.online;
     lower := lower Sample.online;
     isalnum := isalnum Sample.online;
     repr := repr Sample.online;
     image_size := image_size Sample.online;
     makedirs_ok := makedirs_ok Sample.online;
     open_ok := open_ok Sample.online;
     voices := voices Sample.online |}.

(** Two installed voices, with their language tags. *)
Definition two_voices : list (str * list str) :=
  [ (u "voice-fr", [u "fr_FR"; u "UK"]); (u "voice-ru", [u "ru_RU"]) ].

(** The items of a dictionary. *)
Definition fields (v : value) : list (str * value) :=
  match v with
  | VDict d => d
  | _ => []
  end.

(** An entry of the dictionary without any meaning. *)
Definition bare_entry : value := VDict [ (u "word", VStr (u "hm")) ].

End Cases.

(** * Properties *)

(** ** Strings *)

Lemma startswith_spec (p s : str) :
  Str.startswith p s = true <-> exists r, s = p ++ r.
Proof.
  revert s. induction p as [|a p IH]; intros s; simpl.
  - split; [intros _; by exists s | done].
  - destruct s as [|b s].
    + split; [done | intros [r Hr]; discriminate].
    + rewrite andb_true_iff, N.eqb_eq, IH. split.
      * intros [-> [r ->]]. by exists r.
      * intros [r Hr]. injection Hr as -> ->. eauto.
Qed.

Lemma startswith_app (p r : str) : Str.startswith p (p ++ r) = true.
Proof. apply startswith_spec. by exists r. Qed.

Lemma contains_spec (p s : str) :
  Str.contains p s = true <-> exists a b, s = a ++ p ++ b.
Proof.
  induction s as [|c s IH]; simpl.
  - rewrite orb_false_r, startswith_spec. split.
    + intros [r Hr]. by exists [], r.
    + intros [a [b Hab]]. destruct a; [by exists b|discriminate].
  - rewrite orb_true_iff, startswith_spec, IH. split.
    + intros [[r Hr] | [a [b Hab]]].
      * by exists [], r.
      * exists (c :: a), b. by rewrite Hab.
    + intros [a [b Hab]]. destruct a as [|c' a].
      * left. by exists b.
      * right. injection Hab as _ ->. by exists a, b.
Qed.

Lemma contains_app (a p b : str) : Str.contains p (a ++ p ++ b) = true.
Proof. apply contains_spec. by exists a, b. Qed.

Lemma contains_self (p : str) : Str.contains p p = true.
Proof. apply contains_spec. exists [], []. by rewrite app_nil_r. Qed.

Lemma contains_trans (p q s : str) :
  Str.contains p q = true -> Str.contains q s = true -> Str.contains p s = true.
Proof.
  rewrite !contains_spec. intros [a [b ->]] [c [d ->]].
  exists (c ++ a), (b ++ d). by rewrite <- !app_assoc.
Qed.

Lemma replace_from_skip (old new : str) (k : nat) (s : str) :
  Str.replace_from old new k s = Str.replace_from old new 0 (drop k s).
Proof.
  revert k. induction s as [|c s IH]; intros k.
  - by destruct k.
  - destruct k as [|k]; [done|]. simpl. apply IH.
Qed.

Lemma replace_absent (old new s : str) :
  Str.contains old s = false -> Str.replace old new s = s.
Proof.
  unfold Str.replace. induction s as [|c s IH]; [done|].
  intros H. simpl in H. apply orb_false_iff in H as [H1 H2].
  cbn [Str.replace_from]. rewrite H1. f_equal. by apply IH.
Qed.

Lemma replace_prefix (old new rest : str) :
  old <> [] ->
  Str.replace old new (old ++ rest) = new ++ Str.replace old new rest.
Proof.
  intros Hne. destruct old as [|a o]; [done|]. unfold Str.replace.
  change ((a :: o) ++ rest) with (a :: (o ++ rest)).
  cbn [Str.replace_from].
  change (a :: (o ++ rest)) with ((a :: o) ++ rest).
  rewrite startswith_app. f_equal. simpl Nat.pred.
  rewrite replace_from_skip. by rewrite drop_app_length.
Qed.

Lemma lstrip_nonspace (c : N) (s : str) :
  Str.isspace c = false -> Str.lstrip (c :: s) = c :: s.
Proof. intros H. simpl. by rewrite H. Qed.

(** ** Routing *)

Lemma commands_get_In (cmd : str) (a : Extra.action) (table : list (str * Extra.action)) :
  Extra.commands_get cmd table = Some a -> In (cmd, a) table.
Proof.
  induction table as [|[k b] r IH]; simpl; [done|].
  unfold Str.eqb. case_bool_decide as Hk.
  - intros [= ->]. left. by rewrite Hk.
  - intros H. right. by apply IH.
Qed.

Lemma commands_get_unique (cmd : str) (a : Extra.action) (table : list (str * Extra.action)) :
  NoDup (map fst table) -> In (cmd, a) table -> Extra.commands_get cmd table = Some a.
Proof.
  induction table as [|[k b] r IH]; simpl; [done|].
  intros Hnd [Heq | Hin].
  - injection Heq as -> ->. unfold Str.eqb. by rewrite bool_decide_eq_true_2.
  - apply NoDup_cons in Hnd as [Hk Hnd]. unfold Str.eqb. case_bool_decide as Hc.
    + subst k. exfalso. apply Hk. apply list_elem_of_In.
      change cmd with (fst (cmd, a)). by apply in_map.
    + by apply IH.
Qed.

Lemma commands_get_None (cmd : str) (table : list (str * Extra.action)) :
  Extra.commands_get cmd table = None <-> ~ In cmd (map fst table).
Proof.
  induction table as [|[k b] r IH]; simpl; [tauto|].
  unfold Str.eqb. case_bool_decide as Hk.
  - split; [done|]. intros H. exfalso. apply H. by left.
  - rewrite IH. split; [|tauto]. intros H [Heq|Hin]; [by subst|tauto].
Qed.

Lemma Extra_COMMANDS_keys_distinct : NoDup (map fst Extra.COMMANDS).
Proof. apply (bool_decide_unpack _). by vm_compute. Qed.

Lemma Extra_route_no_trigger (text : str) :
  Str.startswith (u "find ") text = false ->
  Str.startswith (u "найти ") text = false ->
  Extra.route text =
  match Extra.commands_get (Str.strip text) Extra.COMMANDS with
  | Some a => Extra.Command a
  | None => Extra.Unknown
  end.
Proof. intros H1 H2. unfold Extra.route, Extra.trigger_word. by rewrite H1, H2. Qed.

(** The [if]/[elif] chain of Lab_10.py, one test after the other. *)
Ltac branch_cases cmd :=
  unfold Lab10.branch;
  repeat match goal with
         | |- context [Str.contains ?p cmd] =>
           let H := fresh "Hc" in
           destruct (Str.contains p cmd) eqn:H; cbn [orb]
         end.

Lemma Lab10_branch_dispatches (cmd : str) :
  Lab10.branch cmd <> Lab10.unknown_ <->
  exists p, In p (u "прощаюсь" :: map fst Lab10.COMMANDS) /\ Str.contains p cmd = true.
Proof.
  split.
  - branch_cases cmd; intros H; try done;
      match goal with
      | Hc : Str.contains ?p cmd = true |- _ => exists p; split; [|exact Hc]
      end; vm_compute; intuition reflexivity.
  - intros [p [Hin Hp]]. unfold Lab10.COMMANDS in Hin. cbn [In map fst] in Hin.
    assert (Hsub : Str.contains (u "эпизод") (u "список эпизодов") = true)
      by reflexivity.
    repeat destruct Hin as [<- | Hin]; try done;
      branch_cases cmd; try done; congruence.
Qed.

(** C1, as amended.  In Extra_.py an utterance that does not start with a
    trigger phrase dispatches a command exactly when the whole stripped
    utterance is a key of [COMMANDS] (and is answered as unknown exactly
    when it is not).  In Lab_10.py, which has no trigger phrases, an
    utterance dispatches a command exactly when some phrase of the chain (a
    key of [COMMANDS], or "прощаюсь") occurs somewhere in the lowercased
    utterance, so a phrase inside a longer utterance does dispatch. *)
Theorem C1_exact_lookup_or_containment :
  (forall text : str,
      Str.startswith (u "find ") text = false ->
      Str.startswith (u "найти ") text = false ->
      (forall a, Extra.route text = Extra.Command a <->
                 In (Str.strip text, a) Extra.COMMANDS)
      /\ (Extra.route text = Extra.Unknown <->
          ~ In (Str.strip text) (map fst Extra.COMMANDS)))
  /\ (forall (E : env) (text : str),
         Lab10.branch (lower E text) <> Lab10.unknown_ <->
         exists p, In p (u "прощаюсь" :: map fst Lab10.COMMANDS)
                   /\ Str.contains p (lower E text) = true)
  /\ (forall (E : env) (a p b : str),
         In p (u "прощаюсь" :: map fst Lab10.COMMANDS) ->
         lower E (a ++ p ++ b) = a ++ p ++ b ->
         Lab10.branch (lower E (a ++ p ++ b)) <> Lab10.unknown_).
Proof.
  split; [|split].
  - intros text H1 H2. rewrite (Extra_route_no_trigger text H1 H2). split.
    + intros a. split.
      * destruct (Extra.commands_get _ _) eqn:Hg; [|done].
        intros [= ->]. by apply commands_get_In.
      * intros Hin.
        by rewrite (commands_get_unique _ _ _ Extra_COMMANDS_keys_distinct Hin).
    + rewrite <- commands_get_None.
      destruct (Extra.commands_get _ _); split; done.
  - intros E text. apply Lab10_branch_dispatches.
  - intros E a p b Hin Hlow. rewrite Hlow. apply Lab10_branch_dispatches.
    exists p. split; [done|]. apply contains_app.
Qed.

Lemma C1_witness :
  Extra.route (u "значение") = Extra.Command Extra.meaning_
  /\ Lab10.branch (lower Sample.online (u "не сохранить сейчас")) <> Lab10.unknown_.
Proof.
  split.
  - apply (proj1 C1_exact_lookup_or_containment (u "значение"));
      [reflexivity | reflexivity | vm_compute; intuition reflexivity].
  - apply (proj2 (proj2 C1_exact_lookup_or_containment)
             Sample.online (u "не ") (u "сохранить") (u " сейчас"));
      [vm_compute; intuition reflexivity | reflexivity].
Defined.

(** C1 as stated fails on Lab_10.py: "не сохранить" is no key of
    [COMMANDS], yet it takes the "сохранить" branch and the save handler
    answers. *)
Lemma C1_substring_dispatches :
  ~ In (u "не сохранить") (map fst Lab10.COMMANDS)
  /\ Lab10.branch (lower Sample.online (u "не сохранить")) = Lab10.save_
  /\ log (snd (Lab10.body Sample.online (u "не сохранить") Sample.start))
     = [Print (u "Распознано: не сохранить"); Say Lab10.not_selected].
Proof.
  split; [|split]; [|reflexivity|reflexivity].
  vm_compute. intros H. repeat (destruct H as [H|H]; [discriminate H|]). exact H.
Qed.

Lemma trigger_word_find (rest : str) :
  Str.contains (u "find ") rest = false ->
  Extra.trigger_word (u "find " ++ rest) = Some (Str.strip rest).
Proof.
  intros H. unfold Extra.trigger_word. rewrite startswith_app.
  rewrite replace_prefix by done. by rewrite replace_absent.
Qed.

Lemma trigger_word_najti (rest : str) :
  Str.contains (u "найти ") rest = false ->
  Extra.trigger_word (u "найти " ++ rest) = Some (Str.strip rest).
Proof.
  intros H. unfold Extra.trigger_word.
  replace (Str.startswith (u "find ") (u "найти " ++ rest)) with false
    by (by vm_compute).
  rewrite startswith_app, replace_prefix by done. by rewrite replace_absent.
Qed.

(** ** A trigger phrase always leads to a lookup *)

Lemma lstrip_keeps_last (b : str) (c : N) :
  Str.isspace c = false -> exists d, Str.lstrip (b ++ [c]) = d ++ [c].
Proof.
  intros Hc. induction b as [|x b IH]; simpl.
  - rewrite Hc. by exists [].
  - destruct (Str.isspace x); [done|]. by exists (x :: b).
Qed.

Lemma strip_keeps_last (b : str) (c : N) :
  Str.isspace c = false -> exists d, Str.strip (b ++ [c]) = d ++ [c].
Proof.
  intros Hc. unfold Str.strip, Str.rstrip.
  destruct (lstrip_keeps_last b c Hc) as [d ->]. exists d.
  rewrite rev_app_distr. simpl. rewrite Hc. simpl. by rewrite rev_involutive.
Qed.

Lemma startswith_length (p s : str) :
  Str.startswith p s = true -> (length p <= length s)%nat.
Proof.
  intros H. apply startswith_spec in H as [r ->]. rewrite length_app. lia.
Qed.

Lemma replace_keeps_last (o : str) (sp c : N) (a : str) (k : nat) :
  Str.isspace sp = true -> Str.isspace c = false ->
  (k <= length a)%nat ->
  exists b, Str.replace_from (o ++ [sp]) [] k (a ++ [c]) = b ++ [c].
Proof.
  intros Hsp Hc. revert k. induction a as [|x a IH]; intros k Hk.
  - assert (k = 0%nat) as -> by (simpl in Hk; lia). exists []. simpl.
    destruct (Str.startswith (o ++ [sp]) [c]) eqn:Hs; [|done].
    exfalso. apply startswith_spec in Hs as [r Hr].
    destruct o as [|y o]; simpl in Hr.
    + injection Hr as -> _. congruence.
    + injection Hr as _ Hr. by destruct o.
  - destruct k as [|k].
    + change ((x :: a) ++ [c]) with (x :: (a ++ [c])).
      cbn [Str.replace_from].
      destruct (Str.startswith (o ++ [sp]) (x :: a ++ [c])) eqn:Hs.
      * apply startswith_spec in Hs as [r Hr].
        assert (Hlen : (length (o ++ [sp]) <= S (length a))%nat).
        { destruct r as [|z r] using rev_ind.
          - exfalso. rewrite app_nil_r in Hr.
            change (x :: a ++ [c]) with ((x :: a) ++ [c]) in Hr.
            apply app_inj_tail in Hr as [_ ->]. congruence.
          - apply (f_equal length) in Hr. simpl in Hr.
            rewrite !length_app in Hr. simpl in Hr. rewrite !length_app. simpl. lia. }
        destruct (IH (Nat.pred (length (o ++ [sp])))) as [b Hb]; [lia|].
        exists b. by rewrite Hb.
      * destruct (IH 0%nat) as [b Hb]; [lia|]. exists (x :: b). by rewrite Hb.
    + change ((x :: a) ++ [c]) with (x :: (a ++ [c])). cbn [Str.replace_from].
      apply IH. simpl in Hk. lia.
Qed.

(** An utterance that ends in a visible character, as every utterance the
    recogniser yields does, and begins with a trigger phrase is always
    routed to the lookup. *)
Lemma Extra_trigger_always_lookup (a : str) (c : N) :
  Str.isspace c = false ->
  Str.startswith (u "find ") (a ++ [c]) = true
  \/ Str.startswith (u "найти ") (a ++ [c]) = true ->
  exists w, Extra.route (a ++ [c]) = Extra.Lookup w.
Proof.
  intros Hc Hstart. unfold Extra.route, Extra.trigger_word.
  assert (Hfind : exists b, Str.replace (u "find ") [] (a ++ [c]) = b ++ [c]).
  { apply (replace_keeps_last (u "find") 32 c a 0); [done|done|lia]. }
  assert (Hnajti : exists b, Str.replace (u "найти ") [] (a ++ [c]) = b ++ [c]).
  { apply (replace_keeps_last (u "найти") 32 c a 0); [done|done|lia]. }
  destruct Hfind as [b1 ->], Hnajti as [b2 ->].
  destruct (strip_keeps_last b1 c Hc) as [d1 ->].
  destruct (strip_keeps_last b2 c Hc) as [d2 ->].
  destruct (Str.startswith (u "find ") (a ++ [c])).
  - destruct d1; simpl; eauto.
  - destruct Hstart as [|Hs]; [done|]. rewrite Hs. destruct d2; simpl; eauto.
Qed.

(** C2.  [text.replace(trigger, '')] removes every occurrence of the trigger
    phrase, not only the leading one: for "найти найти слово" the word
    looked up is "слово", while the remainder after the trigger prefix is
    "найти слово"; likewise "find find out" gives "out". *)
Theorem C2_replace_removes_every_occurrence :
  (Str.startswith (u "найти ") (u "найти найти слово") = true
   /\ Extra.route (u "найти найти слово") = Extra.Lookup (u "слово")
   /\ Str.strip (drop (length (u "найти ")) (u "найти найти слово")) = u "найти слово")
  /\ (Str.startswith (u "find ") (u "find find out") = true
      /\ Extra.route (u "find find out") = Extra.Lookup (u "out")
      /\ Str.strip (drop (length (u "find ")) (u "find find out")) = u "find out").
Proof. repeat split; reflexivity. Qed.

(** ** Failures of the collaborators *)

(** C3.  With a character selected and the network down, [save_image] and
    [show_image] raise the [RequestException] of [requests.get]; the main
    loop of Lab_10.py dies with it, nothing is spoken and the following
    utterance is never read.  [find_word] of Extra_.py, in the same
    situation, returns the error as a message. *)
Theorem C3_unguarded_request_raises :
  let s := Sample.with_selected Sample.rick in
  let refused := RequestException (u "Connection refused") in
  fst (Lab10.save_image Sample.offline (u "images") s) = Raise refused
  /\ fst (Lab10.show_image Sample.offline s) = Raise refused
  /\ fst (Lab10.image_resolution Sample.offline s) = Raise refused
  /\ (let '(st, s', rest) :=
        session (Lab10.listen_step) (Lab10.body Sample.offline)
                [Sample.heard "сохранить"; Sample.heard "выход"] s in
      st = Crashed refused
      /\ log s' = [ Print (u "Распознано: сохранить"); MakeDirs (u "images");
                    Get (u "https://rickandmortyapi.com/api/character/avatar/1.jpeg") ]
      /\ rest = [Sample.heard "выход"])
  /\ fst (Extra.find_word Sample.offline (u "hello") s)
     = Ok (false, VStr (u "Connection refused")).
Proof. repeat split; reflexivity. Qed.

(** ** No side effect after speech, in any run *)

Lemma only_nil (f : event -> bool) : only f [].
Proof. done. Qed.

Lemma only_app (f : event -> bool) (a b : list event) :
  only f a -> only f b -> only f (a ++ b).
Proof. unfold only. rewrite forallb_app. by intros -> ->. Qed.

Lemma effects_first_quiet_app (q l : list event) :
  quiet q -> effects_first (q ++ l) = effects_first l.
Proof.
  unfold quiet, only. induction q as [|e q IH]; [done|]. simpl.
  intros H. apply andb_true_iff in H as [He Hq].
  destruct (is_speech e); [done|]. by apply IH.
Qed.

Lemma effects_first_harmless (l : list event) : harmless l -> effects_first l = true.
Proof.
  unfold harmless, only. induction l as [|e l IH]; [done|]. simpl.
  intros H. apply andb_true_iff in H as [He Hl].
  destruct (is_speech e); [done|]. by apply IH.
Qed.

Lemma effects_first_app_harmless (a b : list event) :
  effects_first a = true -> harmless b -> effects_first (a ++ b) = true.
Proof.
  unfold harmless, only. induction a as [|e a IH]; simpl.
  - intros _. apply effects_first_harmless.
  - destruct (is_speech e).
    + intros Ha Hb. rewrite forallb_app. by rewrite Ha, Hb.
    + apply IH.
Qed.

Section Emits.
Context {A B : Type}.
Variable f : event -> bool.

Lemma emits_ret (a : A) : emits (only f) (ret a).
Proof. intros s. exists []. by rewrite app_nil_r. Qed.

Lemma emits_raise (e : exn) : emits (only f) (@raise A e).
Proof. intros s. exists []. by rewrite app_nil_r. Qed.

Lemma emits_lift (r : res A) : emits (only f) (lift r).
Proof. intros s. exists []. by rewrite app_nil_r. Qed.

Lemma emits_bind (c : M A) (k : A -> M B) :
  emits (only f) c -> (forall a, emits (only f) (k a)) -> emits (only f) (bind c k).
Proof.
  intros Hc Hk s. unfold bind. destruct (Hc s) as (n1 & H1 & P1).
  destruct (c s) as [[a|e] s1]; cbn [snd] in *.
  - destruct (Hk a s1) as (n2 & H2 & P2). exists (n1 ++ n2). split.
    + by rewrite H2, H1, app_assoc.
    + by apply only_app.
  - by exists n1.
Qed.

Lemma emits_try_except (c : M A) (h : exn -> option (M A)) :
  emits (only f) c ->
  (forall e k, h e = Some k -> emits (only f) k) ->
  emits (only f) (try_except c h).
Proof.
  intros Hc Hh s. unfold try_except. destruct (Hc s) as (n1 & H1 & P1).
  destruct (c s) as [[a|e] s1]; cbn [snd] in *.
  - by exists n1.
  - destruct (h e) as [k|] eqn:He.
    + destruct (Hh e k He s1) as (n2 & H2 & P2). exists (n1 ++ n2). split.
      * by rewrite H2, H1, app_assoc.
      * by apply only_app.
    + by exists n1.
Qed.

Lemma emits_for_each (g : A -> M B) (l : list A) :
  (forall a, emits (only f) (g a)) -> emits (only f) (for_each g l).
Proof.
  intros Hg. induction l as [|a l IH]; simpl.
  - intros s. exists []. by rewrite app_nil_r.
  - intros s. unfold bind. destruct (Hg a s) as (n1 & H1 & P1).
    destruct (g a s) as [[b|e] s1]; cbn [snd] in *; [|by exists n1].
    destruct (IH s1) as (n2 & H2 & P2).
    destruct (for_each g l s1) as [[bs|e] s2]; cbn [snd ret] in *;
      exists (n1 ++ n2); (split; [by rewrite H2, H1, app_assoc|by apply only_app]).
Qed.

Lemma emits_first_of (g : A -> M (option B)) (l : list A) :
  (forall a, emits (only f) (g a)) -> emits (only f) (first_of g l).
Proof.
  intros Hg. induction l as [|a l IH]; simpl.
  - intros s. exists []. by rewrite app_nil_r.
  - intros s. unfold bind. destruct (Hg a s) as (n1 & H1 & P1).
    destruct (g a s) as [[[b|]|e] s1]; cbn [snd ret] in *; try by exists n1.
    destruct (IH s1) as (n2 & H2 & P2).
    exists (n1 ++ n2). split; [by rewrite H2, H1, app_assoc|by apply only_app].
Qed.

End Emits.

Lemma emits_emit (f : event -> bool) (e : event) : f e = true -> emits (only f) (emit e).
Proof.
  intros H s. exists [e]. split; [done|]. unfold only. simpl. by rewrite H.
Qed.

Lemma emits_now (f : event -> bool) : emits (only f) now.
Proof. intros s. exists []. by rewrite app_nil_r. Qed.

Lemma emits_get_selected (f : event -> bool) : emits (only f) get_selected.
Proof. intros s. exists []. by rewrite app_nil_r. Qed.

Lemma emits_set_selected (f : event -> bool) (v : value) : emits (only f) (set_selected v).
Proof. intros s. exists []. simpl. by rewrite app_nil_r. Qed.

Lemma emits_store (f : event -> bool) (path : str) (c : file) : emits (only f) (store path c).
Proof. intros s. exists []. simpl. by rewrite app_nil_r. Qed.

(** The proof that a computation only logs events satisfying [f] follows
    its syntax. *)
Ltac emits_only :=
  repeat first
    [ apply emits_ret | apply emits_raise | apply emits_lift | apply emits_now
    | apply emits_get_selected | apply emits_set_selected | apply emits_store
    | apply emits_emit; reflexivity
    | apply emits_bind; [|intros ?]
    | apply emits_try_except; [|intros ? ? ?]
    | apply emits_for_each; intros ?
    | apply emits_first_of; intros ?
    | match goal with
      | H : match ?e with _ => _ end = Some _ |- _ => destruct e; try discriminate H
      | H : Some _ = Some _ |- _ => injection H as <-
      | |- emits _ (match ?x with _ => _ end) => destruct x
      | |- emits _ (let '(_, _) := ?x in _) => destruct x
      end ].

Lemma Extra_handlers_quiet (E : env) :
  (forall w, emits quiet (Extra.find_word E w))
  /\ (forall folder, emits quiet (Extra.save E folder))
  /\ emits quiet (Extra.meaning E)
  /\ emits quiet Extra.example
  /\ emits quiet (Extra.link E).
Proof.
  unfold quiet. repeat split; intros;
    unfold Extra.find_word, Extra.save, Extra.meaning, Extra.example, Extra.link,
      requests_get, raise_for_status, json, makedirs, write_file;
    emits_only.
Qed.

Lemma Lab10_handlers_quiet (E : env) :
  emits quiet (Lab10.random_character E)
  /\ (forall folder, emits quiet (Lab10.save_image E folder))
  /\ emits quiet (Lab10.first_episode E)
  /\ emits quiet (Lab10.show_image E)
  /\ emits quiet (Lab10.image_resolution E)
  /\ emits quiet Lab10.origin
  /\ emits quiet Lab10.location
  /\ emits quiet (Lab10.episodes_list E).
Proof.
  unfold quiet. repeat split; intros;
    unfold Lab10.random_character, Lab10.total_count, Lab10.randint1,
      Lab10.select_character, Lab10.save_image, Lab10.first_episode,
      Lab10.show_image, Lab10.image_resolution, Lab10.origin, Lab10.location,
      Lab10.episodes_list, Lab10._fetch, Lab10._fetch_from_url,
      requests_get, raise_for_status, json, makedirs, write_file, image_open;
    emits_only.
Qed.

Lemma speak_harmless (E : env) (v : value) :
  emits harmless (Extra.speak E v) /\ emits harmless (Lab10.speak v).
Proof. unfold harmless, Extra.speak, Lab10.speak. split; emits_only. Qed.

Lemma emits_weaken {A} (P Q : list event -> Prop) (c : M A) :
  (forall l, P l -> Q l) -> emits P c -> emits Q c.
Proof. intros HPQ Hc s. destruct (Hc s) as (n & H & HP). exists n. auto. Qed.

Lemma emits_ordered_bind_quiet {A B} (c : M A) (k : A -> M B) :
  emits quiet c ->
  (forall a, emits (fun l => effects_first l = true) (k a)) ->
  emits (fun l => effects_first l = true) (bind c k).
Proof.
  intros Hc Hk s. unfold bind. destruct (Hc s) as (n1 & H1 & P1).
  destruct (c s) as [[a|e] s1]; cbn [snd] in *.
  - destruct (Hk a s1) as (n2 & H2 & P2). exists (n1 ++ n2). split.
    + by rewrite H2, H1, app_assoc.
    + by rewrite effects_first_quiet_app.
  - exists n1. split; [done|].
    rewrite <- (app_nil_r n1). by rewrite effects_first_quiet_app.
Qed.

Lemma emits_ordered_bind_tail {A B} (c : M A) (k : A -> M B) :
  emits (fun l => effects_first l = true) c ->
  (forall a, emits harmless (k a)) ->
  emits (fun l => effects_first l = true) (bind c k).
Proof.
  intros Hc Hk s. unfold bind. destruct (Hc s) as (n1 & H1 & P1).
  destruct (c s) as [[a|e] s1]; cbn [snd] in *.
  - destruct (Hk a s1) as (n2 & H2 & P2). exists (n1 ++ n2). split.
    + by rewrite H2, H1, app_assoc.
    + by apply effects_first_app_harmless.
  - by exists n1.
Qed.

Ltac unfold_handlers :=
  unfold Extra.find_word, Extra.save, Extra.meaning, Extra.example, Extra.link,
    Extra.speak, Lab10.speak_result, Lab10.speak,
    Lab10.random_character, Lab10.total_count, Lab10.randint1,
    Lab10.select_character, Lab10.save_image, Lab10.first_episode,
    Lab10.show_image, Lab10.image_resolution, Lab10.origin, Lab10.location,
    Lab10.episodes_list, Lab10._fetch, Lab10._fetch_from_url,
    requests_get, raise_for_status, json, makedirs, write_file, image_open.

Ltac emits_ordered :=
  first
    [ solve [ apply (emits_weaken harmless); [apply effects_first_harmless|];
              unfold harmless; emits_only ]
    | apply emits_ordered_bind_quiet;
      [ solve [unfold quiet; emits_only] | intros ?; emits_ordered ]
    | apply emits_ordered_bind_tail;
      [ emits_ordered | intros ?; solve [unfold harmless; emits_only] ]
    | match goal with
      | |- emits _ (match ?x with _ => _ end) => destruct x; emits_ordered
      | |- emits _ (let '(_, _) := ?x in _) => destruct x; emits_ordered
      end ].

Lemma Extra_perform_ordered (E : env) (a : Extra.action) :
  emits (fun l => effects_first l = true) (Extra.perform E a).
Proof. destruct a; unfold Extra.perform; unfold_handlers; emits_ordered. Qed.

Lemma Lab10_perform_ordered (E : env) (c : Lab10.command) :
  emits (fun l => effects_first l = true) (Lab10.perform E c).
Proof. destruct c; unfold Lab10.perform; unfold_handlers; emits_ordered. Qed.

Lemma Extra_body_ordered (E : env) (text : str) :
  emits (fun l => effects_first l = true) (Extra.body E text).
Proof.
  unfold Extra.body. apply emits_ordered_bind_quiet; [unfold quiet; emits_only|].
  intros _. destruct (Extra.route text) as [word|a|].
  - unfold_handlers. emits_ordered.
  - apply Extra_perform_ordered.
  - unfold_handlers. emits_ordered.
Qed.

Lemma Lab10_body_ordered (E : env) (text : str) :
  emits (fun l => effects_first l = true) (Lab10.body E text).
Proof.
  unfold Lab10.body. apply emits_ordered_bind_quiet; [unfold quiet; emits_only|].
  intros _. apply Lab10_perform_ordered.
Qed.

(** ** Order of side effect and speech *)

Ltac run_monad :=
  unfold bind, ret, raise, lift, emit, now, get_selected, set_selected, store,
    try_except in *; cbn [fst snd selected files log Py.truthy negb] in *.

Lemma Extra_link_then_speech (E : env) (s : state) (d : list (str * value)) :
  selected s = VDict d -> d <> [] ->
  let url := Extra.BASE_URL
             ++ Py.to_str E (match Py.lookup_key (u "word") d with
                             | Some w => w
                             | None => VNone
                             end) in
  Extra.perform E Extra.link_ s
  = (Ok Continue,
     {| selected := selected s; files := files s;
        log := log s ++ [ Browse url;
                          Print (u "Assistant: " ++ u "Opened link: " ++ url);
                          Say (VStr (u "Opened link: " ++ url)) ] |}).
Proof.
  intros Hsel Hd url. destruct s as [sel fl lg]. cbn [selected] in Hsel. subst sel.
  unfold Extra.perform, Extra.link, Extra.speak. run_monad.
  destruct d as [|kv d]; [done|]. cbn [Py.truthy negb Py.get]. fold url.
  change (match url with [] => false | _ :: _ => true end) with true.
  cbn [Py.to_str]. by repeat rewrite <- app_assoc.
Qed.

Lemma lookup_key_nonempty (k : str) (d : list (str * value)) (v : value) :
  Py.lookup_key k d = Some v -> Py.truthy (VDict d) = true.
Proof. by destruct d. Qed.

Lemma Lab10_show_image_ok (E : env) (s : state) (d : list (str * value))
      (url : value) (st : Z) (reason : str) (data : bytes) (body : str + value)
      (wh : Z * Z) :
  selected s = VDict d ->
  Py.lookup_key (u "image") d = Some url ->
  http E (length (log s)) (Py.to_str E url) = Reply st reason data body ->
  image_size E data = Some wh ->
  Lab10.show_image E s
  = (Ok (VStr (u "Image displayed."), VNone),
     {| selected := selected s; files := files s;
        log := log s ++ [ Get (Py.to_str E url); Show data ] |}).
Proof.
  destruct s as [sel fl lg]. cbn [selected files log]. intros -> Himg Hhttp Hsize.
  unfold Lab10.show_image, requests_get, image_open.
  destruct d as [|kv d]; [discriminate Himg|]. run_monad. cbn [Py.item].
  rewrite Himg. run_monad. rewrite Hhttp. cbn [content]. rewrite Hsize. run_monad.
  by repeat rewrite <- app_assoc.
Qed.

Lemma Lab10_show_then_speech (E : env) (s : state) (d : list (str * value))
      (url : value) (st : Z) (reason : str) (data : bytes) (body : str + value)
      (wh : Z * Z) :
  selected s = VDict d ->
  Py.lookup_key (u "image") d = Some url ->
  http E (length (log s)) (Py.to_str E url) = Reply st reason data body ->
  image_size E data = Some wh ->
  Lab10.perform E Lab10.show_img_ s
  = (Ok Continue,
     {| selected := selected s; files := files s;
        log := log s ++ [ Get (Py.to_str E url); Show data;
                          Say (VStr (u "Image displayed.")) ] |}).
Proof.
  intros Hsel Himg Hhttp Hsize. unfold Lab10.perform. unfold bind at 1.
  rewrite (Lab10_show_image_ok E s d url st reason data body wh) by done.
  unfold Lab10.speak_result, Lab10.speak. cbn [Py.truthy negb]. run_monad.
  by repeat rewrite <- app_assoc.
Qed.

Lemma length_snoc {A} (l : list A) (a : A) : length (l ++ [a]) = S (length l).
Proof. rewrite length_app. simpl. lia. Qed.

Lemma Extra_save_ok (E : env) (s : state) (d : list (str * value))
      (folder path : str) :
  selected s = VDict d -> d <> [] ->
  path = Py.path_join folder
           (Py.to_str E (match Py.lookup_key (u "word") d with
                         | Some w => w
                         | None => VStr (u "entry")
                         end) ++ u ".json") ->
  makedirs_ok E (length (log s)) folder = true ->
  open_ok E (S (length (log s))) path = true ->
  Extra.save E folder s
  = (Ok (true, VStr path),
     {| selected := selected s;
        files := <[path := JsonText (VDict d)]> (files s);
        log := log s ++ [ MakeDirs folder; WriteFile path (JsonText (VDict d)) ] |}).
Proof.
  destruct s as [sel fl lg]. cbn [selected files log]. intros -> Hd Hpath Hmk Hop.
  unfold Extra.save, makedirs, write_file. run_monad.
  destruct d as [|kv d]; [done|]. run_monad. rewrite Hmk.
  cbn [Py.get]. run_monad. rewrite <- Hpath, length_snoc, Hop. run_monad.
  by repeat rewrite <- app_assoc.
Qed.

Lemma safe_chars_of_string (E : env) (name : str) :
  Lab10.safe_chars E (map (fun c => VStr [c]) name)
  = Ok (map (fun c => [c])
            (List.filter (fun c => isalnum E c || (c =? 32)%N || (c =? 95)%N) name)).
Proof.
  induction name as [|c name IH]; [done|]. cbn [map Lab10.safe_chars List.filter].
  rewrite IH. f_equal.
  replace (Lab10.isalnum_str E [c]) with (isalnum E c)
    by (simpl; by rewrite andb_true_r).
  replace (Str.eqb [c] (u " ")) with (c =? 32)%N.
  2:{ unfold Str.eqb. destruct (N.eqb_spec c 32) as [->|Hn]; [done|].
      symmetry. apply bool_decide_eq_false. intros [= ?]. done. }
  replace (Str.eqb [c] (u "_")) with (c =? 95)%N.
  2:{ unfold Str.eqb. destruct (N.eqb_spec c 95) as [->|Hn]; [done|].
      symmetry. apply bool_decide_eq_false. intros [= ?]. done. }
  by destruct (_ || _ || _).
Qed.

Lemma concat_singletons {A} (l : list A) : concat (map (fun c => [c]) l) = l.
Proof. induction l as [|a l IH]; [done|]. simpl. by rewrite IH. Qed.

Lemma Lab10_save_image_ok (E : env) (s : state) (d : list (str * value))
      (folder path name : str) (url : value) (st : Z) (reason : str)
      (data : bytes) (body : str + value) :
  selected s = VDict d ->
  Py.lookup_key (u "image") d = Some url ->
  Py.lookup_key (u "name") d = Some (VStr name) ->
  path = Py.path_join folder
           (Str.strip (List.filter
                         (fun c => isalnum E c || (c =? 32)%N || (c =? 95)%N) name)
            ++ u ".jpg") ->
  makedirs_ok E (length (log s)) folder = true ->
  http E (S (length (log s))) (Py.to_str E url) = Reply st reason data body ->
  open_ok E (S (S (length (log s)))) path = true ->
  Lab10.save_image E folder s
  = (Ok (VStr path, VNone),
     {| selected := selected s;
        files := <[path := Binary data]> (files s);
        log := log s ++ [ MakeDirs folder; Get (Py.to_str E url);
                          WriteFile path (Binary data) ] |}).
Proof.
  destruct s as [sel fl lg]. cbn [selected files log].
  intros -> Himg Hname Hpath Hmk Hhttp Hop.
  unfold Lab10.save_image, makedirs, write_file, requests_get.
  destruct d as [|kv d]; [discriminate Himg|]. run_monad. rewrite Hmk.
  cbn [Py.item]. rewrite Himg, Hname. run_monad. rewrite length_snoc, Hhttp.
  cbn [content Py.iter]. rewrite safe_chars_of_string, concat_singletons.
  run_monad. rewrite <- Hpath, !length_snoc, Hop. run_monad.
  by repeat rewrite <- app_assoc.
Qed.

Lemma Extra_save_then_speech (E : env) (s : state) (d : list (str * value))
      (path : str) :
  selected s = VDict d -> d <> [] ->
  path = Py.path_join (u "dictionary_entries")
           (Py.to_str E (match Py.lookup_key (u "word") d with
                         | Some w => w
                         | None => VStr (u "entry")
                         end) ++ u ".json") ->
  makedirs_ok E (length (log s)) (u "dictionary_entries") = true ->
  open_ok E (S (length (log s))) path = true ->
  Extra.perform E Extra.save_ s
  = (Ok Continue,
     {| selected := selected s;
        files := <[path := JsonText (VDict d)]> (files s);
        log := log s ++ [ MakeDirs (u "dictionary_entries");
                          WriteFile path (JsonText (VDict d));
                          Print (u "Assistant: " ++ u "Saved to " ++ path);
                          Say (VStr (u "Saved to " ++ path)) ] |}).
Proof.
  intros Hsel Hd Hpath Hmk Hop. unfold Extra.perform. unfold bind at 1.
  rewrite (Extra_save_ok E s d _ path) by done.
  unfold Extra.speak. run_monad. cbn [Py.to_str].
  by repeat rewrite <- app_assoc.
Qed.

Lemma Lab10_save_then_speech (E : env) (s : state) (d : list (str * value))
      (path name : str) (url : value) (st : Z) (reason : str)
      (data : bytes) (body : str + value) :
  selected s = VDict d ->
  Py.lookup_key (u "image") d = Some url ->
  Py.lookup_key (u "name") d = Some (VStr name) ->
  path = Py.path_join (u "images")
           (Str.strip (List.filter
                         (fun c => isalnum E c || (c =? 32)%N || (c =? 95)%N) name)
            ++ u ".jpg") ->
  makedirs_ok E (length (log s)) (u "images") = true ->
  http E (S (length (log s))) (Py.to_str E url) = Reply st reason data body ->
  open_ok E (S (S (length (log s)))) path = true ->
  Lab10.perform E Lab10.save_ s
  = (Ok Continue,
     {| selected := selected s;
        files := <[path := Binary data]> (files s);
        log := log s ++ [ MakeDirs (u "images"); Get (Py.to_str E url);
                          WriteFile path (Binary data);
                          Say (VStr (u "Сохранено: " ++ path)) ] |}).
Proof.
  intros Hsel Himg Hname Hpath Hmk Hhttp Hop. unfold Lab10.perform. unfold bind at 1.
  rewrite (Lab10_save_image_ok E s d _ path name url st reason data body) by done.
  unfold Lab10.speak_result, Lab10.speak. run_monad. cbn [Py.to_str].
  by repeat rewrite <- app_assoc.
Qed.

(** C4, as amended.  Where a command has a side effect, the side effect
    comes first and the message is spoken after it: the link is opened and
    then announced, the image is fetched and shown and then announced, the
    file is written and then announced.  And in no turn of either main
    loop, whatever the utterance, the state and the outside world, does a
    side effect follow something that was said. *)
Theorem C4_side_effect_then_speech :
  (forall (E : env) (s : state) d,
      selected s = VDict d -> d <> [] ->
      exists url,
        fst (Extra.perform E Extra.link_ s) = Ok Continue
        /\ log (snd (Extra.perform E Extra.link_ s))
           = log s ++ [ Browse url;
                        Print (u "Assistant: " ++ u "Opened link: " ++ url);
                        Say (VStr (u "Opened link: " ++ url)) ])
  /\ (forall (E : env) (s : state) d url st reason data body wh,
         selected s = VDict d ->
         Py.lookup_key (u "image") d = Some url ->
         http E (length (log s)) (Py.to_str E url) = Reply st reason data body ->
         image_size E data = Some wh ->
         fst (Lab10.perform E Lab10.show_img_ s) = Ok Continue
         /\ log (snd (Lab10.perform E Lab10.show_img_ s))
            = log s ++ [ Get (Py.to_str E url); Show data;
                         Say (VStr (u "Image displayed.")) ])
  /\ (forall (E : env) (s : state) d path,
         selected s = VDict d -> d <> [] ->
         path = Py.path_join (u "dictionary_entries")
                  (Py.to_str E (match Py.lookup_key (u "word") d with
                                | Some w => w
                                | None => VStr (u "entry")
                                end) ++ u ".json") ->
         makedirs_ok E (length (log s)) (u "dictionary_entries") = true ->
         open_ok E (S (length (log s))) path = true ->
         fst (Extra.perform E Extra.save_ s) = Ok Continue
         /\ log (snd (Extra.perform E Extra.save_ s))
            = log s ++ [ MakeDirs (u "dictionary_entries");
                         WriteFile path (JsonText (VDict d));
                         Print (u "Assistant: " ++ u "Saved to " ++ path);
                         Say (VStr (u "Saved to " ++ path)) ])
  /\ (forall (E : env) (s : state) d path name url st reason data body,
         selected s = VDict d ->
         Py.lookup_key (u "image") d = Some url ->
         Py.lookup_key (u "name") d = Some (VStr name) ->
         path = Py.path_join (u "images")
                  (Str.strip (List.filter
                                (fun c => isalnum E c || (c =? 32)%N || (c =? 95)%N)
                                name) ++ u ".jpg") ->
         makedirs_ok E (length (log s)) (u "images") = true ->
         http E (S (length (log s))) (Py.to_str E url) = Reply st reason data body ->
         open_ok E (S (S (length (log s)))) path = true ->
         fst (Lab10.perform E Lab10.save_ s) = Ok Continue
         /\ log (snd (Lab10.perform E Lab10.save_ s))
            = log s ++ [ MakeDirs (u "images"); Get (Py.to_str E url);
                         WriteFile path (Binary data);
                         Say (VStr (u "Сохранено: " ++ path)) ])
  /\ (forall (E : env) (text : str) (s : state),
         exists new, log (snd (Extra.body E text s)) = log s ++ new
                     /\ effects_first new = true)
  /\ (forall (E : env) (text : str) (s : state),
         exists new, log (snd (Lab10.body E text s)) = log s ++ new
                     /\ effects_first new = true).
Proof.
  split; [|split; [|split; [|split; [|split]]]];
    [| | | |exact Extra_body_ordered|exact Lab10_body_ordered].
  - intros E s d Hsel Hd. eexists.
    by rewrite (Extra_link_then_speech E s d Hsel Hd).
  - intros E s d url st reason data body wh Hsel Himg Hhttp Hsize.
    by rewrite (Lab10_show_then_speech E s d url st reason data body wh).
  - intros E s d path Hsel Hd Hpath Hmk Hop.
    by rewrite (Extra_save_then_speech E s d path).
  - intros E s d path name url st reason data body Hsel Himg Hname Hpath Hmk Hhttp Hop.
    by rewrite (Lab10_save_then_speech E s d path name url st reason data body).
Qed.

Lemma C4_witness :
  (exists url,
      fst (Extra.perform Sample.online Extra.link_ (Sample.with_selected Sample.hello_entry))
      = Ok Continue
      /\ log (snd (Extra.perform Sample.online Extra.link_
                                 (Sample.with_selected Sample.hello_entry)))
         = [] ++ [ Browse url;
                   Print (u "Assistant: " ++ u "Opened link: " ++ url);
                   Say (VStr (u "Opened link: " ++ url)) ])
  /\ fst (Lab10.perform Sample.online Lab10.show_img_ (Sample.with_selected Sample.rick))
     = Ok Continue
  /\ fst (Extra.perform Sample.online Extra.save_ (Sample.with_selected Sample.hello_entry))
     = Ok Continue
  /\ fst (Lab10.perform Sample.online Lab10.save_ (Sample.with_selected Sample.rick))
     = Ok Continue.
Proof.
  split; [|split; [|split]].
  - exact (proj1 C4_side_effect_then_speech Sample.online
             (Sample.with_selected Sample.hello_entry) _ eq_refl
             ltac:(discriminate)).
  - refine (proj1 (proj1 (proj2 C4_side_effect_then_speech) Sample.online
             (Sample.with_selected Sample.rick) _ _ 200 [] Sample.jpeg
             (inl (u "Expecting value")) (300, 300) eq_refl _ _ _)); reflexivity.
  - refine (proj1 (proj1 (proj2 (proj2 C4_side_effect_then_speech)) Sample.online
             (Sample.with_selected Sample.hello_entry) _ _ eq_refl
             ltac:(discriminate) eq_refl _ _)); reflexivity.
  - refine (proj1 (proj1 (proj2 (proj2 (proj2 C4_side_effect_then_speech))) Sample.online
             (Sample.with_selected Sample.rick) _ _ (u "Rick Sanchez") _ 200 []
             Sample.jpeg (inl (u "Expecting value")) eq_refl _ _ eq_refl _ _ _));
      reflexivity.
Defined.

(** C4 as stated fails: the browser is opened before anything is said; and
    when showing the image fails (here: the network is down), nothing is
    said at all. *)
Lemma C4_effect_comes_first :
  log (snd (Extra.perform Sample.online Extra.link_
                          (Sample.with_selected Sample.hello_entry)))
  = [ Browse (u "https://api.dictionaryapi.dev/api/v2/entries/en/hello");
      Print (u "Assistant: Opened link: https://api.dictionaryapi.dev/api/v2/entries/en/hello");
      Say (VStr (u "Opened link: https://api.dictionaryapi.dev/api/v2/entries/en/hello")) ]
  /\ log (snd (Lab10.perform Sample.online Lab10.show_img_
                             (Sample.with_selected Sample.rick)))
     = [ Get (u "https://rickandmortyapi.com/api/character/avatar/1.jpeg");
         Show Sample.jpeg;
         Say (VStr (u "Image displayed.")) ]
  /\ Lab10.perform Sample.offline Lab10.show_img_ (Sample.with_selected Sample.rick)
     = (Raise (RequestException (u "Connection refused")),
        {| selected := Sample.rick; files := ∅;
           log := [ Get (u "https://rickandmortyapi.com/api/character/avatar/1.jpeg") ] |}).
Proof. repeat split; reflexivity. Qed.

(** ** The session loop *)

Lemma session_break {U} (step : frame -> pull U) (body : U -> M flow)
      (f : frame) (rest : list frame) (text : U) (s s' : state) :
  step f = Yield text ->
  body text s = (Ok Break, s') \/ body text s = (Ok Quit, s') ->
  session step body (f :: rest) s = (Stopped, s', rest).
Proof. intros Hstep [Hb|Hb]; simpl; by rewrite Hstep, Hb. Qed.

Lemma session_skip {U} (step : frame -> pull U) (body : U -> M flow)
      (f : frame) (rest : list frame) (s : state) :
  step f = Skip -> session step body (f :: rest) s = session step body rest s.
Proof. intros Hstep. simpl. by rewrite Hstep. Qed.

Lemma Extra_exit_aliases (alias : str) :
  Extra.commands_get alias Extra.COMMANDS = Some Extra.exit_ <->
  alias = u "exit" \/ alias = u "выход" \/ alias = u "quit".
Proof.
  split.
  - unfold Extra.COMMANDS. cbn [Extra.commands_get]. unfold Str.eqb.
    repeat case_bool_decide; try discriminate; auto.
  - intros [-> | [-> | ->]]; reflexivity.
Qed.

Lemma Extra_body_exit (E : env) (alias : str) (s : state) :
  Extra.commands_get alias Extra.COMMANDS = Some Extra.exit_ ->
  Extra.body E alias s
  = (Ok Break,
     {| selected := selected s; files := files s;
        log := log s ++ [ Print (u "Heard: " ++ alias);
                          Print (u "Assistant: Goodbye!");
                          Say (VStr (u "Goodbye!")) ] |}).
Proof.
  intros H. apply Extra_exit_aliases in H.
  assert (Hr : Extra.route alias = Extra.Command Extra.exit_)
    by (destruct H as [-> | [-> | ->]]; reflexivity).
  unfold Extra.body. rewrite Hr. unfold Extra.perform, Extra.speak. run_monad.
  by repeat rewrite <- app_assoc.
Qed.

Lemma Lab10_body_exit (E : env) (text : str) (s : state) :
  Str.contains (u "выход") (lower E text) = true ->
  Lab10.body E text s
  = (Ok Break,
     {| selected := selected s; files := files s;
        log := log s ++ [ Print (u "Распознано: " ++ text);
                          Say (VStr (u "До скорых встреч!")) ] |}).
Proof.
  intros H. unfold Lab10.body, Lab10.branch. rewrite H. cbn [orb].
  unfold Lab10.perform, Lab10.speak. run_monad.
  by repeat rewrite <- app_assoc.
Qed.

Lemma Main1_body_exit (E : env) (first : str) (others : list str) (s : state) :
  voices E = first :: others ->
  Main1.body E (VStr (u "закрыть")) s
  = (Ok Quit,
     {| selected := selected s; files := files s;
        log := log s ++ [ Print (u "0");
                          SetVoice (match others with id :: _ => id | [] => first end);
                          Say (VStr (u "Бывай, ихтиандр")) ] |}).
Proof.
  intros Hv. unfold Main1.body.
  replace (Str.eqb (u "закрыть") (u "закрыть")) with true by reflexivity.
  unfold Main1.speak, Main1.text2voice, Main1.set_voice. rewrite Hv. run_monad.
  repeat rewrite <- app_assoc. by destruct others.
Qed.

(** C5.  An utterance that is an exit alias ends the session: the goodbye
    message is spoken, the loop stops, and the frames that follow are left
    unread.  This holds for the three exit aliases of Extra_.py ("exit",
    "выход", "quit"), for every utterance of Lab_10.py whose lowercased
    text contains "выход", and for "закрыть" in main1.py (where speaking
    needs an installed voice). *)
Theorem C5_exit_stops_the_session :
  (forall (E : env) (alias : str) (f : frame) (rest : list frame) (s : state),
      Extra.commands_get alias Extra.COMMANDS = Some Extra.exit_ ->
      Extra.listen_step E f = Yield alias ->
      session (Extra.listen_step E) (Extra.body E) (f :: rest) s
      = (Stopped,
         {| selected := selected s; files := files s;
            log := log s ++ [ Print (u "Heard: " ++ alias);
                              Print (u "Assistant: Goodbye!");
                              Say (VStr (u "Goodbye!")) ] |},
         rest))
  /\ (forall (E : env) (text : str) (f : frame) (rest : list frame) (s : state),
         Str.contains (u "выход") (lower E text) = true ->
         Lab10.listen_step f = Yield text ->
         session Lab10.listen_step (Lab10.body E) (f :: rest) s
         = (Stopped,
            {| selected := selected s; files := files s;
               log := log s ++ [ Print (u "Распознано: " ++ text);
                                 Say (VStr (u "До скорых встреч!")) ] |},
            rest))
  /\ (forall (E : env) (first : str) (others : list str) (f : frame)
             (rest : list frame) (s : state),
         voices E = first :: others ->
         Main1.listen_step f = Yield (VStr (u "закрыть")) ->
         session Main1.listen_step (Main1.body E) (f :: rest) s
         = (Stopped,
            {| selected := selected s; files := files s;
               log := log s ++ [ Print (u "0");
                                 SetVoice (match others with
                                           | id :: _ => id
                                           | [] => first
                                           end);
                                 Say (VStr (u "Бывай, ихтиандр")) ] |},
            rest)).
Proof.
  split; [|split].
  - intros E alias f rest s Ha Hf. apply (session_break _ _ _ _ alias); [done|].
    left. by apply Extra_body_exit.
  - intros E text f rest s Hc Hf. apply (session_break _ _ _ _ text); [done|].
    left. by apply Lab10_body_exit.
  - intros E first others f rest s Hv Hf.
    apply (session_break _ _ _ _ (VStr (u "закрыть"))); [done|].
    right. by apply Main1_body_exit.
Qed.

Lemma C5_witness :
  session (Extra.listen_step Sample.online) (Extra.body Sample.online)
          [Sample.heard "выход"; Sample.heard "meaning"] Sample.start
  = (Stopped,
     {| selected := VNone; files := ∅;
        log := [] ++ [ Print (u "Heard: " ++ u "выход");
                       Print (u "Assistant: Goodbye!");
                       Say (VStr (u "Goodbye!")) ] |},
     [Sample.heard "meaning"])
  /\ session Lab10.listen_step (Lab10.body Sample.online)
             [Sample.heard "выход"; Sample.heard "случайный"] Sample.start
     = (Stopped,
        {| selected := VNone; files := ∅;
           log := [] ++ [ Print (u "Распознано: " ++ u "выход");
                          Say (VStr (u "До скорых встреч!")) ] |},
        [Sample.heard "случайный"])
  /\ session Main1.listen_step (Main1.body Sample.online)
             [Sample.heard "закрыть"; Sample.heard "привет"] Sample.start
     = (Stopped,
        {| selected := VNone; files := ∅;
           log := [] ++ [ Print (u "0"); SetVoice (u "en");
                          Say (VStr (u "Бывай, ихтиандр")) ] |},
        [Sample.heard "привет"]).
Proof.
  split; [|split].
  - apply (proj1 C5_exit_stops_the_session Sample.online (u "выход")); reflexivity.
  - apply (proj1 (proj2 C5_exit_stops_the_session) Sample.online (u "выход"));
      reflexivity.
  - apply (proj2 (proj2 C5_exit_stops_the_session) Sample.online (u "ru") [u "en"]);
      reflexivity.
Defined.

(** ** Handlers without a selection *)

(** C6.  With nothing selected ([self.entry] / [self.character] is [None],
    or any other false value), every handler that needs a selection returns
    its fixed message as the error and does nothing else: no exception, no
    request, no file, no change of state. *)
Theorem C6_nothing_selected (E : env) (s : state) (folder : str) :
  Py.truthy (selected s) = false ->
  Extra.save E folder s = (Ok (false, VStr (u "No word selected.")), s)
  /\ Extra.meaning E s = (Ok (VNone, VStr (u "No word selected.")), s)
  /\ Extra.example s = (Ok (VNone, VStr (u "No word selected.")), s)
  /\ Extra.link E s = (Ok (VNone, VStr (u "No word selected.")), s)
  /\ Lab10.save_image E folder s = (Ok (VNone, VStr (u "Character not selected.")), s)
  /\ Lab10.first_episode E s = (Ok (VNone, VStr (u "Character not selected.")), s)
  /\ Lab10.show_image E s = (Ok (VNone, VStr (u "Character not selected.")), s)
  /\ Lab10.image_resolution E s = (Ok (VNone, VStr (u "Character not selected.")), s)
  /\ Lab10.origin s = (Ok (VNone, VStr (u "Character not selected.")), s)
  /\ Lab10.location s = (Ok (VNone, VStr (u "Character not selected.")), s)
  /\ Lab10.episodes_list E s = (Ok (VNone, VStr (u "Character not selected.")), s).
Proof.
  intros H.
  repeat split.
  - unfold Extra.save. run_monad. by rewrite H.
  - unfold Extra.meaning. run_monad. by rewrite H.
  - unfold Extra.example. run_monad. by rewrite H.
  - unfold Extra.link. run_monad. by rewrite H.
  - unfold Lab10.save_image. run_monad. by rewrite H.
  - unfold Lab10.first_episode. run_monad. by rewrite H.
  - unfold Lab10.show_image. run_monad. by rewrite H.
  - unfold Lab10.image_resolution. run_monad. by rewrite H.
  - unfold Lab10.origin. run_monad. by rewrite H.
  - unfold Lab10.location. run_monad. by rewrite H.
  - unfold Lab10.episodes_list. run_monad. by rewrite H.
Qed.

Lemma C6_witness :
  Extra.meaning Sample.online Sample.start
  = (Ok (VNone, VStr (u "No word selected.")), Sample.start)
  /\ Lab10.origin Sample.start
     = (Ok (VNone, VStr (u "Character not selected.")), Sample.start).
Proof.
  pose proof (C6_nothing_selected Sample.online Sample.start (u "images") eq_refl)
    as (_ & Hm & _ & _ & _ & _ & _ & _ & Ho & _).
  by split.
Defined.

(** ** The listening stage *)

Lemma listen_yield_iff {U} (step : frame -> pull U) (fs rest : list frame) (t : U) :
  listen step fs = (Yield t, rest) <->
  exists pre f, fs = pre ++ f :: rest
                /\ Forall (fun g => step g = Skip) pre
                /\ step f = Yield t.
Proof.
  split.
  - revert rest. induction fs as [|g fs IH]; intros rest; simpl; [done|].
    destruct (step g) eqn:Hg.
    + intros H. destruct (IH _ H) as (pre & f & -> & Hpre & Hf).
      exists (g :: pre), f. split; [done|]. split; [|done]. by constructor.
    + intros [= -> ->]. exists [], g. by repeat split.
    + done.
    + done.
  - intros (pre & f & -> & Hpre & Hf).
    induction Hpre as [|g pre Hg _ IH]; simpl.
    + by rewrite Hf.
    + by rewrite Hg.
Qed.

Lemma Lab10_step_yield (f : frame) (t : str) :
  Lab10.listen_step f = Yield t <->
  exists data result raw,
    f = Audio data (Some result)
    /\ Py.get result (u "text") (VStr []) = Ok (VStr raw)
    /\ t = Str.strip raw /\ t <> [].
Proof.
  split.
  - destruct f as [data [result|]|]; simpl; try done.
    destruct (Py.get result (u "text") (VStr [])) as [[]|] eqn:Hg; try done.
    destruct (Str.strip s) eqn:Hs; [done|]. intros [= <-].
    exists data, result, s. by rewrite Hs.
  - intros (data & result & raw & -> & Hg & -> & Hne). simpl. rewrite Hg.
    by destruct (Str.strip raw).
Qed.

Lemma Extra_step_yield (E : env) (f : frame) (t : str) :
  Extra.listen_step E f = Yield t <->
  exists data result raw,
    f = Audio data (Some result)
    /\ Py.get result (u "text") (VStr []) = Ok (VStr raw)
    /\ t = lower E (Str.strip raw) /\ Str.strip raw <> [].
Proof.
  split.
  - destruct f as [data [result|]|]; simpl; try done.
    destruct (Py.get result (u "text") (VStr [])) as [[]|] eqn:Hg; try done.
    destruct (Str.strip s) eqn:Hs; [done|]. intros [= <-].
    exists data, result, s. by rewrite Hs.
  - intros (data & result & raw & -> & Hg & -> & Hne). simpl. rewrite Hg.
    by destruct (Str.strip raw).
Qed.

Lemma Main1_step_yield (f : frame) (v : value) :
  Main1.listen_step f = Yield v <->
  exists data answer,
    f = Audio data (Some answer)
    /\ data <> []
    /\ Py.item answer (u "text") = Ok v /\ Py.truthy v = true.
Proof.
  split.
  - destruct f as [data [answer|]|]; simpl; try done.
    destruct data as [|b data]; simpl; [done|].
    destruct (Py.item answer (u "text")) as [text|] eqn:Hi; [|done].
    destruct (Py.truthy text) eqn:Ht; [|done]. intros [= <-].
    by exists (b :: data), answer.
  - intros (data & answer & -> & Hd & Hi & Ht). simpl.
    destruct data; [done|]. simpl. by rewrite Hi, Ht.
Qed.

(** C7.  The generator yields on a frame exactly when the decoder finalises
    on it and the text of the result is not empty: in Lab_10.py and
    Extra_.py the text is [result.get('text', '').strip()] (yielded as it
    is, respectively lowercased); in main1.py it is [answer['text']], and
    the block read must not be empty.  A frame that completes nothing
    yields nothing, and over a stream the next utterance comes from the
    first frame that yields, all frames before it being skipped. *)
Theorem C7_listen_yields_final_nonempty_text :
  (forall (f : frame) (t : str),
      Lab10.listen_step f = Yield t <->
      exists data result raw,
        f = Audio data (Some result)
        /\ Py.get result (u "text") (VStr []) = Ok (VStr raw)
        /\ t = Str.strip raw /\ t <> [])
  /\ (forall (E : env) (f : frame) (t : str),
         Extra.listen_step E f = Yield t <->
         exists data result raw,
           f = Audio data (Some result)
           /\ Py.get result (u "text") (VStr []) = Ok (VStr raw)
           /\ t = lower E (Str.strip raw) /\ Str.strip raw <> [])
  /\ (forall (f : frame) (v : value),
         Main1.listen_step f = Yield v <->
         exists data answer,
           f = Audio data (Some answer)
           /\ data <> []
           /\ Py.item answer (u "text") = Ok v /\ Py.truthy v = true)
  /\ (forall (E : env) (data : bytes),
         Lab10.listen_step (Audio data None) = Skip
         /\ Extra.listen_step E (Audio data None) = Skip
         /\ Main1.listen_step (Audio data None) = Skip)
  /\ (forall {U} (step : frame -> pull U) (fs rest : list frame) (t : U),
         listen step fs = (Yield t, rest) <->
         exists pre f, fs = pre ++ f :: rest
                       /\ Forall (fun g => step g = Skip) pre
                       /\ step f = Yield t).
Proof.
  split; [exact Lab10_step_yield|].
  split; [exact Extra_step_yield|].
  split; [exact Main1_step_yield|].
  split; [done|].
  intros U step fs rest t. apply listen_yield_iff.
Qed.

(** ** Saving and reading back *)

Lemma Extra_find_word_ok (E : env) (s : state) (word : str) (st : Z)
      (reason : str) (data : bytes) (body first : value) :
  http E (length (log s)) (Extra.BASE_URL ++ word) = Reply st reason data (inr body) ->
  error_status st = false ->
  Py.item0 body = Ok first ->
  Extra.find_word E word s
  = (Ok (true, VNone),
     {| selected := first; files := files s;
        log := log s ++ [ Get (Extra.BASE_URL ++ word) ] |}).
Proof.
  intros Hhttp Hst Hitem.
  unfold Extra.find_word, requests_get, raise_for_status, json. run_monad.
  cbn [Py.to_str]. rewrite Hhttp. run_monad. rewrite Hst. run_monad.
  by rewrite Hitem.
Qed.

(** C8.  What is saved is what was fetched.  After a successful
    [find_word] that selected a JSON object, [save] writes the selected
    entry and reading the file back as JSON gives the entry the service
    returned.  [save_image] writes the
    bytes of the image it downloads, so the file read back has those bytes,
    and in particular their number. *)
Theorem C8_saved_file_reads_back :
  (forall (E : env) (s : state) (word folder path : str) (st : Z) (reason : str)
          (data : bytes) (d : list (str * value)) (others : list value),
      http E (length (log s)) (Extra.BASE_URL ++ word)
      = Reply st reason data (inr (VList (VDict d :: others))) ->
      error_status st = false ->
      d <> [] ->
      path = Py.path_join folder
               (Py.to_str E (match Py.lookup_key (u "word") d with
                             | Some w => w
                             | None => VStr (u "entry")
                             end) ++ u ".json") ->
      makedirs_ok E (S (length (log s))) folder = true ->
      open_ok E (S (S (length (log s)))) path = true ->
      exists s1 s2,
        Extra.find_word E word s = (Ok (true, VNone), s1)
        /\ Extra.save E folder s1 = (Ok (true, VStr path), s2)
        /\ read_json s2 path = Some (VDict d))
  /\ (forall (E : env) (s : state) (d : list (str * value))
             (folder path name : str) (url : value) (st : Z) (reason : str)
             (data : bytes) (body : str + value),
         selected s = VDict d ->
         Py.lookup_key (u "image") d = Some url ->
         Py.lookup_key (u "name") d = Some (VStr name) ->
         path = Py.path_join folder
                  (Str.strip (List.filter
                                (fun c => isalnum E c || (c =? 32)%N || (c =? 95)%N)
                                name) ++ u ".jpg") ->
         makedirs_ok E (length (log s)) folder = true ->
         http E (S (length (log s))) (Py.to_str E url) = Reply st reason data body ->
         open_ok E (S (S (length (log s)))) path = true ->
         exists s',
           Lab10.save_image E folder s = (Ok (VStr path, VNone), s')
           /\ read_bytes s' path = Some data
           /\ (length <$> read_bytes s' path) = Some (length data)).
Proof.
  split.
  - intros E s word folder path st reason data d others Hhttp Hst Hd Hpath Hmk Hop.
    eexists _, _. split; [|split].
    + by apply (Extra_find_word_ok E s word st reason data
                                   (VList (VDict d :: others)) (VDict d)).
    + apply (Extra_save_ok E _ d folder path); cbn [selected log]; try done.
      * by rewrite length_snoc.
      * by rewrite length_snoc.
    + unfold read_json. cbn [files]. by rewrite lookup_insert_eq.
  - intros E s d folder path name url st reason data body
           Hsel Himg Hname Hpath Hmk Hhttp Hop.
    eexists. split; [|split].
    + by apply (Lab10_save_image_ok E s d folder path name url st reason data body).
    + unfold read_bytes. cbn [files]. by rewrite lookup_insert_eq.
    + unfold read_bytes. cbn [files]. by rewrite lookup_insert_eq.
Qed.

Lemma C8_witness :
  (exists s1 s2,
      Extra.find_word Sample.online (u "hello") Sample.start = (Ok (true, VNone), s1)
      /\ Extra.save Sample.online (u "dictionary_entries") s1
         = (Ok (true, VStr (u "dictionary_entries/hello.json")), s2)
      /\ read_json s2 (u "dictionary_entries/hello.json") = Some Sample.hello_entry)
  /\ (exists s',
         Lab10.save_image Sample.online (u "images") (Sample.with_selected Sample.rick)
         = (Ok (VStr (u "images/Rick Sanchez.jpg"), VNone), s')
         /\ read_bytes s' (u "images/Rick Sanchez.jpg") = Some Sample.jpeg
         /\ (length <$> read_bytes s' (u "images/Rick Sanchez.jpg"))
            = Some (length Sample.jpeg)).
Proof.
  split.
  - refine (proj1 C8_saved_file_reads_back Sample.online Sample.start (u "hello")
              (u "dictionary_entries") (u "dictionary_entries/hello.json")
              200 [] [] _ [] _ _ _ _ _ _); try reflexivity. discriminate.
  - refine (proj2 C8_saved_file_reads_back Sample.online
              (Sample.with_selected Sample.rick) _ (u "images")
              (u "images/Rick Sanchez.jpg") (u "Rick Sanchez") _ 200 [] Sample.jpeg
              (inl (u "Expecting value")) eq_refl _ _ _ _ _ _); reflexivity.
Defined.

(** ** The random selection *)

Lemma Lab10_fetch_failed (E : env) (s : state) (endpoint : str) :
  let url := Lab10.BASE_URL ++ u "/" ++ endpoint in
  failed_reply (http E (length (log s)) url) = true ->
  Lab10._fetch E endpoint s
  = (Ok (VDict [(u "error", VStr (failure_message (http E (length (log s)) url)))]),
     {| selected := selected s; files := files s; log := log s ++ [Get url] |}).
Proof.
  intros url H. unfold Lab10._fetch, requests_get, raise_for_status, json.
  run_monad. cbn [Py.to_str]. fold url.
  destruct (http E (length (log s)) url) as [msg|st reason data body]; [done|].
  cbn [failed_reply failure_message] in *. run_monad.
  destruct (error_status st); [done|]. run_monad. by destruct body.
Qed.

Lemma Lab10_fetch_ok (E : env) (s : state) (endpoint : str) (st : Z)
      (reason : str) (data : bytes) (v : value) :
  let url := Lab10.BASE_URL ++ u "/" ++ endpoint in
  http E (length (log s)) url = Reply st reason data (inr v) ->
  error_status st = false ->
  Lab10._fetch E endpoint s
  = (Ok v, {| selected := selected s; files := files s; log := log s ++ [Get url] |}).
Proof.
  intros url Hhttp Hst. unfold Lab10._fetch, requests_get, raise_for_status, json.
  run_monad. cbn [Py.to_str]. fold url. rewrite Hhttp. run_monad.
  by rewrite Hst.
Qed.

(** [_fetch] never raises: it returns the body, or the error dictionary. *)
Lemma Lab10_fetch_total (E : env) (s : state) (endpoint : str) :
  exists v, Lab10._fetch E endpoint s
            = (Ok v, {| selected := selected s; files := files s;
                        log := log s ++ [Get (Lab10.BASE_URL ++ u "/" ++ endpoint)] |})
            /\ (failed_reply (http E (length (log s))
                                   (Lab10.BASE_URL ++ u "/" ++ endpoint)) = false ->
                exists st reason data,
                  http E (length (log s)) (Lab10.BASE_URL ++ u "/" ++ endpoint)
                  = Reply st reason data (inr v) /\ error_status st = false).
Proof.
  destruct (failed_reply (http E (length (log s))
                               (Lab10.BASE_URL ++ u "/" ++ endpoint))) eqn:Hf.
  - eexists. split; [by apply Lab10_fetch_failed|done].
  - destruct (http E (length (log s)) (Lab10.BASE_URL ++ u "/" ++ endpoint))
      as [msg|st reason data [msg|v]] eqn:Hhttp; cbn [failed_reply] in Hf; try done.
    + by rewrite orb_true_r in Hf.
    + rewrite orb_false_r in Hf. exists v. split.
      * by apply (Lab10_fetch_ok E s endpoint st reason data v).
      * intros _. by exists st, reason, data.
Qed.

Lemma Lab10_total_count_fallback (E : env) (s : state) :
  let url := Lab10.BASE_URL ++ u "/" ++ u "character" in
  failed_reply (http E (length (log s)) url) = true
  \/ (exists st reason data v,
         http E (length (log s)) url = Reply st reason data (inr v)
         /\ error_status st = false /\ object_without_count v = true) ->
  Lab10.total_count E s
  = (Ok (VInt 826),
     {| selected := selected s; files := files s; log := log s ++ [Get url] |}).
Proof.
  intros url [Hf | (st & reason & data & v & Hhttp & Hst & Hlack)];
    unfold Lab10.total_count; unfold bind at 1.
  - rewrite (Lab10_fetch_failed E s (u "character") Hf). by run_monad.
  - rewrite (Lab10_fetch_ok E s (u "character") st reason data v Hhttp Hst).
    run_monad. destruct v as [| | | | | |d]; try done.
    cbn [object_without_count Py.get] in *.
    destruct (Py.lookup_key (u "info") d) as [[| | | | | |i]|]; try done.
    cbn [Py.get]. by destruct (Py.lookup_key (u "count") i).
Qed.

(** A reply without the count that is no such object: line 81 calls [get]
    on something that is not a dictionary. *)
Lemma Lab10_total_count_no_object (E : env) (s : state) (st : Z) (reason : str)
      (data : bytes) (v : value) :
  let url := Lab10.BASE_URL ++ u "/" ++ u "character" in
  http E (length (log s)) url = Reply st reason data (inr v) ->
  error_status st = false ->
  lacks_count v = true ->
  object_without_count v = false ->
  Lab10.total_count E s
  = (Raise AttributeError,
     {| selected := selected s; files := files s; log := log s ++ [Get url] |}).
Proof.
  intros url Hhttp Hst Hlack Hobj. unfold Lab10.total_count. unfold bind at 1.
  rewrite (Lab10_fetch_ok E s (u "character") st reason data v Hhttp Hst).
  run_monad. destruct v as [| | | | | |d]; try done.
  unfold lacks_count in Hlack. cbn [count_field object_without_count Py.get] in *.
  destruct (Py.lookup_key (u "info") d) as [[| | | | | |i]|]; try done.
  by destruct (Py.lookup_key (u "count") i).
Qed.

Lemma Lab10_total_count_live (E : env) (s : state) (st : Z) (reason : str)
      (data : bytes) (d i : list (str * value)) (c : value) :
  let url := Lab10.BASE_URL ++ u "/" ++ u "character" in
  http E (length (log s)) url = Reply st reason data (inr (VDict d)) ->
  error_status st = false ->
  Py.lookup_key (u "info") d = Some (VDict i) ->
  Py.lookup_key (u "count") i = Some c ->
  Lab10.total_count E s
  = (Ok c, {| selected := selected s; files := files s; log := log s ++ [Get url] |}).
Proof.
  intros url Hhttp Hst Hinfo Hcount. unfold Lab10.total_count. unfold bind at 1.
  rewrite (Lab10_fetch_ok E s (u "character") st reason data _ Hhttp Hst).
  run_monad. cbn [Py.get]. rewrite Hinfo. cbn [Py.get]. by rewrite Hcount.
Qed.

Lemma randint_range (a b raw n : Z) :
  Py.randint a b raw = Ok n -> a <= n <= b.
Proof.
  unfold Py.randint. destruct (Z.ltb_spec b a); [done|]. intros [= <-].
  pose proof (Z.mod_pos_bound raw (b - a + 1)). lia.
Qed.

Lemma randint_total (a b raw : Z) :
  a <= b -> exists n, Py.randint a b raw = Ok n.
Proof.
  intros H. unfold Py.randint. destruct (Z.ltb_spec b a); [lia|]. eauto.
Qed.

Lemma Lab10_randint1_range (E : env) (total : value) (s s' : state) (n : Z) :
  Lab10.randint1 E total s = (Ok n, s') ->
  exists z, Py.upper E total = Ok z /\ 1 <= n <= z
            /\ s' = {| selected := selected s; files := files s;
                       log := log s ++ [Draw n] |}.
Proof.
  unfold Lab10.randint1. run_monad.
  destruct (Py.upper E total) as [z|]; [|done]. run_monad.
  destruct (Py.randint 1 z (entropy E (length (log s)))) as [m|] eqn:Hr; [|done].
  intros [= <- <-]. exists z. split; [done|]. split; [|done].
  by apply randint_range in Hr.
Qed.

Lemma Lab10_randint1_total (E : env) (total : value) (s : state) (z : Z) :
  Py.upper E total = Ok z -> 1 <= z ->
  exists n, Lab10.randint1 E total s
            = (Ok n, {| selected := selected s; files := files s;
                        log := log s ++ [Draw n] |})
            /\ Py.randint 1 z (entropy E (length (log s))) = Ok n
            /\ 1 <= n <= z.
Proof.
  intros Hi Hz. destruct (randint_total 1 z (entropy E (length (log s))) Hz) as [n Hn].
  exists n. split; [|split; [done|by apply randint_range in Hn]].
  unfold Lab10.randint1. run_monad. rewrite Hi. run_monad. by rewrite Hn.
Qed.

Lemma Lab10_total_count_log (E : env) (s : state) :
  exists r, Lab10.total_count E s
            = (r, {| selected := selected s; files := files s;
                     log := log s ++ [Get (Lab10.BASE_URL ++ u "/" ++ u "character")] |}).
Proof.
  unfold Lab10.total_count. unfold bind at 1.
  destruct (Lab10_fetch_total E s (u "character")) as (v & -> & _). run_monad.
  destruct (Py.get v (u "info") (VDict [])) as [inner|]; [|by eexists].
  destruct (Py.get inner (u "count") (VInt 826)); by eexists.
Qed.

(** What [select_character] can do: it logs its one request, and it either
    leaves the selection alone or replaces it by the body of a good reply
    that has no ["error"] in it. *)
Lemma Lab10_select_character_cases (E : env) (n : Z) (s : state) :
  let url := Lab10.BASE_URL ++ u "/" ++ u "character/" ++ Str.of_Z n in
  exists r sel,
    Lab10.select_character E n s
    = (r, {| selected := sel; files := files s; log := log s ++ [Get url] |})
    /\ (sel = selected s
        \/ (Py.contains (u "error") sel = Ok false
            /\ (r = Raise KeyError \/ r = Raise TypeError
                \/ exists name, r = Ok (name, VNone))
            /\ exists st reason data,
                http E (length (log s)) url = Reply st reason data (inr sel)
                /\ error_status st = false)).
Proof.
  intros url. unfold Lab10.select_character. unfold bind at 1.
  destruct (failed_reply (http E (length (log s)) url)) eqn:Hf.
  - rewrite (Lab10_fetch_failed E s (u "character/" ++ Str.of_Z n) Hf).
    eexists _, _. split; [reflexivity|by left].
  - destruct (Lab10_fetch_total E s (u "character/" ++ Str.of_Z n)) as (v & -> & Hgood).
    destruct (Hgood Hf) as (st & reason & data & Hhttp & Hst). run_monad.
    destruct (Py.contains (u "error") v) as [[|]|] eqn:Hc.
    + destruct (Py.item v (u "error")); eexists _, _; (split; [done|by left]).
    + destruct (Py.item v (u "name")) as [name|e] eqn:Hn.
      * eexists _, _. split; [done|]. right. split; [done|]. split; [eauto|].
        by exists st, reason, data.
      * eexists _, _. split; [done|]. right. split; [done|]. split.
        -- destruct v; simpl in Hn; try (injection Hn as <-; auto).
           destruct (Py.lookup_key _ _); [done|]. injection Hn as <-; auto.
        -- by exists st, reason, data.
    + eexists _, _. split; [done|by left].
Qed.

Lemma Lab10_select_character_failed (E : env) (n : Z) (s : state) :
  let url := Lab10.BASE_URL ++ u "/" ++ u "character/" ++ Str.of_Z n in
  failed_reply (http E (length (log s)) url) = true ->
  Lab10.select_character E n s
  = (Ok (VNone, VStr (failure_message (http E (length (log s)) url))),
     {| selected := selected s; files := files s; log := log s ++ [Get url] |}).
Proof.
  intros url Hf. unfold Lab10.select_character. unfold bind at 1.
  by rewrite (Lab10_fetch_failed E s (u "character/" ++ Str.of_Z n) Hf).
Qed.

Lemma Lab10_randint1_raise (E : env) (total : value) (s s' : state) (e : exn) :
  Lab10.randint1 E total s = (Raise e, s') -> s' = s.
Proof.
  unfold Lab10.randint1. run_monad.
  destruct (Py.upper E total) as [z|]; [|by intros [= _ <-]]. run_monad.
  destruct (Py.randint 1 z (entropy E (length (log s)))); [done|by intros [= _ <-]].
Qed.

Lemma Lab10_random_character_draw (E : env) (s s' : state)
      (r : res (value * value)) (n : Z) :
  Lab10.random_character E s = (r, s') ->
  In (Draw n) (drop (length (log s)) (log s')) ->
  exists total s1 z,
    Lab10.total_count E s = (Ok total, s1)
    /\ Py.upper E total = Ok z /\ 1 <= n <= z
    /\ In (Get (Lab10.BASE_URL ++ u "/" ++ u "character/" ++ Str.of_Z n)) (log s').
Proof.
  unfold Lab10.random_character. unfold bind at 1.
  destruct (Lab10_total_count_log E s) as [rt Ht]. rewrite Ht.
  destruct rt as [total|e].
  - unfold bind at 1.
    destruct (Lab10.randint1 E total _) as [[m|e] s2] eqn:Hr.
    + apply Lab10_randint1_range in Hr as (z & Hi & Hrange & ->).
      match goal with
      | |- context [Lab10.select_character E m ?st] =>
        destruct (Lab10_select_character_cases E m st) as (r' & sel & -> & _)
      end.
      intros [= <- <-]. cbn [log]. repeat rewrite <- app_assoc.
      rewrite drop_app_length. cbn [app In].
      intros [Hd | [Hd | [Hd | []]]]; try discriminate. injection Hd as <-.
      eexists _, _, z. repeat split; try done; try lia.
      apply in_or_app. right. cbn. auto.
    + apply Lab10_randint1_raise in Hr as ->. intros [= <- <-]. cbn [log].
      rewrite drop_app_length. cbn [In]. intros [Hd | []]. discriminate.
  - intros [= <- <-]. cbn [log].
    rewrite drop_app_length. cbn [In]. intros [Hd | []]. discriminate.
Qed.

(** With a total that gives a bound of at least 1, [random_character]
    asks the count, draws an id up to that bound and asks for that
    character, whatever comes of the last request. *)
Lemma Lab10_random_character_uses (E : env) (s : state) (total : value) (z : Z) :
  let url := Lab10.BASE_URL ++ u "/" ++ u "character" in
  Lab10.total_count E s
  = (Ok total, {| selected := selected s; files := files s;
                  log := log s ++ [Get url] |}) ->
  Py.upper E total = Ok z -> 1 <= z ->
  exists n, Py.randint 1 z (entropy E (S (length (log s)))) = Ok n
            /\ 1 <= n <= z
            /\ log (snd (Lab10.random_character E s))
               = log s ++ [ Get url; Draw n;
                            Get (Lab10.BASE_URL ++ u "/" ++ u "character/"
                                                ++ Str.of_Z n) ].
Proof.
  intros url Ht Hup Hz. unfold Lab10.random_character. unfold bind at 1.
  rewrite Ht. unfold bind at 1.
  match goal with
  | |- context [Lab10.randint1 E total ?st] =>
    destruct (Lab10_randint1_total E total st z Hup Hz) as (n & -> & Hn & Hr)
  end.
  cbn [log] in Hn. rewrite length_snoc in Hn. exists n. split; [done|].
  split; [done|].
  match goal with
  | |- context [Lab10.select_character E n ?st] =>
    destruct (Lab10_select_character_cases E n st) as (r & sel & -> & _)
  end.
  cbn [snd log]. by repeat rewrite <- app_assoc.
Qed.

(** C9.  The total used for the draw is the [info.count] of the live
    reply, and 826 when the count request fails (no connection, an error
    status, a body that is not JSON); an id between 1 and the total is then
    drawn and that character requested, and whenever an id is drawn at all
    it lies between 1 and the total used.  But a reply that lacks the count
    field gets the fallback only when it is a JSON object without ["info"]
    or with an ["info"] object without ["count"]: for any other reply
    without the count (["info"] is [null] or no object, or the body is no
    object) line 81 raises [AttributeError], nothing is drawn, and the
    exception leaves the handler and the "случайный" branch of the loop. *)
Theorem C9_fallback_misses_replies_that_are_no_objects (E : env) (s : state) :
  let url := Lab10.BASE_URL ++ u "/" ++ u "character" in
  let s1 := {| selected := selected s; files := files s; log := log s ++ [Get url] |} in
  let drawn bound n :=
    Py.randint 1 bound (entropy E (S (length (log s)))) = Ok n
    /\ 1 <= n <= bound
    /\ log (snd (Lab10.random_character E s))
       = log s ++ [ Get url; Draw n;
                    Get (Lab10.BASE_URL ++ u "/" ++ u "character/" ++ Str.of_Z n) ] in
  (failed_reply (http E (length (log s)) url) = true -> exists n, drawn 826 n)
  /\ (forall st reason data v c z,
         http E (length (log s)) url = Reply st reason data (inr v) ->
         error_status st = false ->
         count_field v = Some c ->
         Py.upper E c = Ok z -> 1 <= z ->
         exists n, drawn z n)
  /\ (forall st reason data v,
         http E (length (log s)) url = Reply st reason data (inr v) ->
         error_status st = false ->
         lacks_count v = true ->
         if object_without_count v
         then exists n, drawn 826 n
         else Lab10.random_character E s = (Raise AttributeError, s1)
              /\ Lab10.perform E Lab10.random_ s = (Raise AttributeError, s1))
  /\ (forall r s' n,
         Lab10.random_character E s = (r, s') ->
         In (Draw n) (since s s') ->
         exists total z,
           Lab10.total_count E s = (Ok total, s1)
           /\ Py.upper E total = Ok z /\ 1 <= n <= z
           /\ In (Get (Lab10.BASE_URL ++ u "/" ++ u "character/" ++ Str.of_Z n))
                 (log s')).
Proof.
  intros url s1 drawn. split; [|split; [|split]].
  - intros Hf.
    apply (Lab10_random_character_uses E s (VInt 826) 826); [|done|lia].
    apply Lab10_total_count_fallback. by left.
  - intros st reason data v c z Hhttp Hst Hc Hup Hz.
    apply (Lab10_random_character_uses E s c z); [|done|done].
    destruct v as [| | | | | |d]; try done. cbn [count_field] in Hc.
    destruct (Py.lookup_key (u "info") d) as [[| | | | | |i]|] eqn:Hinfo; try done.
    by apply (Lab10_total_count_live E s st reason data d i c).
  - intros st reason data v Hhttp Hst Hlack.
    destruct (object_without_count v) eqn:Hobj.
    + apply (Lab10_random_character_uses E s (VInt 826) 826); [|done|lia].
      apply Lab10_total_count_fallback. right. by exists st, reason, data, v.
    + assert (H : Lab10.random_character E s = (Raise AttributeError, s1)).
      { unfold Lab10.random_character. unfold bind at 1.
        by rewrite (Lab10_total_count_no_object E s st reason data v). }
      split; [done|]. unfold Lab10.perform. unfold bind at 1. by rewrite H.
  - intros r s' n Hrun Hin.
    destruct (Lab10_random_character_draw E s s' r n Hrun Hin)
      as (total & s1' & z & Ht & Hi & Hr & Hg).
    exists total, z. repeat split; try done; try lia.
    destruct (Lab10_total_count_log E s) as [rt Hlog]. rewrite Hlog in Ht.
    injection Ht as -> <-. exact Hlog.
Qed.

Lemma C9_witness :
  (let E := Cases.replying (VDict [ (u "info", VNone) ]) in
   let s := Sample.with_selected Sample.rick in
   let s1 := {| selected := Sample.rick; files := ∅;
                log := [Get (u "https://rickandmortyapi.com/api/character")] |} in
   Lab10.random_character E s = (Raise AttributeError, s1)
   /\ Lab10.perform E Lab10.random_ s = (Raise AttributeError, s1))
  /\ (exists n,
         1 <= n <= 826
         /\ log (snd (Lab10.random_character Sample.offline Sample.start))
            = [ Get (u "https://rickandmortyapi.com/api/character"); Draw n;
                Get (Lab10.BASE_URL ++ u "/" ++ u "character/" ++ Str.of_Z n) ]).
Proof.
  split.
  - pose proof (proj1 (proj2 (proj2
                  (C9_fallback_misses_replies_that_are_no_objects
                     (Cases.replying (VDict [ (u "info", VNone) ]))
                     (Sample.with_selected Sample.rick))))
                  200 [] [] (VDict [ (u "info", VNone) ])
                  ltac:(vm_compute; reflexivity) ltac:(vm_compute; reflexivity)
                  ltac:(vm_compute; reflexivity)) as H.
    exact H.
  - destruct (proj1 (C9_fallback_misses_replies_that_are_no_objects
                       Sample.offline Sample.start)
                ltac:(vm_compute; reflexivity)) as (n & _ & Hn & Hlog).
    exists n. split; [exact Hn|exact Hlog].
Defined.

(** ** A failed selection keeps the previous one *)

Lemma Extra_find_word_failed (E : env) (word : str) (s : state) :
  let url := Extra.BASE_URL ++ word in
  failed_reply (http E (length (log s)) url) = true ->
  Extra.find_word E word s
  = (Ok (false, VStr (failure_message (http E (length (log s)) url))),
     {| selected := selected s; files := files s; log := log s ++ [Get url] |}).
Proof.
  intros url H. unfold Extra.find_word, requests_get, raise_for_status, json.
  run_monad. cbn [Py.to_str]. fold url.
  destruct (http E (length (log s)) url) as [msg|st reason data body]; [done|].
  cbn [failed_reply failure_message] in *. run_monad.
  destruct (error_status st); [done|]. run_monad. by destruct body.
Qed.

Lemma Extra_find_word_no_entry (E : env) (word : str) (s : state) (st : Z)
      (reason : str) (data : bytes) (body : value) :
  let url := Extra.BASE_URL ++ word in
  http E (length (log s)) url = Reply st reason data (inr body) ->
  error_status st = false ->
  Py.item0 body = Raise IndexError ->
  Extra.find_word E word s
  = (Ok (false, VStr (u "No entry found.")),
     {| selected := selected s; files := files s; log := log s ++ [Get url] |}).
Proof.
  intros url Hhttp Hst Hitem.
  unfold Extra.find_word, requests_get, raise_for_status, json. run_monad.
  cbn [Py.to_str]. fold url. rewrite Hhttp. run_monad. rewrite Hst. run_monad.
  by rewrite Hitem.
Qed.

(** Whatever the reply, [find_word] changes the selection only when it
    returns [(True, None)]. *)
Lemma Extra_find_word_keeps_selection (E : env) (word : str) (s s' : state)
      (r : res (bool * value)) :
  Extra.find_word E word s = (r, s') ->
  r <> Ok (true, VNone) ->
  selected s' = selected s /\ files s' = files s.
Proof.
  unfold Extra.find_word, requests_get, raise_for_status, json. run_monad.
  destruct (http E _ _) as [msg|st reason data body]; run_monad.
  - by intros [= <- <-].
  - destruct (error_status st); run_monad; [by intros [= <- <-]|].
    destruct body as [msg|body]; run_monad; [by intros [= <- <-]|].
    destruct (Py.item0 body) as [first|e]; run_monad.
    + by intros [= <- <-].
    + destruct e; by intros [= <- <-].
Qed.

Lemma Lab10_random_character_keeps_selection (E : env) (s s' : state)
      (x err : value) :
  Lab10.random_character E s = (Ok (x, err), s') ->
  err <> VNone ->
  selected s' = selected s /\ files s' = files s.
Proof.
  unfold Lab10.random_character. unfold bind at 1.
  destruct (Lab10_total_count_log E s) as [rt ->].
  destruct rt as [total|e]; [|done]. unfold bind at 1.
  destruct (Lab10.randint1 E total _) as [[m|e] s2] eqn:Hr; [|done].
  apply Lab10_randint1_range in Hr as (z & _ & _ & ->).
  match goal with
  | |- context [Lab10.select_character E m ?st] =>
    destruct (Lab10_select_character_cases E m st) as (r' & sel & -> & Hsel)
  end.
  intros [= -> <-] Herr. cbn [selected files] in *.
  destruct Hsel as [-> | (_ & Hr & _)]; [done|].
  destruct Hr as [Hr | [Hr | [name Hr]]]; try discriminate.
  injection Hr as _ ->. done.
Qed.

Lemma Lab10_random_character_offline (E : env) (s : state) :
  (forall t url, failed_reply (http E t url) = true) ->
  exists msg s',
    Lab10.random_character E s = (Ok (VNone, VStr msg), s')
    /\ selected s' = selected s /\ files s' = files s.
Proof.
  intros Hoff. unfold Lab10.random_character. unfold bind at 1.
  rewrite (Lab10_total_count_fallback E s) by (left; apply Hoff).
  unfold bind at 1.
  match goal with
  | |- context [Lab10.randint1 E ?t ?st] =>
    destruct (Lab10_randint1_total E t st 826 eq_refl ltac:(lia)) as (n & -> & _)
  end.
  rewrite Lab10_select_character_failed by apply Hoff.
  by eexists _, _.
Qed.

Lemma Lab10_select_character_malformed (E : env) (n : Z) (s : state) (st : Z)
      (reason : str) (data : bytes) (body : value) (e : exn) :
  let url := Lab10.BASE_URL ++ u "/" ++ u "character/" ++ Str.of_Z n in
  http E (length (log s)) url = Reply st reason data (inr body) ->
  error_status st = false ->
  Py.contains (u "error") body = Ok false ->
  Py.item body (u "name") = Raise e ->
  Lab10.select_character E n s
  = (Raise e, {| selected := body; files := files s; log := log s ++ [Get url] |}).
Proof.
  intros url Hhttp Hst Herr Hname.
  unfold Lab10.select_character. unfold bind at 1.
  rewrite (Lab10_fetch_ok E s (u "character/" ++ Str.of_Z n) st reason data body
             Hhttp Hst).
  run_monad. rewrite Herr. run_monad. by rewrite Hname.
Qed.

(** C10.  A lookup that fails keeps the selection: [find_word] touches
    [self.entry] only when it returns [(True, None)]; and a random
    selection whose requests fail returns an error and keeps it too.  But
    [random_character] assigns [self.character = data] before it reads
    [data['name']]: when the character request is answered with a JSON
    value that has no ["error"] in it and no ["name"] to read (an object
    without "name", a list, a string), the call replaces the selection by
    that value and then raises [KeyError] or [TypeError], so it fails
    without an error result and with the previous selection lost.  With a
    service answering [{}] the selection is cleared and the main loop
    dies. *)
Theorem C10_malformed_reply_replaces_selection :
  (forall (E : env) (word : str) (s s' : state) (r : res (bool * value)),
      Extra.find_word E word s = (r, s') ->
      r <> Ok (true, VNone) ->
      selected s' = selected s /\ files s' = files s)
  /\ (forall (E : env) (s : state),
         (forall t url, failed_reply (http E t url) = true) ->
         exists msg s',
           Lab10.random_character E s = (Ok (VNone, VStr msg), s')
           /\ selected s' = selected s /\ files s' = files s)
  /\ (forall (E : env) (n : Z) (s : state) st reason data body e,
         http E (length (log s))
              (Lab10.BASE_URL ++ u "/" ++ u "character/" ++ Str.of_Z n)
         = Reply st reason data (inr body) ->
         error_status st = false ->
         Py.contains (u "error") body = Ok false ->
         Py.item body (u "name") = Raise e ->
         Lab10.select_character E n s
         = (Raise e,
            {| selected := body; files := files s;
               log := log s ++ [Get (Lab10.BASE_URL ++ u "/" ++ u "character/"
                                                    ++ Str.of_Z n)] |}))
  /\ (forall s : state,
         Lab10.random_character (Cases.replying (VDict [])) s
         = (Raise KeyError,
            {| selected := VDict []; files := files s;
               log := log s ++ [ Get (u "https://rickandmortyapi.com/api/character");
                                 Draw 1;
                                 Get (u "https://rickandmortyapi.com/api/character/1") ] |}))
  /\ session Lab10.listen_step (Lab10.body (Cases.replying (VDict [])))
             [Sample.heard "случайный"; Sample.heard "происхождение"]
             (Sample.with_selected Sample.rick)
     = (Crashed KeyError,
        {| selected := VDict []; files := ∅;
           log := [ Print (u "Распознано: случайный");
                    Get (u "https://rickandmortyapi.com/api/character");
                    Draw 1;
                    Get (u "https://rickandmortyapi.com/api/character/1") ] |},
        [Sample.heard "происхождение"]).
Proof.
  split; [exact Extra_find_word_keeps_selection|].
  split; [exact Lab10_random_character_offline|].
  split; [exact Lab10_select_character_malformed|]. split.
  - intros s. unfold Lab10.random_character. unfold bind at 1.
    rewrite (Lab10_total_count_fallback (Cases.replying (VDict [])) s)
      by (right; by exists 200, [], [], (VDict [])).
    unfold bind at 1.
    match goal with
    | |- context [Lab10.randint1 ?E ?t ?st] =>
      destruct (Lab10_randint1_total E t st 826 eq_refl ltac:(lia))
        as (n & -> & Hn & _)
    end.
    injection Hn as <-.
    rewrite (Lab10_select_character_malformed _ _ _ 200 [] [] (VDict []) KeyError)
      by done.
    cbn [selected files log]. by repeat rewrite <- app_assoc.
  - vm_compute. reflexivity.
Qed.

Lemma C10_witness :
  Lab10.select_character (Cases.replying (VList [])) 1 (Sample.with_selected Sample.rick)
  = (Raise TypeError,
     {| selected := VList []; files := ∅;
        log := [] ++ [Get (Lab10.BASE_URL ++ u "/" ++ u "character/" ++ Str.of_Z 1)] |}).
Proof.
  pose proof (proj1 (proj2 (proj2 C10_malformed_reply_replaces_selection))
                (Cases.replying (VList [])) 1 (Sample.with_selected Sample.rick)
                200 [] [] (VList []) TypeError
                ltac:(vm_compute; reflexivity) ltac:(vm_compute; reflexivity)
                ltac:(vm_compute; reflexivity) ltac:(vm_compute; reflexivity)) as H.
  rewrite H. reflexivity.
Defined.

(** ** Sample runs *)

Example string_literals :
  u "find " = [102; 105; 110; 100; 32]%N
  /\ u "выход" = [1074; 1099; 1093; 1086; 1076]%N
  /\ Str.strip (u "  привет мир ") = u "привет мир"
  /\ Str.replace (u "find ") [] (u "find a find b") = u "a b"
  /\ Str.of_Z 826 = u "826" /\ Str.of_Z 0 = u "0".
Proof. repeat split; reflexivity. Qed.

(** "find hello": the word is looked up, selected and announced. *)
Example scenario_find_hello :
  Extra.route (u "find hello") = Extra.Lookup (u "hello")
  /\ Extra.body Sample.online (u "find hello") Sample.start
     = (Ok Continue,
        {| selected := Sample.hello_entry; files := ∅;
           log := [ Print (u "Heard: find hello");
                    Get (u "https://api.dictionaryapi.dev/api/v2/entries/en/hello");
                    Print (u "Assistant: Word 'hello' found.");
                    Say (VStr (u "Word 'hello' found.")) ] |}).
Proof. split; reflexivity. Qed.

(** "meaning" with nothing selected. *)
Example scenario_meaning_without_selection :
  Extra.body Sample.online (u "meaning") Sample.start
  = (Ok Continue,
     {| selected := VNone; files := ∅;
        log := [ Print (u "Heard: meaning");
                 Print (u "Assistant: No word selected.");
                 Say (VStr (u "No word selected.")) ] |}).
Proof. reflexivity. Qed.

(** "blah blah" is no command. *)
Example scenario_unknown :
  Extra.route (u "blah blah") = Extra.Unknown
  /\ log (snd (Extra.body Sample.online (u "blah blah") Sample.start))
     = [ Print (u "Heard: blah blah");
         Print (u "Assistant: " ++ Extra.unknown_message);
         Say (VStr Extra.unknown_message) ]
  /\ log (snd (Lab10.body Sample.online (u "бла бла") Sample.start))
     = [ Print (u "Распознано: бла бла");
         Say (VStr (u "Команда не распознана. Попробуйте снова.")) ].
Proof. repeat split; reflexivity. Qed.

(** A whole session of the character assistant. *)
Example scenario_character_session :
  let '(st, s, rest) :=
    Lab10.main Sample.online
      [ Sample.silence; Sample.heard "случайный"; Sample.heard "";
        Sample.heard "происхождение"; Sample.heard "выход"; Sample.silence ]
      Sample.start in
  st = Stopped
  /\ selected s = Sample.rick
  /\ rest = [Sample.silence]
  /\ log s
     = [ Say (VStr (u "Голосовой ассистент Рик и Морти активирован."));
         Say (VStr (u "Команды: случайный, сохранить, эпизод, показать, разрешение, происхождение, локация, список эпизодов, выход"));
         Sleep;
         Print (u "Распознано: случайный");
         Get (u "https://rickandmortyapi.com/api/character");
         Draw 1;
         Get (u "https://rickandmortyapi.com/api/character/1");
         Say (VStr (u "Rick Sanchez"));
         Print (u "Распознано: происхождение");
         Say (VStr (u "Earth (C-137)"));
         Print (u "Распознано: выход");
         Say (VStr (u "До скорых встреч!")) ].
Proof. vm_compute. repeat split; reflexivity. Qed.

(** The branch for "список эпизодов" comes after the one for "эпизод",
    which every utterance containing "список эпизодов" already takes. *)
Lemma Lab10_list_eps_shadowed (cmd : str) : Lab10.branch cmd <> Lab10.list_eps_.
Proof.
  assert (Hsub : Str.contains (u "эпизод") (u "список эпизодов") = true)
    by reflexivity.
  branch_cases cmd; try done.
  match goal with
  | H : Str.contains (u "список эпизодов") cmd = true |- _ =>
    pose proof (contains_trans _ _ _ Hsub H)
  end.
  congruence.
Qed.

Example scenario_list_of_episodes :
  Lab10.branch (lower Sample.online (u "список эпизодов")) = Lab10.first_ep_.
Proof. reflexivity. Qed.

(** * Further properties of the code *)

(** ** What the handlers leave alone *)

Section Keeps.
Context {X : Type}.
Variable f : state -> X.

Lemma keeps_ret {A} (a : A) : keeps f (ret a).
Proof. done. Qed.

Lemma keeps_raise {A} (e : exn) : keeps f (@raise A e).
Proof. done. Qed.

Lemma keeps_lift {A} (r : res A) : keeps f (lift r).
Proof. done. Qed.

Lemma keeps_now : keeps f now.
Proof. done. Qed.

Lemma keeps_get_selected : keeps f get_selected.
Proof. done. Qed.

Lemma keeps_bind {A B} (c : M A) (k : A -> M B) :
  keeps f c -> (forall a, keeps f (k a)) -> keeps f (bind c k).
Proof.
  intros Hc Hk s. unfold bind. specialize (Hc s).
  destruct (c s) as [[a|e] s1]; cbn [snd] in *; [|done].
  by rewrite Hk.
Qed.

Lemma keeps_try_except {A} (c : M A) (h : exn -> option (M A)) :
  keeps f c -> (forall e k, h e = Some k -> keeps f k) -> keeps f (try_except c h).
Proof.
  intros Hc Hh s. unfold try_except. specialize (Hc s).
  destruct (c s) as [[a|e] s1]; cbn [snd] in *; [done|].
  destruct (h e) as [k|] eqn:He; [|done]. by rewrite (Hh e k He).
Qed.

Lemma keeps_for_each {A B} (g : A -> M B) (l : list A) :
  (forall a, keeps f (g a)) -> keeps f (for_each g l).
Proof.
  intros Hg. induction l as [|a l IH]; [done|]. simpl.
  apply keeps_bind; [done|]. intros b. apply keeps_bind; [done|]. by intros bs.
Qed.

Lemma keeps_first_of {A B} (g : A -> M (option B)) (l : list A) :
  (forall a, keeps f (g a)) -> keeps f (first_of g l).
Proof.
  intros Hg. induction l as [|a l IH]; [done|]. simpl.
  apply keeps_bind; [done|]. by intros [b|].
Qed.

End Keeps.

Lemma keeps_emit {X} (f : state -> X) (e : event) :
  (forall sel fl l l', f {| selected := sel; files := fl; log := l |}
                       = f {| selected := sel; files := fl; log := l' |}) ->
  keeps f (emit e).
Proof. intros H s. destruct s. apply H. Qed.

(** The proof that a computation keeps a part of the state follows its
    syntax. *)
Ltac keeps_all :=
  repeat first
    [ apply keeps_ret | apply keeps_raise | apply keeps_lift | apply keeps_now
    | apply keeps_get_selected
    | apply keeps_emit; reflexivity
    | solve [intros []; reflexivity]
    | apply keeps_bind; [|intros ?]
    | apply keeps_try_except; [|intros ? ? ?]
    | apply keeps_for_each; intros ?
    | apply keeps_first_of; intros ?
    | match goal with
      | H : match ?e with _ => _ end = Some _ |- _ => destruct e; try discriminate H
      | H : Some _ = Some _ |- _ => injection H as <-
      | |- keeps _ (match ?x with _ => _ end) => destruct x
      | |- keeps _ (let '(_, _) := ?x in _) => destruct x
      end ].

(** X1.  The handlers that only read the selection ([meaning], [example],
    [link], [origin], [location]) leave the whole state as it was: no
    request, no file, no log entry, whatever is selected and whether they
    return or raise. *)
Theorem X1_reading_handlers_change_nothing (E : env) (s : state) :
  snd (Extra.meaning E s) = s
  /\ snd (Extra.example s) = s
  /\ snd (Extra.link E s) = s
  /\ snd (Lab10.origin s) = s
  /\ snd (Lab10.location s) = s.
Proof.
  assert (H : keeps (fun x => x) (Extra.meaning E)
              /\ keeps (fun x => x) Extra.example
              /\ keeps (fun x => x) (Extra.link E)
              /\ keeps (fun x => x) Lab10.origin
              /\ keeps (fun x => x) Lab10.location).
  { repeat split;
      unfold Extra.meaning, Extra.example, Extra.link, Lab10.origin, Lab10.location;
      keeps_all. }
  destruct H as (H1 & H2 & H3 & H4 & H5).
  repeat split; [apply H1|apply H2|apply H3|apply H4|apply H5].
Qed.

(** X2.  Only a lookup or a random draw can change the selection, and only
    a save can write a file: every command of Extra_.py keeps the selection,
    every command but "save" keeps the files; in Lab_10.py every command but
    "random" keeps the selection and every command but "save" keeps the
    files.  This holds for every outcome, an exception included. *)
Theorem X2_commands_keep_selection_and_files (E : env) (s : state) :
  (forall a, selected (snd (Extra.perform E a s)) = selected s)
  /\ (forall a, a <> Extra.save_ -> files (snd (Extra.perform E a s)) = files s)
  /\ (forall w, files (snd (Extra.find_word E w s)) = files s)
  /\ (forall c, c <> Lab10.random_ ->
                selected (snd (Lab10.perform E c s)) = selected s)
  /\ (forall c, c <> Lab10.save_ -> files (snd (Lab10.perform E c s)) = files s).
Proof.
  repeat split.
  - intros a. revert s. change (keeps selected (Extra.perform E a)).
    destruct a; unfold Extra.perform; unfold_handlers; keeps_all.
  - intros a Ha. revert s. change (keeps files (Extra.perform E a)).
    destruct a; try done; unfold Extra.perform; unfold_handlers; keeps_all.
  - intros w. revert s. change (keeps files (Extra.find_word E w)).
    unfold_handlers; keeps_all.
  - intros c Hc. revert s. change (keeps selected (Lab10.perform E c)).
    destruct c; try done; unfold Lab10.perform; unfold_handlers; keeps_all.
  - intros c Hc. revert s. change (keeps files (Lab10.perform E c)).
    destruct c; try done; unfold Lab10.perform; unfold_handlers; keeps_all.
Qed.

Lemma X2_witness :
  files (snd (Extra.perform Sample.online Extra.link_
                            (Sample.with_selected Sample.hello_entry))) = ∅
  /\ selected (snd (Lab10.perform Sample.online Lab10.save_
                                  (Sample.with_selected Sample.rick))) = Sample.rick.
Proof.
  split.
  - apply (proj1 (proj2 (X2_commands_keep_selection_and_files Sample.online
                          (Sample.with_selected Sample.hello_entry)))).
    discriminate.
  - apply (proj1 (proj2 (proj2 (proj2 (X2_commands_keep_selection_and_files
                                         Sample.online
                                         (Sample.with_selected Sample.rick)))))).
    discriminate.
Defined.

(** ** Every turn ends by speaking *)

Lemma ends_with_say_say (v : value) : ends_with_say (emit (Say v)).
Proof. intros s r s' [= _ <-]. by exists [], v. Qed.

Lemma ends_with_say_bind {A B} (c : M A) (k : A -> M B) :
  emits (fun _ => True) c -> (forall a, ends_with_say (k a)) -> ends_with_say (bind c k).
Proof.
  intros Hc Hk s r s'. unfold bind. destruct (Hc s) as (n1 & H1 & _).
  destruct (c s) as [[a|e] s1]; cbn [snd] in *; [|done].
  intros Hrun. destruct (Hk a s1 r s' Hrun) as (pre & v & ->).
  exists (n1 ++ pre), v. rewrite H1. by repeat rewrite <- app_assoc.
Qed.

Lemma ends_with_say_then_ret {A B} (c : M A) (x : B) :
  ends_with_say c -> ends_with_say (bind c (fun _ => ret x)).
Proof.
  intros Hc s r s'. unfold bind, ret. destruct (c s) as [[a|e] s1] eqn:Hrun; [|done].
  intros [= _ <-]. by apply (Hc s a).
Qed.

Lemma ends_with_say_lift {A B} (r : res A) (k : A -> M B) :
  (forall a, r = Ok a -> ends_with_say (k a)) -> ends_with_say (bind (lift r) k).
Proof.
  intros Hk s x s'. unfold bind, lift. destruct r as [a|e]; [|done].
  by apply Hk.
Qed.

Lemma ends_with_say_for_each {A B} (g : A -> M B) (l : list A) :
  l <> [] ->
  (forall a, emits (fun _ => True) (g a)) ->
  (forall a, ends_with_say (g a)) ->
  ends_with_say (for_each g l).
Proof.
  intros Hl He Hg. induction l as [|a l IH]; [done|]. clear Hl.
  destruct l as [|a' l].
  - intros s r s'. simpl. unfold bind, ret.
    destruct (g a s) as [[b|e] s1] eqn:Hrun; [|done].
    intros [= _ <-]. by apply (Hg a s b).
  - change (for_each g (a :: a' :: l))
      with (bind (g a) (fun b => bind (for_each g (a' :: l)) (fun bs => ret (b :: bs)))).
    apply ends_with_say_bind; [done|]. intros b.
    intros s r s'. unfold bind at 1.
    destruct (for_each g (a' :: l) s) as [[bs|e] s1] eqn:Hrun; [|done].
    intros [= _ <-]. by apply (IH ltac:(done) s bs).
Qed.

Lemma iter_truthy (v : value) (l : list value) :
  Py.truthy v = true -> Py.iter v = Ok l -> l <> [].
Proof.
  destruct v as [|b|z|m e|t|t|t]; simpl; try done;
    destruct t; try done; by intros _ [= <-].
Qed.

Ltac extends :=
  first
    [ solve [ apply (emits_weaken quiet); [done|]; unfold quiet; emits_only ]
    | solve [ apply (emits_weaken harmless); [done|]; unfold harmless; emits_only ] ].

Ltac speaks :=
  first
    [ apply ends_with_say_say
    | apply ends_with_say_then_ret; speaks
    | apply ends_with_say_bind; [ extends | intros ?; speaks ]
    | match goal with
      | |- ends_with_say (match ?x with _ => _ end) => destruct x; speaks
      | |- ends_with_say (let '(_, _) := ?x in _) => destruct x; speaks
      end ].

Lemma Extra_perform_ends_with_say (E : env) (a : Extra.action) :
  ends_with_say (Extra.perform E a).
Proof.
  destruct a; unfold Extra.perform; try (unfold_handlers; speaks).
  apply ends_with_say_bind; [unfold_handlers; extends|]. intros [defs err].
  apply ends_with_say_then_ret. destruct (Py.truthy defs) eqn:Ht.
  - apply ends_with_say_lift. intros dl Hdl. apply ends_with_say_then_ret.
    apply ends_with_say_for_each.
    + by apply (iter_truthy defs).
    + intros v. unfold_handlers. extends.
    + intros v. unfold_handlers. speaks.
  - unfold_handlers. speaks.
Qed.

Lemma Lab10_perform_ends_with_say (E : env) (c : Lab10.command) :
  ends_with_say (Lab10.perform E c).
Proof. destruct c; unfold Lab10.perform; unfold_handlers; speaks. Qed.

(** X3.  Every turn of the main loops ends with a call of [speech.speak]:
    whenever the body of the loop of Extra_.py or Lab_10.py finishes
    without an exception, whatever the utterance, the last thing it did
    was that call, after any request, file or browser action of the turn;
    no branch returns to listening without it.  The value passed can be
    [None] (see X10 and X19), so this does not say that something is
    heard. *)
Theorem X3_every_turn_ends_with_a_call_of_speak (E : env) (text : str)
        (s s' : state) (r : flow) :
  (Extra.body E text s = (Ok r, s') ->
   exists pre v, log s' = log s ++ pre ++ [Say v])
  /\ (Lab10.body E text s = (Ok r, s') ->
      exists pre v, log s' = log s ++ pre ++ [Say v]).
Proof.
  split.
  - revert s r s'. change (ends_with_say (Extra.body E text)). unfold Extra.body.
    apply ends_with_say_bind; [extends|]. intros _.
    destruct (Extra.route text) as [word|a|].
    + unfold_handlers. speaks.
    + apply Extra_perform_ends_with_say.
    + unfold_handlers. speaks.
  - revert s r s'. change (ends_with_say (Lab10.body E text)). unfold Lab10.body.
    apply ends_with_say_bind; [extends|]. intros _. apply Lab10_perform_ends_with_say.
Qed.

Lemma X3_witness :
  (exists pre v,
      log (snd (Extra.body Sample.online (u "link")
                           (Sample.with_selected Sample.hello_entry)))
      = [] ++ pre ++ [Say v])
  /\ (exists pre v,
         log (snd (Lab10.body Sample.offline (u "случайный") Sample.start))
         = [] ++ pre ++ [Say v]).
Proof.
  split.
  - apply (proj1 (X3_every_turn_ends_with_a_call_of_speak Sample.online (u "link")
                   (Sample.with_selected Sample.hello_entry)
                   (snd (Extra.body Sample.online (u "link")
                                    (Sample.with_selected Sample.hello_entry)))
                   Continue)).
    vm_compute. reflexivity.
  - apply (proj2 (X3_every_turn_ends_with_a_call_of_speak Sample.offline (u "случайный")
                   Sample.start
                   (snd (Lab10.body Sample.offline (u "случайный") Sample.start))
                   Continue)).
    vm_compute. reflexivity.
Defined.

(** ** Interrupting the listening loop *)

Lemma session_skips {U} (step : frame -> pull U) (body : U -> M flow)
      (pre fs : list frame) (s : state) :
  Forall (fun f => step f = Skip) pre ->
  session step body (pre ++ fs) s = session step body fs s.
Proof.
  intros Hpre. induction Hpre as [|f pre Hf _ IH]; [done|].
  simpl. by rewrite Hf.
Qed.

(** X4.  A [KeyboardInterrupt] that arrives while the recogniser waits for
    audio (after any number of frames that yield nothing) ends the sessions
    of Extra_.py and Lab_10.py quietly: the generator returns, the loop
    ends, the state is as before and nothing is said.  In main1.py, whose
    generator has no handler, the same interrupt ends the program with the
    exception. *)
Theorem X4_interrupt_while_listening (E : env) (pre rest : list frame) (s : state) :
  (Forall (fun f => Extra.listen_step E f = Skip) pre ->
   session (Extra.listen_step E) (Extra.body E) (pre ++ Interrupt :: rest) s
   = (Interrupted, s, rest))
  /\ (Forall (fun f => Lab10.listen_step f = Skip) pre ->
      session Lab10.listen_step (Lab10.body E) (pre ++ Interrupt :: rest) s
      = (Interrupted, s, rest))
  /\ (Forall (fun f => Main1.listen_step f = Skip) pre ->
      session Main1.listen_step (Main1.body E) (pre ++ Interrupt :: rest) s
      = (Crashed KeyboardInterrupt, s, rest)).
Proof.
  repeat split; intros Hpre; by rewrite session_skips.
Qed.

Lemma X4_witness :
  session Lab10.listen_step (Lab10.body Sample.online)
          ([Sample.silence; Sample.heard "  "] ++ Interrupt :: [Sample.heard "выход"])
          Sample.start
  = (Interrupted, Sample.start, [Sample.heard "выход"])
  /\ session Main1.listen_step (Main1.body Sample.online)
             ([Sample.silence] ++ Interrupt :: [Sample.heard "закрыть"]) Sample.start
     = (Crashed KeyboardInterrupt, Sample.start, [Sample.heard "закрыть"]).
Proof.
  split.
  - apply (proj1 (proj2 (X4_interrupt_while_listening Sample.online
                          [Sample.silence; Sample.heard "  "]
                          [Sample.heard "выход"] Sample.start))).
    repeat constructor.
  - apply (proj2 (proj2 (X4_interrupt_while_listening Sample.online
                          [Sample.silence] [Sample.heard "закрыть"] Sample.start))).
    repeat constructor.
Defined.

(** ** Routing, further *)

(** X5.  The branch for "список эпизодов" in Lab_10.py is dead: whatever the
    utterance, the chain never reaches it, because an utterance that
    contains "список эпизодов" contains "эпизод" and is taken by an earlier
    branch (exit, random, save or first episode).  So the loop never calls
    [episodes_list]. *)
Theorem X5_list_of_episodes_never_dispatched (cmd : str) :
  Lab10.branch cmd <> Lab10.list_eps_
  /\ (Str.contains (u "список эпизодов") cmd = true ->
      Lab10.branch cmd = Lab10.exit_ \/ Lab10.branch cmd = Lab10.random_
      \/ Lab10.branch cmd = Lab10.save_ \/ Lab10.branch cmd = Lab10.first_ep_).
Proof.
  split; [apply Lab10_list_eps_shadowed|].
  intros H.
  assert (Hsub : Str.contains (u "эпизод") (u "список эпизодов") = true)
    by (by vm_compute).
  pose proof (contains_trans _ _ _ Hsub H) as He.
  branch_cases cmd; auto; congruence.
Qed.

Lemma X5_witness :
  Lab10.branch (u "список эпизодов") = Lab10.exit_
  \/ Lab10.branch (u "список эпизодов") = Lab10.random_
  \/ Lab10.branch (u "список эпизодов") = Lab10.save_
  \/ Lab10.branch (u "список эпизодов") = Lab10.first_ep_.
Proof.
  apply (proj2 (X5_list_of_episodes_never_dispatched (u "список эпизодов"))).
  by vm_compute.
Defined.

(** X6.  When the text after the trigger phrase contains no further
    occurrence of that phrase and is not blank, the utterance is routed to
    the lookup of exactly that text, trimmed. *)
Theorem X6_trigger_word_is_the_trimmed_remainder (rest : str) :
  Str.strip rest <> [] ->
  (Str.contains (u "find ") rest = false ->
   Extra.route (u "find " ++ rest) = Extra.Lookup (Str.strip rest))
  /\ (Str.contains (u "найти ") rest = false ->
      Extra.route (u "найти " ++ rest) = Extra.Lookup (Str.strip rest)).
Proof.
  intros Hne. split; intros H; unfold Extra.route.
  - rewrite trigger_word_find by done. by destruct (Str.strip rest).
  - rewrite trigger_word_najti by done. by destruct (Str.strip rest).
Qed.

Lemma X6_witness :
  Extra.route (u "find " ++ u " hello world") = Extra.Lookup (Str.strip (u " hello world"))
  /\ Extra.route (u "найти " ++ u "слово") = Extra.Lookup (Str.strip (u "слово")).
Proof.
  split.
  - apply (proj1 (X6_trigger_word_is_the_trimmed_remainder (u " hello world")
                   ltac:(by vm_compute))).
    by vm_compute.
  - apply (proj2 (X6_trigger_word_is_the_trimmed_remainder (u "слово")
                   ltac:(by vm_compute))).
    by vm_compute.
Defined.

(** X7.  A trigger phrase has priority over the command table: an utterance
    that ends in a visible character (as every utterance has that the
    recogniser yields) and starts with "find " or "найти " is always routed
    to the lookup, never to a command and never to the unknown-command
    answer, whatever follows the trigger. *)
Theorem X7_trigger_always_routes_to_lookup (a : str) (c : N) :
  Str.isspace c = false ->
  Str.startswith (u "find ") (a ++ [c]) = true
  \/ Str.startswith (u "найти ") (a ++ [c]) = true ->
  (exists w, Extra.route (a ++ [c]) = Extra.Lookup w)
  /\ Extra.route (a ++ [c]) <> Extra.Unknown
  /\ (forall x, Extra.route (a ++ [c]) <> Extra.Command x).
Proof.
  intros Hc Hs. destruct (Extra_trigger_always_lookup a c Hc Hs) as [w Hw].
  rewrite Hw. split; [by exists w|]. split; [done|]. by intros x.
Qed.

Lemma X7_witness :
  exists w, Extra.route (u "find exi" ++ [116%N]) = Extra.Lookup w.
Proof.
  apply (X7_trigger_always_routes_to_lookup (u "find exi") 116%N).
  - reflexivity.
  - left. reflexivity.
Defined.

(** ** Guarded and unguarded requests *)

Lemma Lab10_fetch_from_url_total (E : env) (url : value) (s : state) :
  exists v,
    Lab10._fetch_from_url E url s
    = (Ok v, {| selected := selected s; files := files s;
                log := log s ++ [Get (Py.to_str E url)] |})
    /\ (failed_reply (http E (length (log s)) (Py.to_str E url)) = true -> v = VDict [])
    /\ (failed_reply (http E (length (log s)) (Py.to_str E url)) = false ->
        exists st reason data,
          http E (length (log s)) (Py.to_str E url) = Reply st reason data (inr v)
          /\ error_status st = false).
Proof.
  unfold Lab10._fetch_from_url, requests_get, raise_for_status, json. run_monad.
  destruct (http E (length (log s)) (Py.to_str E url))
    as [msg|st reason data [msg|v]] eqn:Hhttp; cbn [failed_reply]; run_monad.
  - eexists. split; [done|]. split; [done|]. intros [=].
  - destruct (error_status st) eqn:Hst; run_monad; eexists; (split; [done|]);
      (split; [done|]); rewrite ?orb_true_r; cbn; intros [=].
  - destruct (error_status st) eqn:Hst; run_monad; eexists; (split; [done|]).
    + split; [done|]. intros [=].
    + split; [intros [=]|]. intros _. by exists st, reason, data.
Qed.



(** X9.  The image handlers pass the failure of their request on.  With a
    character selected that has an image URL: when [requests.get] raises,
    [save_image] raises the same exception after the folder was made and
    before any file is written, and [show_image] and [image_resolution]
    raise it too; when the reply arrives but is no image, [show_image] and
    [image_resolution] raise the error of [Image.open] and nothing is
    shown.  The status of the reply is never looked at. *)
Theorem X9_image_handlers_pass_failures_on (E : env) (s : state)
        (d : list (str * value)) (url : value) :
  selected s = VDict d ->
  Py.lookup_key (u "image") d = Some url ->
  (forall folder msg,
      makedirs_ok E (length (log s)) folder = true ->
      http E (S (length (log s))) (Py.to_str E url) = NetError msg ->
      Lab10.save_image E folder s
      = (Raise (RequestException msg),
         {| selected := selected s; files := files s;
            log := log s ++ [MakeDirs folder; Get (Py.to_str E url)] |}))
  /\ (forall msg,
         http E (length (log s)) (Py.to_str E url) = NetError msg ->
         Lab10.show_image E s
         = (Raise (RequestException msg),
            {| selected := selected s; files := files s;
               log := log s ++ [Get (Py.to_str E url)] |})
         /\ Lab10.image_resolution E s
            = (Raise (RequestException msg),
               {| selected := selected s; files := files s;
                  log := log s ++ [Get (Py.to_str E url)] |}))
  /\ (forall st reason data body,
         http E (length (log s)) (Py.to_str E url) = Reply st reason data body ->
         image_size E data = None ->
         Lab10.show_image E s
         = (Raise UnidentifiedImageError,
            {| selected := selected s; files := files s;
               log := log s ++ [Get (Py.to_str E url)] |})
         /\ Lab10.image_resolution E s
            = (Raise UnidentifiedImageError,
               {| selected := selected s; files := files s;
                  log := log s ++ [Get (Py.to_str E url)] |})).
Proof.
  destruct s as [sel fl lg]. cbn [selected files log]. intros -> Himg.
  destruct d as [|kv d]; [discriminate Himg|].
  split; [|split].
  - intros folder msg Hmk Hhttp.
    unfold Lab10.save_image, makedirs, requests_get. run_monad. rewrite Hmk.
    cbn [Py.item]. rewrite Himg. run_monad. rewrite length_snoc, Hhttp. run_monad.
    by repeat rewrite <- app_assoc.
  - intros msg Hhttp. split.
    + unfold Lab10.show_image, requests_get. run_monad. cbn [Py.item].
      rewrite Himg. run_monad. by rewrite Hhttp.
    + unfold Lab10.image_resolution, requests_get. run_monad. cbn [Py.item].
      rewrite Himg. run_monad. by rewrite Hhttp.
  - intros st reason data body Hhttp Hsize. split.
    + unfold Lab10.show_image, requests_get, image_open. run_monad. cbn [Py.item].
      rewrite Himg. run_monad. rewrite Hhttp. cbn [content]. by rewrite Hsize.
    + unfold Lab10.image_resolution, requests_get, image_open. run_monad.
      cbn [Py.item]. rewrite Himg. run_monad. rewrite Hhttp. cbn [content].
      by rewrite Hsize.
Qed.

Lemma X9_witness :
  Lab10.save_image Sample.offline (u "images") (Sample.with_selected Sample.rick)
  = (Raise (RequestException (u "Connection refused")),
     {| selected := Sample.rick; files := ∅;
        log := [] ++ [ MakeDirs (u "images");
                       Get (u "https://rickandmortyapi.com/api/character/avatar/1.jpeg") ] |}).
Proof.
  pose proof (proj1 (X9_image_handlers_pass_failures_on Sample.offline
                       (Sample.with_selected Sample.rick) (Cases.fields Sample.rick)
                       (VStr (u "https://rickandmortyapi.com/api/character/avatar/1.jpeg"))
                       ltac:(vm_compute; reflexivity) ltac:(vm_compute; reflexivity))
                (u "images") (u "Connection refused")
                ltac:(vm_compute; reflexivity) ltac:(vm_compute; reflexivity)) as H.
  rewrite H. vm_compute. reflexivity.
Defined.

(** ** Episodes *)

(** X10.  [first_episode] swallows a failed request: with a character
    selected whose first episode URL cannot be fetched (no connection, error
    status, body that is not JSON), it returns [(None, None)], neither a
    name nor an error message, and the main loop then speaks [None]. *)
Theorem X10_first_episode_failure_is_silent (E : env) (s : state)
        (d : list (str * value)) (eps url : value) :
  selected s = VDict d ->
  Py.lookup_key (u "episode") d = Some eps ->
  Py.item0 eps = Ok url ->
  failed_reply (http E (length (log s)) (Py.to_str E url)) = true ->
  Lab10.first_episode E s
  = (Ok (VNone, VNone),
     {| selected := selected s; files := files s;
        log := log s ++ [Get (Py.to_str E url)] |})
  /\ Lab10.perform E Lab10.first_ep_ s
     = (Ok Continue,
        {| selected := selected s; files := files s;
           log := log s ++ [Get (Py.to_str E url); Say VNone] |}).
Proof.
  intros Hsel Heps Hurl Hf.
  assert (H1 : Lab10.first_episode E s
               = (Ok (VNone, VNone),
                  {| selected := selected s; files := files s;
                     log := log s ++ [Get (Py.to_str E url)] |})).
  { unfold Lab10.first_episode. run_monad. rewrite Hsel.
    destruct d as [|kv d]; [discriminate Heps|]. run_monad. cbn [Py.item].
    rewrite Heps. run_monad. rewrite Hurl. run_monad.
    destruct (Lab10_fetch_from_url_total E url s) as (v & Hv & Hempty & _).
    rewrite Hv, (Hempty Hf). by rewrite Hsel. }
  split; [done|].
  unfold Lab10.perform. unfold bind at 1. rewrite H1.
  unfold Lab10.speak_result, Lab10.speak. run_monad. by repeat rewrite <- app_assoc.
Qed.

Lemma X10_witness :
  Lab10.perform Sample.offline Lab10.first_ep_ (Sample.with_selected Sample.rick)
  = (Ok Continue,
     {| selected := Sample.rick; files := ∅;
        log := [] ++ [ Get (u "https://rickandmortyapi.com/api/episode/1"); Say VNone ] |}).
Proof.
  pose proof (proj2 (X10_first_episode_failure_is_silent Sample.offline
                       (Sample.with_selected Sample.rick) (Cases.fields Sample.rick)
                       (VList [ VStr (u "https://rickandmortyapi.com/api/episode/1") ])
                       (VStr (u "https://rickandmortyapi.com/api/episode/1"))
                       ltac:(vm_compute; reflexivity) ltac:(vm_compute; reflexivity)
                       ltac:(vm_compute; reflexivity) ltac:(vm_compute; reflexivity)))
    as H.
  rewrite H. vm_compute. reflexivity.
Defined.

Lemma for_each_fetch_names (E : env) (urls : list value) (s s' : state)
      (names : list value) :
  for_each (fun url => bind (Lab10._fetch_from_url E url)
                            (fun data => lift (Py.get data (u "name") VNone)))
           urls s = (Ok names, s') ->
  length names = length urls
  /\ s' = {| selected := selected s; files := files s;
             log := log s ++ map (fun url => Get (Py.to_str E url)) urls |}.
Proof.
  revert s s' names. induction urls as [|url urls IH]; intros s s' names.
  - simpl. intros [= <- <-]. split; [done|]. destruct s. simpl. by rewrite app_nil_r.
  - cbn [for_each]. unfold bind at 1. unfold bind at 1.
    destruct (Lab10_fetch_from_url_total E url s) as (v & -> & _).
    unfold lift at 1. destruct (Py.get v (u "name") VNone) as [name|e]; [|done].
    unfold bind at 1.
    destruct (for_each _ urls _) as [[rest|e] s1] eqn:Hrest; [|done].
    intros [= <- <-]. destruct (IH _ _ _ Hrest) as [Hlen ->]. cbn [selected files log].
    split; [simpl; by rewrite Hlen|]. cbn [map]. by repeat rewrite <- app_assoc.
Qed.

Lemma for_each_fetch_offline (E : env) (urls : list value) (s : state) :
  (forall t url, failed_reply (http E t url) = true) ->
  for_each (fun url => bind (Lab10._fetch_from_url E url)
                            (fun data => lift (Py.get data (u "name") VNone)))
           urls s
  = (Ok (map (fun _ => VNone) urls),
     {| selected := selected s; files := files s;
        log := log s ++ map (fun url => Get (Py.to_str E url)) urls |}).
Proof.
  intros Hoff. revert s. induction urls as [|url urls IH]; intros s.
  - simpl. unfold ret. destruct s. simpl. by rewrite app_nil_r.
  - cbn [for_each]. unfold bind at 1. unfold bind at 1.
    destruct (Lab10_fetch_from_url_total E url s) as (v & -> & Hempty & _).
    rewrite (Hempty (Hoff _ _)). unfold lift at 1. cbn [Py.get Py.lookup_key].
    unfold bind at 1. rewrite IH. unfold ret. cbn [selected files log map].
    by repeat rewrite <- app_assoc.
Qed.

(** X11.  [episodes_list] asks for every episode of the selected character,
    one request per URL and in their order, and whenever it returns, the
    list it returns has one entry per episode.  An episode whose request
    fails is not left out: its entry is [None]; with the network down the
    result is a list of [None]s of the full length, and no error. *)
Theorem X11_episodes_list_one_entry_per_episode (E : env) (s : state)
        (d : list (str * value)) (eps : value) (urls : list value) :
  selected s = VDict d ->
  Py.lookup_key (u "episode") d = Some eps ->
  Py.iter eps = Ok urls ->
  (forall r s', Lab10.episodes_list E s = (Ok r, s') ->
                exists names,
                  r = (VList names, VNone)
                  /\ length names = length urls
                  /\ s' = {| selected := selected s; files := files s;
                             log := log s ++ map (fun url => Get (Py.to_str E url)) urls |})
  /\ ((forall t url, failed_reply (http E t url) = true) ->
      Lab10.episodes_list E s
      = (Ok (VList (map (fun _ => VNone) urls), VNone),
         {| selected := selected s; files := files s;
            log := log s ++ map (fun url => Get (Py.to_str E url)) urls |})).
Proof.
  intros Hsel Heps Hurls. destruct d as [|kv d]; [discriminate Heps|].
  split.
  - intros r s'. unfold Lab10.episodes_list. unfold bind at 1. unfold get_selected.
    rewrite Hsel. cbn [Py.truthy negb]. unfold bind at 1. unfold lift at 1.
    cbn [Py.item]. rewrite Heps. unfold bind at 1. unfold lift at 1. rewrite Hurls.
    unfold bind at 1.
    destruct (for_each _ urls s) as [[names|e] s1] eqn:Hrun; [|done].
    unfold ret. intros [= <- <-]. exists names.
    destruct (for_each_fetch_names E urls s s1 names Hrun) as [Hlen ->].
    by rewrite Hsel.
  - intros Hoff. unfold Lab10.episodes_list. unfold bind at 1. unfold get_selected.
    rewrite Hsel. cbn [Py.truthy negb]. unfold bind at 1. unfold lift at 1.
    cbn [Py.item]. rewrite Heps. unfold bind at 1. unfold lift at 1. rewrite Hurls.
    unfold bind at 1. rewrite (for_each_fetch_offline E urls s Hoff). unfold ret.
    by rewrite Hsel.
Qed.

Lemma X11_witness :
  Lab10.episodes_list Sample.offline (Sample.with_selected Sample.rick)
  = (Ok (VList [VNone], VNone),
     {| selected := Sample.rick; files := ∅;
        log := [Get (u "https://rickandmortyapi.com/api/episode/1")] |}).
Proof.
  pose proof (proj2 (X11_episodes_list_one_entry_per_episode Sample.offline
                       (Sample.with_selected Sample.rick) (Cases.fields Sample.rick)
                       (VList [ VStr (u "https://rickandmortyapi.com/api/episode/1") ])
                       [ VStr (u "https://rickandmortyapi.com/api/episode/1") ]
                       ltac:(vm_compute; reflexivity) ltac:(vm_compute; reflexivity)
                       ltac:(vm_compute; reflexivity))
                ltac:(intros; vm_compute; reflexivity)) as H.
  rewrite H. vm_compute. reflexivity.
Defined.

(** ** Saving, further *)

(** X12.  A successful save writes exactly one file.  After [save] (or
    [save_image]) returned its path, the file at that path holds the new
    content, whatever it held before (the last write wins), and every other
    path holds what it held before. *)
Theorem X12_save_writes_exactly_one_file (E : env) (s : state)
        (d : list (str * value)) (folder path : str) :
  selected s = VDict d ->
  (d <> [] ->
   path = Py.path_join folder
            (Py.to_str E (match Py.lookup_key (u "word") d with
                          | Some w => w
                          | None => VStr (u "entry")
                          end) ++ u ".json") ->
   makedirs_ok E (length (log s)) folder = true ->
   open_ok E (S (length (log s))) path = true ->
   fst (Extra.save E folder s) = Ok (true, VStr path)
   /\ forall p, files (snd (Extra.save E folder s)) !! p
                = if bool_decide (p = path) then Some (JsonText (VDict d))
                  else files s !! p)
  /\ (forall name url st reason data body,
         Py.lookup_key (u "image") d = Some url ->
         Py.lookup_key (u "name") d = Some (VStr name) ->
         path = Py.path_join folder
                  (Str.strip (List.filter
                                (fun c => isalnum E c || (c =? 32)%N || (c =? 95)%N)
                                name) ++ u ".jpg") ->
         makedirs_ok E (length (log s)) folder = true ->
         http E (S (length (log s))) (Py.to_str E url) = Reply st reason data body ->
         open_ok E (S (S (length (log s)))) path = true ->
         fst (Lab10.save_image E folder s) = Ok (VStr path, VNone)
         /\ forall p, files (snd (Lab10.save_image E folder s)) !! p
                      = if bool_decide (p = path) then Some (Binary data)
                        else files s !! p).
Proof.
  intros Hsel. split.
  - intros Hd Hpath Hmk Hop.
    rewrite (Extra_save_ok E s d folder path) by done. cbn [fst snd files].
    split; [done|]. intros p. case_bool_decide as Hp.
    + subst p. by rewrite lookup_insert_eq.
    + by rewrite lookup_insert_ne.
  - intros name url st reason data body Himg Hname Hpath Hmk Hhttp Hop.
    rewrite (Lab10_save_image_ok E s d folder path name url st reason data body)
      by done.
    cbn [fst snd files]. split; [done|]. intros p. case_bool_decide as Hp.
    + subst p. by rewrite lookup_insert_eq.
    + by rewrite lookup_insert_ne.
Qed.

Lemma X12_witness :
  fst (Extra.save Sample.online (u "dictionary_entries")
                  (Sample.with_selected Sample.hello_entry))
  = Ok (true, VStr (u "dictionary_entries/hello.json")).
Proof.
  pose proof (proj1 (proj1 (X12_save_writes_exactly_one_file Sample.online
                              (Sample.with_selected Sample.hello_entry)
                              (Cases.fields Sample.hello_entry)
                              (u "dictionary_entries")
                              (u "dictionary_entries/hello.json")
                              ltac:(vm_compute; reflexivity))
                       ltac:(vm_compute; discriminate)
                       ltac:(vm_compute; reflexivity) ltac:(vm_compute; reflexivity)
                       ltac:(vm_compute; reflexivity))) as H.
  rewrite H. vm_compute. reflexivity.
Defined.

(** ** main1.py *)

(** X13.  In main1.py speaking needs an installed voice.  With none, [speak]
    raises [UnboundLocalError] before anything is printed or said, so the
    program dies at its first message, after it stopped the audio stream
    and before it started it again or read a frame.  With at least one
    voice, [speak] prints "0", selects the second voice when there is one
    and the first otherwise, and says the text. *)
Theorem X13_main1_speaking_needs_a_voice (E : env) (s : state) :
  (voices E = [] ->
   (forall text, Main1.speak E text s = (Raise UnboundLocalError, s))
   /\ (forall fs,
          Main1.main E fs s
          = (Crashed UnboundLocalError,
             {| selected := selected s; files := files s;
                log := log s ++ [StopStream] |},
             fs)))
  /\ (forall first others text,
         voices E = first :: others ->
         Main1.speak E text s
         = (Ok tt,
            {| selected := selected s; files := files s;
               log := log s ++ [ Print (u "0");
                                 SetVoice (match others with
                                           | second :: _ => second
                                           | [] => first
                                           end);
                                 Say text ] |})).
Proof.
  split.
  - intros Hv. split.
    + intros text. unfold Main1.speak, Main1.text2voice, Main1.set_voice.
      rewrite Hv. by run_monad.
    + intros fs. unfold Main1.main, Main1.speak, Main1.text2voice, Main1.set_voice.
      rewrite Hv. by run_monad.
  - intros first others text Hv.
    unfold Main1.speak, Main1.text2voice, Main1.set_voice. rewrite Hv. run_monad.
    repeat rewrite <- app_assoc. by destruct others.
Qed.

Lemma X13_witness :
  Main1.main Cases.mute [Sample.heard "закрыть"] Sample.start
  = (Crashed UnboundLocalError,
     {| selected := VNone; files := ∅; log := [] ++ [StopStream] |},
     [Sample.heard "закрыть"]).
Proof.
  apply (proj1 (X13_main1_speaking_needs_a_voice Cases.mute Sample.start) eq_refl).
Defined.

Lemma session_continue {U} (step : frame -> pull U) (body : U -> M flow)
      (f : frame) (rest : list frame) (text : U) (s s' : state) :
  step f = Yield text ->
  body text s = (Ok Continue, s') ->
  session step body (f :: rest) s = session step body rest s'.
Proof. intros Hstep Hb. simpl. by rewrite Hstep, Hb. Qed.

Lemma Main1_body_echo (E : env) (v : value) (s : state) :
  v <> VStr (u "закрыть") ->
  Main1.body E v s
  = (Ok Continue,
     {| selected := selected s; files := files s;
        log := log s ++ [Print (Py.to_str E v)] |}).
Proof.
  intros Hv. unfold Main1.body. destruct v as [|b|z|m e|t|l|d]; try by run_monad.
  unfold Str.eqb. case_bool_decide as Ht; [by subst|]. by run_monad.
Qed.

(** X14.  Apart from "закрыть", main1.py only echoes: over any frames whose
    utterances are all different from "закрыть" (and that bring no
    interrupt and no malformed result), the loop prints each utterance, in
    the order heard and nothing else, says nothing, and then waits for more
    audio. *)
Theorem X14_main1_echoes_in_order (E : env) (fs : list frame) (s : state) :
  Forall (fun f => match Main1.listen_step f with
                   | Yield v => v <> VStr (u "закрыть")
                   | Skip => True
                   | _ => False
                   end) fs ->
  session Main1.listen_step (Main1.body E) fs s
  = (Waiting,
     {| selected := selected s; files := files s;
        log := log s ++ flat_map (fun f => match Main1.listen_step f with
                                           | Yield v => [Print (Py.to_str E v)]
                                           | _ => []
                                           end) fs |},
     []).
Proof.
  intros Hfs. revert s. induction Hfs as [|f fs Hf _ IH]; intros s.
  - simpl. destruct s. simpl. by rewrite app_nil_r.
  - cbn [flat_map]. destruct (Main1.listen_step f) as [|v| |e] eqn:Hstep; try done.
    + rewrite session_skip by done. rewrite IH. by rewrite app_nil_l.
    + rewrite (session_continue _ _ f fs v s _ Hstep (Main1_body_echo E v s Hf)).
      rewrite IH. cbn [selected files log]. by repeat rewrite <- app_assoc.
Qed.

Lemma X14_witness :
  session Main1.listen_step (Main1.body Sample.online)
          [Sample.heard "раз"; Sample.silence; Sample.heard "два"] Sample.start
  = (Waiting,
     {| selected := VNone; files := ∅; log := [Print (u "раз"); Print (u "два")] |},
     []).
Proof.
  pose proof (X14_main1_echoes_in_order Sample.online
                [Sample.heard "раз"; Sample.silence; Sample.heard "два"] Sample.start
                ltac:(repeat constructor; vm_compute; discriminate)) as H.
  rewrite H. vm_compute. reflexivity.
Defined.

(** ** Lookups in the loop of Extra_.py *)

(** X15.  A failed lookup is reported and the session goes on.  When an
    utterance is routed to the lookup of [word] and the request fails (no
    connection, error status, body that is not JSON), the turn says
    "Error: " followed by the message of the failure, keeps the selection
    and the files, and continues the loop; when the service answers with an
    empty list it says "Error: No entry found." in the same way. *)
Theorem X15_failed_lookup_is_spoken (E : env) (text word : str) (s : state) :
  Extra.route text = Extra.Lookup word ->
  let url := Extra.BASE_URL ++ word in
  (failed_reply (http E (S (length (log s))) url) = true ->
   Extra.body E text s
   = (Ok Continue,
      {| selected := selected s; files := files s;
         log := log s ++
                [ Print (u "Heard: " ++ text); Get url;
                  Print (u "Assistant: " ++ u "Error: "
                           ++ failure_message (http E (S (length (log s))) url));
                  Say (VStr (u "Error: "
                               ++ failure_message (http E (S (length (log s))) url))) ] |}))
  /\ (forall st reason data body,
         http E (S (length (log s))) url = Reply st reason data (inr body) ->
         error_status st = false ->
         Py.item0 body = Raise IndexError ->
         Extra.body E text s
         = (Ok Continue,
            {| selected := selected s; files := files s;
               log := log s ++
                      [ Print (u "Heard: " ++ text); Get url;
                        Print (u "Assistant: " ++ u "Error: " ++ u "No entry found.");
                        Say (VStr (u "Error: " ++ u "No entry found.")) ] |})).
Proof.
  intros Hroute url. split.
  - intros Hf. unfold Extra.body. rewrite Hroute. unfold bind at 1. unfold emit at 1.
    unfold bind at 1.
    rewrite Extra_find_word_failed by (cbn [log]; by rewrite length_snoc).
    cbn [log selected files]. rewrite length_snoc. fold url.
    unfold Extra.speak. run_monad. cbn [Py.to_str]. by repeat rewrite <- app_assoc.
  - intros st reason data body Hhttp Hst Hitem.
    unfold Extra.body. rewrite Hroute. unfold bind at 1. unfold emit at 1.
    unfold bind at 1.
    rewrite (Extra_find_word_no_entry E word _ st reason data body)
      by (cbn [log]; by rewrite ?length_snoc).
    cbn [log selected files]. unfold Extra.speak. run_monad. cbn [Py.to_str].
    by repeat rewrite <- app_assoc.
Qed.

Lemma X15_witness :
  Extra.body Sample.offline (u "find hello") (Sample.with_selected Sample.hello_entry)
  = (Ok Continue,
     {| selected := Sample.hello_entry; files := ∅;
        log := [ Print (u "Heard: find hello");
                 Get (u "https://api.dictionaryapi.dev/api/v2/entries/en/hello");
                 Print (u "Assistant: Error: Connection refused");
                 Say (VStr (u "Error: Connection refused")) ] |}).
Proof.
  pose proof (proj1 (X15_failed_lookup_is_spoken Sample.offline (u "find hello")
                       (u "hello") (Sample.with_selected Sample.hello_entry)
                       ltac:(vm_compute; reflexivity))
                ltac:(vm_compute; reflexivity)) as H.
  rewrite H. vm_compute. reflexivity.
Defined.

(** X16.  A successful lookup selects the first entry of the reply.  When an
    utterance is routed to the lookup of [word] and the service answers
    with a JSON list (or string) that has a first item, that item becomes
    the selection, replacing the previous one, the other items are
    dropped, the turn says "Word '<word>' found." and the loop continues. *)
Theorem X16_lookup_selects_first_entry (E : env) (text word : str) (s : state)
        (st : Z) (reason : str) (data : bytes) (body first : value) :
  Extra.route text = Extra.Lookup word ->
  http E (S (length (log s))) (Extra.BASE_URL ++ word)
  = Reply st reason data (inr body) ->
  error_status st = false ->
  Py.item0 body = Ok first ->
  Extra.body E text s
  = (Ok Continue,
     {| selected := first; files := files s;
        log := log s ++
               [ Print (u "Heard: " ++ text); Get (Extra.BASE_URL ++ word);
                 Print (u "Assistant: " ++ u "Word '" ++ word ++ u "' found.");
                 Say (VStr (u "Word '" ++ word ++ u "' found.")) ] |}).
Proof.
  intros Hroute Hhttp Hst Hitem.
  unfold Extra.body. rewrite Hroute. unfold bind at 1. unfold emit at 1.
  unfold bind at 1.
  rewrite (Extra_find_word_ok E _ word st reason data body first)
    by (cbn [log]; by rewrite ?length_snoc).
  cbn [log selected files]. unfold Extra.speak. run_monad. cbn [Py.to_str].
  by repeat rewrite <- app_assoc.
Qed.

Lemma X16_witness :
  Extra.body Sample.online (u "find hello") (Sample.with_selected Cases.bare_entry)
  = (Ok Continue,
     {| selected := Sample.hello_entry; files := ∅;
        log := [ Print (u "Heard: find hello");
                 Get (u "https://api.dictionaryapi.dev/api/v2/entries/en/hello");
                 Print (u "Assistant: Word 'hello' found.");
                 Say (VStr (u "Word 'hello' found.")) ] |}).
Proof.
  pose proof (X16_lookup_selects_first_entry Sample.online (u "find hello")
                (u "hello") (Sample.with_selected Cases.bare_entry)
                200 [] [] (VList [Sample.hello_entry]) Sample.hello_entry
                ltac:(vm_compute; reflexivity) ltac:(vm_compute; reflexivity)
                ltac:(vm_compute; reflexivity) ltac:(vm_compute; reflexivity)) as H.
  rewrite H. vm_compute. reflexivity.
Defined.

(** ** The random selection, further *)

(** X17.  What [random_character] does with the reply for the character
    drawn.  A good reply whose JSON object has no "error" key and has a
    "name" becomes the selection and its name is returned.  A good reply
    that does have an "error" key counts as a failure, status 200
    notwithstanding: its "error" value is returned as the error and the
    selection stays. *)
Theorem X17_selecting_the_character_drawn (E : env) (n : Z) (s : state)
        (st : Z) (reason : str) (data : bytes) (fields : list (str * value)) :
  let url := Lab10.BASE_URL ++ u "/" ++ u "character/" ++ Str.of_Z n in
  http E (length (log s)) url = Reply st reason data (inr (VDict fields)) ->
  error_status st = false ->
  (forall name,
      Py.lookup_key (u "error") fields = None ->
      Py.lookup_key (u "name") fields = Some name ->
      Lab10.select_character E n s
      = (Ok (name, VNone),
         {| selected := VDict fields; files := files s; log := log s ++ [Get url] |}))
  /\ (forall err,
         Py.lookup_key (u "error") fields = Some err ->
         Lab10.select_character E n s
         = (Ok (VNone, err),
            {| selected := selected s; files := files s; log := log s ++ [Get url] |})).
Proof.
  intros url Hhttp Hst. split.
  - intros name Herr Hname. unfold Lab10.select_character. unfold bind at 1.
    rewrite (Lab10_fetch_ok E s (u "character/" ++ Str.of_Z n) st reason data
               (VDict fields) Hhttp Hst).
    run_monad. cbn [Py.contains]. rewrite Herr. run_monad. cbn [Py.item].
    by rewrite Hname.
  - intros err Herr. unfold Lab10.select_character. unfold bind at 1.
    rewrite (Lab10_fetch_ok E s (u "character/" ++ Str.of_Z n) st reason data
               (VDict fields) Hhttp Hst).
    run_monad. cbn [Py.contains]. rewrite Herr. run_monad. cbn [Py.item].
    by rewrite Herr.
Qed.

Lemma X17_witness :
  Lab10.select_character Sample.online 1 Sample.start
  = (Ok (VStr (u "Rick Sanchez"), VNone),
     {| selected := Sample.rick; files := ∅;
        log := [Get (u "https://rickandmortyapi.com/api/character/1")] |}).
Proof.
  pose proof (proj1 (X17_selecting_the_character_drawn Sample.online 1 Sample.start
                       200 [] [] (Cases.fields Sample.rick)
                       ltac:(vm_compute; reflexivity) ltac:(vm_compute; reflexivity))
                (VStr (u "Rick Sanchez"))
                ltac:(vm_compute; reflexivity) ltac:(vm_compute; reflexivity)) as H.
  rewrite H. vm_compute. reflexivity.
Defined.

Lemma randint_empty (a b raw : Z) : b < a -> Py.randint a b raw = Raise ValueError.
Proof. intros H. unfold Py.randint. by destruct (Z.ltb_spec b a); [|lia]. Qed.

(** X18.  The live count is used as it comes.  When the count the service
    reports is an integer below 1, [random.randint(1, count)] has an empty
    range and [random_character] raises [ValueError]; when it is no number
    at all (a string, [null], a list, an object) it raises [TypeError];
    when it is a float the interpreter decides, and whatever exception it
    raises for that float leaves [random_character].  In all these cases
    nothing is drawn, no character is requested, the selection stays, and
    the exception leaves the "случайный" branch without a word. *)
Theorem X18_count_below_one_or_not_a_number (E : env) (s : state)
        (st : Z) (reason : str) (data : bytes) (v total : value) :
  let url := Lab10.BASE_URL ++ u "/" ++ u "character" in
  let s1 := {| selected := selected s; files := files s; log := log s ++ [Get url] |} in
  let fails e := Lab10.random_character E s = (Raise e, s1)
                 /\ Lab10.perform E Lab10.random_ s = (Raise e, s1) in
  http E (length (log s)) url = Reply st reason data (inr v) ->
  error_status st = false ->
  count_field v = Some total ->
  (forall z, Py.index total = Some z -> z < 1 -> fails ValueError)
  /\ (Py.index total = None -> (forall m e, total <> VFloat m e) -> fails TypeError)
  /\ (forall m e err, total = VFloat m e -> float_bound E m e = Raise err -> fails err).
Proof.
  intros url s1 fails Hhttp Hst Hc.
  assert (Htotal : Lab10.total_count E s = (Ok total, s1)).
  { destruct v as [| | | | | |d]; try done. cbn [count_field] in Hc.
    destruct (Py.lookup_key (u "info") d) as [[| | | | | |i]|] eqn:Hinfo; try done.
    by apply (Lab10_total_count_live E s st reason data d i total). }
  assert (Hraise : forall e z, Py.upper E total = Raise e
                               \/ (Py.upper E total = Ok z /\ z < 1 /\ e = ValueError) ->
                               fails e).
  { intros e z Hup.
    assert (H : Lab10.random_character E s = (Raise e, s1)).
    { unfold Lab10.random_character. unfold bind at 1. rewrite Htotal.
      unfold bind at 1. unfold Lab10.randint1. run_monad.
      destruct Hup as [-> | (-> & Hz & ->)]; [done|]. run_monad.
      by rewrite randint_empty by lia. }
    split; [done|]. unfold Lab10.perform. unfold bind at 1. by rewrite H. }
  split; [|split].
  - intros z Hi Hz. apply (Hraise ValueError z). right.
    split; [|done]. destruct total; try done; cbn [Py.upper]; by rewrite Hi.
  - intros Hi Hfloat. apply (Hraise TypeError 0). left.
    destruct total as [| | |m e| | |]; try done. by destruct (Hfloat m e).
  - intros m e err -> Herr. apply (Hraise err 0). by left.
Qed.

Lemma X18_witness :
  Lab10.random_character (Cases.counting (VInt 0)) (Sample.with_selected Sample.rick)
  = (Raise ValueError,
     {| selected := Sample.rick; files := ∅;
        log := [Get (u "https://rickandmortyapi.com/api/character")] |})
  /\ Lab10.random_character (Cases.counting (VStr (u "826")))
                            (Sample.with_selected Sample.rick)
     = (Raise TypeError,
        {| selected := Sample.rick; files := ∅;
           log := [Get (u "https://rickandmortyapi.com/api/character")] |}).
Proof.
  split.
  - pose proof (proj1 (proj1 (X18_count_below_one_or_not_a_number
                                (Cases.counting (VInt 0))
                                (Sample.with_selected Sample.rick)
                                200 [] []
                                (VDict [ (u "info", VDict [ (u "count", VInt 0) ]) ])
                                (VInt 0)
                                ltac:(vm_compute; reflexivity)
                                ltac:(vm_compute; reflexivity)
                                ltac:(vm_compute; reflexivity))
                         0 eq_refl ltac:(lia))) as H.
    rewrite H. vm_compute. reflexivity.
  - pose proof (proj1 (proj1 (proj2 (X18_count_below_one_or_not_a_number
                                (Cases.counting (VStr (u "826")))
                                (Sample.with_selected Sample.rick)
                                200 [] []
                                (VDict [ (u "info", VDict [ (u "count", VStr (u "826")) ]) ])
                                (VStr (u "826"))
                                ltac:(vm_compute; reflexivity)
                                ltac:(vm_compute; reflexivity)
                                ltac:(vm_compute; reflexivity)))
                         eq_refl ltac:(discriminate))) as H.
    rewrite H. vm_compute. reflexivity.
Defined.

(** ** Meanings and examples *)

(** X19.  [meaning] with an entry that has no meanings.  When the selected
    entry is a non-empty JSON object without a "meanings" key, or with an
    empty list of meanings, [meaning] returns the empty list and no error,
    and the main loop, finding the list empty, speaks the error, which is
    [None]. *)
Theorem X19_meaning_without_definitions (E : env) (s : state) (d : list (str * value)) :
  selected s = VDict d -> d <> [] ->
  Py.lookup_key (u "meanings") d = None
  \/ Py.lookup_key (u "meanings") d = Some (VList []) ->
  Extra.meaning E s = (Ok (VList [], VNone), s)
  /\ Extra.perform E Extra.meaning_ s
     = (Ok Continue,
        {| selected := selected s; files := files s;
           log := log s ++ [ Print (u "Assistant: " ++ u "None"); Say VNone ] |}).
Proof.
  intros Hsel Hd Hm.
  assert (H : Extra.meaning E s = (Ok (VList [], VNone), s)).
  { unfold Extra.meaning. run_monad. rewrite Hsel.
    destruct d as [|kv d]; [done|]. run_monad. cbn [Py.get].
    by destruct Hm as [-> | ->]. }
  split; [done|]. unfold Extra.perform. unfold bind at 1. rewrite H.
  unfold Extra.speak. run_monad. cbn [Py.to_str]. by repeat rewrite <- app_assoc.
Qed.

Lemma X19_witness :
  Extra.perform Sample.online Extra.meaning_ (Sample.with_selected Cases.bare_entry)
  = (Ok Continue,
     {| selected := Cases.bare_entry; files := ∅;
        log := [ Print (u "Assistant: None"); Say VNone ] |}).
Proof.
  pose proof (proj2 (X19_meaning_without_definitions Sample.online
                       (Sample.with_selected Cases.bare_entry)
                       (Cases.fields Cases.bare_entry)
                       ltac:(vm_compute; reflexivity) ltac:(vm_compute; discriminate)
                       ltac:(left; vm_compute; reflexivity))) as H.
  rewrite H. vm_compute. reflexivity.
Defined.

Lemma first_of_found {A B} (P : B -> Prop) (g : A -> M (option B)) (l : list A)
      (s s' : state) (b : B) :
  (forall a s0 s1 x, g a s0 = (Ok (Some x), s1) -> P x) ->
  first_of g l s = (Ok (Some b), s') -> P b.
Proof.
  intros Hg. revert s. induction l as [|a l IH]; intros s; [done|].
  simpl. unfold bind at 1. destruct (g a s) as [[[x|]|e] s1] eqn:Hrun; try done.
  - intros [= <- <-]. by apply (Hg a s s1).
  - apply IH.
Qed.

(** X20.  [example] never returns two [None]s: whatever is selected,
    whenever it returns, it returns either an example that is a true value
    (a non-empty text), with no error, or no example and one of its two
    fixed messages.  So the main loop, which speaks the example if it is
    true and the error otherwise, always has something to say. *)
Theorem X20_example_or_message (s s' : state) (ex err : value) :
  Extra.example s = (Ok (ex, err), s') ->
  (Py.truthy ex = true /\ err = VNone)
  \/ (ex = VNone /\ (err = VStr (u "No word selected.")
                     \/ err = VStr (u "No example found."))).
Proof.
  unfold Extra.example. run_monad.
  destruct (Py.truthy (selected s)); cbn [negb].
  2:{ intros [= <- <- _]. right. split; [done|by left]. }
  destruct (Py.get (selected s) (u "meanings") (VList [])) as [ms|e]; [|done].
  destruct (Py.iter ms) as [ml|e]; [|done].
  destruct (first_of _ ml s) as [[[found|]|e] s1] eqn:Hrun; try done.
  2:{ intros [= <- <- _]. right. split; [done|by right]. }
  intros [= <- <- _]. left. split; [|done].
  eapply (first_of_found (fun x => Py.truthy x = true)); [|exact Hrun].
  intros m s0 s2 x. cbn beta.
  destruct (Py.get m (u "definitions") (VList [])) as [ds|e]; [|done].
  destruct (Py.iter ds) as [dl|e]; [|done].
  apply (first_of_found (fun x => Py.truthy x = true)). intros d t0 t1 y.
  destruct (Py.get d (u "example") VNone) as [v|e]; [|done].
  destruct (Py.truthy v) eqn:Hv; [|done]. by intros [= <- _].
Qed.

Lemma X20_witness :
  (Py.truthy (VStr (u "hello there")) = true /\ VNone = VNone)
  \/ (VStr (u "hello there") = VNone
      /\ (VNone = VStr (u "No word selected.") \/ VNone = VStr (u "No example found."))).
Proof.
  apply (X20_example_or_message (Sample.with_selected Sample.hello_entry)
           (Sample.with_selected Sample.hello_entry)).
  vm_compute. reflexivity.
Defined.

(** ** Choosing the voice *)

(** X21.  [Speech.set_voice] of Extra_.py and Lab_10.py sets the first
    installed voice, in the order the engine lists them, whose language
    tags, joined without a separator and lowercased, contain the language
    code; the voices after it are not looked at.  When no voice matches,
    nothing is set and nothing is raised: the engine keeps its voice. *)
Theorem X21_set_voice_takes_first_match (E : env) (lang_code : str) (s : state) :
  (forall pre id languages post,
      Forall (fun v => Str.contains lang_code (lower E (concat (snd v))) = false) pre ->
      Str.contains lang_code (lower E (concat languages)) = true ->
      Speech.set_voice E (pre ++ (id, languages) :: post) lang_code s
      = (Ok tt, {| selected := selected s; files := files s;
                   log := log s ++ [SetVoice id] |}))
  /\ (forall installed,
         Forall (fun v => Str.contains lang_code (lower E (concat (snd v))) = false)
                installed ->
         Speech.set_voice E installed lang_code s = (Ok tt, s)).
Proof.
  split.
  - intros pre id languages post Hpre Hmatch.
    induction Hpre as [|[id' l'] pre Hno _ IH]; simpl.
    + by rewrite Hmatch.
    + simpl in Hno. by rewrite Hno.
  - intros installed Hno. induction Hno as [|[id' l'] rest Hv _ IH]; simpl; [done|].
    simpl in Hv. by rewrite Hv.
Qed.

Lemma X21_witness :
  Speech.set_voice Sample.online ([] ++ (u "voice-fr", [u "fr_FR"; u "UK"])
                                      :: [(u "voice-ru", [u "ru_RU"])])
                   (u "ru") Sample.start
  = (Ok tt, {| selected := VNone; files := ∅; log := [] ++ [SetVoice (u "voice-fr")] |})
  /\ Speech.set_voice Sample.online Cases.two_voices (u "de") Sample.start
     = (Ok tt, Sample.start).
Proof.
  split.
  - apply (proj1 (X21_set_voice_takes_first_match Sample.online (u "ru") Sample.start)).
    + constructor.
    + vm_compute. reflexivity.
  - apply (proj2 (X21_set_voice_takes_first_match Sample.online (u "de") Sample.start)).
    repeat constructor.
Defined.

(** ** Trimmed text *)

Lemma lstrip_idempotent (s : str) : Str.lstrip (Str.lstrip s) = Str.lstrip s.
Proof.
  induction s as [|c s IH]; [done|]. simpl.
  destruct (Str.isspace c) eqn:Hc; [done|]. simpl. by rewrite Hc.
Qed.

Lemma lstrip_head (s r : str) (c : N) :
  Str.lstrip s = c :: r -> Str.isspace c = false.
Proof.
  induction s as [|x s IH]; [done|]. simpl.
  destruct (Str.isspace x) eqn:Hx; [done|]. by intros [= <- _].
Qed.

Lemma rstrip_idempotent (s : str) : Str.rstrip (Str.rstrip s) = Str.rstrip s.
Proof. unfold Str.rstrip. by rewrite rev_involutive, lstrip_idempotent. Qed.

Lemma strip_idempotent (s : str) : Str.strip (Str.strip s) = Str.strip s.
Proof.
  unfold Str.strip.
  assert (H : Str.lstrip (Str.rstrip (Str.lstrip s)) = Str.rstrip (Str.lstrip s)).
  { destruct (Str.lstrip s) as [|c r] eqn:Hl; [done|].
    pose proof (lstrip_head _ _ _ Hl) as Hc. unfold Str.rstrip. simpl rev.
    destruct (lstrip_keeps_last (rev r) c Hc) as [d ->].
    rewrite rev_app_distr. simpl. by rewrite Hc. }
  rewrite H. apply rstrip_idempotent.
Qed.

Lemma lstrip_In (s : str) (c : N) : In c (Str.lstrip s) -> In c s.
Proof.
  induction s as [|x s IH]; [done|]. simpl.
  destruct (Str.isspace x); [|done]. intros H. right. by apply IH.
Qed.

Lemma strip_In (s : str) (c : N) : In c (Str.strip s) -> In c s.
Proof.
  unfold Str.strip, Str.rstrip. intros H. apply in_rev in H.
  apply lstrip_In in H. apply in_rev in H. by apply lstrip_In.
Qed.

(** X22.  What the recogniser of Lab_10.py hands to the loop is trimmed and
    not empty: an utterance it yields is the stripped text of the result,
    has at least one character, and stripping it again changes nothing.
    In Extra_.py the utterance is the lowercased form of such a text. *)
Theorem X22_yielded_text_is_trimmed (E : env) (f : frame) (t : str) :
  (Lab10.listen_step f = Yield t -> t <> [] /\ Str.strip t = t)
  /\ (Extra.listen_step E f = Yield t ->
      exists raw, t = lower E raw /\ raw <> [] /\ Str.strip raw = raw).
Proof.
  split.
  - intros H. apply Lab10_step_yield in H as (data & result & raw & _ & _ & -> & Hne).
    split; [done|]. apply strip_idempotent.
  - intros H. apply Extra_step_yield in H as (data & result & raw & _ & _ & -> & Hne).
    exists (Str.strip raw). split; [done|]. split; [done|]. apply strip_idempotent.
Qed.

Lemma X22_witness : u "привет" <> [] /\ Str.strip (u "привет") = u "привет".
Proof.
  apply (proj1 (X22_yielded_text_is_trimmed Sample.online (Sample.heard "  привет ")
                  (u "привет"))).
  vm_compute. reflexivity.
Defined.

(** X23.  The name of the image file is sanitised.  When [save_image]
    succeeds for a character whose name is a string, the file is
    [<folder>/<safe>.jpg], where [safe] is made of characters of the name
    only, each of them alphanumeric, a space or an underscore, and has no
    white space at either end. *)
Theorem X23_image_file_name_is_sanitised (E : env) (s : state)
        (d : list (str * value)) (folder name : str) (url : value) (st : Z)
        (reason : str) (data : bytes) (body : str + value) :
  let safe := Str.strip (List.filter
                           (fun c => isalnum E c || (c =? 32)%N || (c =? 95)%N) name) in
  selected s = VDict d ->
  Py.lookup_key (u "image") d = Some url ->
  Py.lookup_key (u "name") d = Some (VStr name) ->
  makedirs_ok E (length (log s)) folder = true ->
  http E (S (length (log s))) (Py.to_str E url) = Reply st reason data body ->
  open_ok E (S (S (length (log s)))) (Py.path_join folder (safe ++ u ".jpg")) = true ->
  fst (Lab10.save_image E folder s)
  = Ok (VStr (Py.path_join folder (safe ++ u ".jpg")), VNone)
  /\ (forall c, In c safe ->
                In c name /\ (isalnum E c = true \/ c = 32%N \/ c = 95%N))
  /\ Str.strip safe = safe.
Proof.
  intros safe Hsel Himg Hname Hmk Hhttp Hop. split; [|split].
  - by rewrite (Lab10_save_image_ok E s d folder
                  (Py.path_join folder (safe ++ u ".jpg")) name url st reason data body).
  - intros c Hc. apply strip_In in Hc. apply filter_In in Hc as [Hin Hok].
    split; [done|]. apply orb_true_iff in Hok as [Hok|Hok].
    + apply orb_true_iff in Hok as [Hok|Hok]; [by left|].
      right. left. by apply N.eqb_eq.
    + right. right. by apply N.eqb_eq.
  - apply strip_idempotent.
Qed.

Lemma X23_witness :
  fst (Lab10.save_image Sample.online (u "images") (Sample.with_selected Sample.rick))
  = Ok (VStr (u "images/Rick Sanchez.jpg"), VNone).
Proof.
  pose proof (proj1 (X23_image_file_name_is_sanitised Sample.online
                       (Sample.with_selected Sample.rick) (Cases.fields Sample.rick)
                       (u "images") (u "Rick Sanchez")
                       (VStr (u "https://rickandmortyapi.com/api/character/avatar/1.jpeg"))
                       200 [] Sample.jpeg (inl (u "Expecting value"))
                       ltac:(vm_compute; reflexivity) ltac:(vm_compute; reflexivity)
                       ltac:(vm_compute; reflexivity) ltac:(vm_compute; reflexivity)
                       ltac:(vm_compute; reflexivity) ltac:(vm_compute; reflexivity)))
    as H.
  rewrite H. vm_compute. reflexivity.
Defined.

(** ** The link of an entry *)

Lemma Extra_find_word_log (E : env) (word : str) (s : state) :
  log (snd (Extra.find_word E word s)) = log s ++ [Get (Extra.BASE_URL ++ word)].
Proof.
  unfold Extra.find_word, requests_get, raise_for_status, json. run_monad.
  cbn [Py.to_str].
  destruct (http E _ _) as [msg|st reason data body]; run_monad; [done|].
  destruct (error_status st); run_monad; [done|].
  destruct body as [msg|body]; run_monad; [done|].
  destruct (Py.item0 body) as [first|e]; run_monad; [done|]. by destruct e.
Qed.

(** X24.  The link of an entry is the address its lookup asks.  [find_word]
    makes exactly one request, to the base address followed by the word,
    whatever comes of it; and for a selected entry whose "word" is a string,
    [link] returns that same address for that word, so the page the
    "link" command opens is the JSON answer of the service.  An entry
    without a "word" gives the address ending in "None". *)
Theorem X24_link_is_the_lookup_address (E : env) (s : state) (d : list (str * value)) :
  selected s = VDict d -> d <> [] ->
  (forall word,
      Py.lookup_key (u "word") d = Some (VStr word) ->
      Extra.link E s = (Ok (VStr (Extra.BASE_URL ++ word), VNone), s)
      /\ forall s0, log (snd (Extra.find_word E word s0))
                    = log s0 ++ [Get (Extra.BASE_URL ++ word)])
  /\ (Py.lookup_key (u "word") d = None ->
      Extra.link E s = (Ok (VStr (Extra.BASE_URL ++ u "None"), VNone), s)).
Proof.
  intros Hsel Hd. destruct d as [|kv d]; [done|]. split.
  - intros word Hw. split; [|intros s0; apply Extra_find_word_log].
    unfold Extra.link. run_monad. rewrite Hsel. run_monad. cbn [Py.get].
    by rewrite Hw.
  - intros Hw. unfold Extra.link. run_monad. rewrite Hsel. run_monad. cbn [Py.get].
    by rewrite Hw.
Qed.

Lemma X24_witness :
  Extra.link Sample.online (Sample.with_selected Sample.hello_entry)
  = (Ok (VStr (u "https://api.dictionaryapi.dev/api/v2/entries/en/hello"), VNone),
     Sample.with_selected Sample.hello_entry).
Proof.
  pose proof (proj1 (proj1 (X24_link_is_the_lookup_address Sample.online
                              (Sample.with_selected Sample.hello_entry)
                              (Cases.fields Sample.hello_entry)
                              ltac:(vm_compute; reflexivity)
                              ltac:(vm_compute; discriminate))
                       (u "hello") ltac:(vm_compute; reflexivity))) as H.
  rewrite H. vm_compute. reflexivity.
Defined.

(** ** Leaving Lab_10.py *)

(** X25.  In Lab_10.py the exit test comes first and looks for two phrases:
    an utterance whose lowercased text contains "выход" or "прощаюсь" (the
    latter is no key of [COMMANDS]) ends the session with the goodbye, and
    no other command of the utterance is carried out, whatever else it
    contains: nothing is requested, written or changed. *)
Theorem X25_exit_phrases_come_first (E : env) (text : str) (f : frame)
        (rest : list frame) (s : state) :
  Str.contains (u "выход") (lower E text) = true
  \/ Str.contains (u "прощаюсь") (lower E text) = true ->
  Lab10.listen_step f = Yield text ->
  Lab10.branch (lower E text) = Lab10.exit_
  /\ session Lab10.listen_step (Lab10.body E) (f :: rest) s
     = (Stopped,
        {| selected := selected s; files := files s;
           log := log s ++ [ Print (u "Распознано: " ++ text);
                             Say (VStr (u "До скорых встреч!")) ] |},
        rest).
Proof.
  intros Hexit Hf.
  assert (Hb : Lab10.branch (lower E text) = Lab10.exit_).
  { unfold Lab10.branch. destruct Hexit as [-> | ->]; [done|]. by rewrite orb_true_r. }
  split; [done|]. apply (session_break _ _ _ _ text); [done|]. left.
  unfold Lab10.body. rewrite Hb. unfold Lab10.perform, Lab10.speak. run_monad.
  by repeat rewrite <- app_assoc.
Qed.

Lemma X25_witness :
  session Lab10.listen_step (Lab10.body Sample.online)
          [Sample.heard "сохранить и прощаюсь"; Sample.heard "случайный"]
          (Sample.with_selected Sample.rick)
  = (Stopped,
     {| selected := Sample.rick; files := ∅;
        log := [ Print (u "Распознано: сохранить и прощаюсь");
                 Say (VStr (u "До скорых встреч!")) ] |},
     [Sample.heard "случайный"]).
Proof.
  pose proof (proj2 (X25_exit_phrases_come_first Sample.online
                       (u "сохранить и прощаюсь")
                       (Sample.heard "сохранить и прощаюсь")
                       [Sample.heard "случайный"] (Sample.with_selected Sample.rick)
                       ltac:(right; vm_compute; reflexivity)
                       ltac:(vm_compute; reflexivity))) as H.
  rewrite H. vm_compute. reflexivity.
Defined.

(** ** Characters with missing fields *)

(** X26.  The handlers of Lab_10.py index the selected character without a
    default.  With a character selected, [origin] (and likewise [location])
    returns the "name" inside its "origin" object when both are there,
    raises [KeyError] when the "origin" key or that "name" is missing and
    [TypeError] when "origin" is not an object; [first_episode] raises
    [IndexError] when the list of episodes is empty.  None of them touches
    the state, and none returns an error message in these cases. *)
Theorem X26_missing_fields_raise (s : state) (d : list (str * value)) :
  selected s = VDict d -> d <> [] ->
  (forall key (h : M (value * value)),
      (key = u "origin" /\ h = Lab10.origin)
      \/ (key = u "location" /\ h = Lab10.location) ->
      (Py.lookup_key key d = None -> h s = (Raise KeyError, s))
      /\ (forall fields name,
             Py.lookup_key key d = Some (VDict fields) ->
             Py.lookup_key (u "name") fields = Some name ->
             h s = (Ok (name, VNone), s))
      /\ (forall fields,
             Py.lookup_key key d = Some (VDict fields) ->
             Py.lookup_key (u "name") fields = None ->
             h s = (Raise KeyError, s))
      /\ (forall o,
             Py.lookup_key key d = Some o ->
             (forall fields, o <> VDict fields) ->
             h s = (Raise TypeError, s)))
  /\ (forall E,
         Py.lookup_key (u "episode") d = Some (VList []) ->
         Lab10.first_episode E s = (Raise IndexError, s)).
Proof.
  intros Hsel Hd. destruct d as [|kv d]; [done|]. split.
  - intros key h [[-> ->] | [-> ->]];
      unfold Lab10.origin, Lab10.location; run_monad; rewrite Hsel; run_monad;
      cbn [Py.item]; repeat split.
    + by intros ->.
    + intros fields name -> Hn. cbn [Py.item]. by rewrite Hn.
    + intros fields -> Hn. cbn [Py.item]. by rewrite Hn.
    + intros o -> Ho. destruct o; try done. by destruct (Ho d0).
    + by intros ->.
    + intros fields name -> Hn. cbn [Py.item]. by rewrite Hn.
    + intros fields -> Hn. cbn [Py.item]. by rewrite Hn.
    + intros o -> Ho. destruct o; try done. by destruct (Ho d0).
  - intros E Heps. unfold Lab10.first_episode. run_monad. rewrite Hsel. run_monad.
    cbn [Py.item]. by rewrite Heps.
Qed.

Lemma X26_witness :
  Lab10.origin (Sample.with_selected Sample.rick)
  = (Ok (VStr (u "Earth (C-137)"), VNone), Sample.with_selected Sample.rick)
  /\ Lab10.location (Sample.with_selected Cases.bare_entry)
     = (Raise KeyError, Sample.with_selected Cases.bare_entry).
Proof.
  split.
  - pose proof (proj1 (proj2 (proj1 (X26_missing_fields_raise
                                       (Sample.with_selected Sample.rick)
                                       (Cases.fields Sample.rick)
                                       ltac:(vm_compute; reflexivity)
                                       ltac:(vm_compute; discriminate))
                                (u "origin") Lab10.origin
                                ltac:(left; split; reflexivity)))
                  [ (u "name", VStr (u "Earth (C-137)")) ] (VStr (u "Earth (C-137)"))
                  ltac:(vm_compute; reflexivity) ltac:(vm_compute; reflexivity)) as H.
    rewrite H. vm_compute. reflexivity.
  - pose proof (proj1 (proj1 (X26_missing_fields_raise
                                (Sample.with_selected Cases.bare_entry)
                                (Cases.fields Cases.bare_entry)
                                ltac:(vm_compute; reflexivity)
                                ltac:(vm_compute; discriminate))
                         (u "location") Lab10.location
                         ltac:(right; split; reflexivity))
                  ltac:(vm_compute; reflexivity)) as H.
    rewrite H. vm_compute. reflexivity.
Defined.

(** ** The selection across a session *)

Lemma Extra_perform_keeps_selection (E : env) (a : Extra.action) :
  keeps selected (Extra.perform E a).
Proof. destruct a; unfold Extra.perform; unfold_handlers; keeps_all. Qed.

Lemma Lab10_perform_keeps_selection (E : env) (c : Lab10.command) :
  c <> Lab10.random_ -> keeps selected (Lab10.perform E c).
Proof.
  intros Hc. destruct c; try done; unfold Lab10.perform; unfold_handlers; keeps_all.
Qed.

Lemma session_keeps {U X} (f : state -> X) (step : frame -> pull U)
      (body : U -> M flow) (fs : list frame) (s : state) :
  Forall (fun fr => forall t, step fr = Yield t -> keeps f (body t)) fs ->
  f (snd (fst (session step body fs s))) = f s.
Proof.
  intros Hfs. revert s. induction Hfs as [|fr fs Hfr _ IH]; intros s; [done|].
  simpl. destruct (step fr) as [|t| |e] eqn:Hstep; try done.
  specialize (Hfr t eq_refl s).
  destruct (body t s) as [[[| |]|e] s1]; cbn [fst snd] in *; try done.
  by rewrite IH.
Qed.

(** X27.  The selection lives through a session.  In Extra_.py, over any
    frames none of whose utterances is routed to a lookup, and in
    Lab_10.py, over any frames none of whose utterances takes the
    "случайный" branch, the selection at the end of the session (however
    it ends: exit, interrupt, exception, or waiting for more audio) is the
    selection at its start. *)
Theorem X27_selection_lives_through_session (E : env) (fs : list frame) (s : state) :
  (Forall (fun fr => forall t, Extra.listen_step E fr = Yield t ->
                               forall w, Extra.route t <> Extra.Lookup w) fs ->
   selected (snd (fst (session (Extra.listen_step E) (Extra.body E) fs s)))
   = selected s)
  /\ (Forall (fun fr => forall t, Lab10.listen_step fr = Yield t ->
                                  Lab10.branch (lower E t) <> Lab10.random_) fs ->
      selected (snd (fst (session Lab10.listen_step (Lab10.body E) fs s)))
      = selected s).
Proof.
  split; intros Hfs; apply session_keeps;
    (eapply Forall_impl; [exact Hfs|]); intros fr Hfr t Ht; specialize (Hfr t Ht).
  - unfold Extra.body. apply keeps_bind; [apply keeps_emit; reflexivity|]. intros _.
    destruct (Extra.route t) as [w|a|].
    + by destruct (Hfr w).
    + apply Extra_perform_keeps_selection.
    + unfold_handlers. keeps_all.
  - unfold Lab10.body. apply keeps_bind; [apply keeps_emit; reflexivity|]. intros _.
    by apply Lab10_perform_keeps_selection.
Qed.

Lemma X27_witness :
  selected (snd (fst (session (Extra.listen_step Sample.online)
                              (Extra.body Sample.online)
                              [Sample.heard "save"; Sample.heard "meaning";
                               Sample.heard "что"; Sample.heard "exit"]
                              (Sample.with_selected Sample.hello_entry))))
  = Sample.hello_entry.
Proof.
  apply (proj1 (X27_selection_lives_through_session Sample.online
                  [Sample.heard "save"; Sample.heard "meaning";
                   Sample.heard "что"; Sample.heard "exit"]
                  (Sample.with_selected Sample.hello_entry))).
  repeat constructor; intros t Ht w; vm_compute in Ht; injection Ht as <-;
    vm_compute; discriminate.
Defined.
